(** * The mock service's test-case registry (package mockns1)

    A shallow embedding of [AddTestCase], [ClearTestCases] and [convertBody]
    together with the parts of the Go standard library and of testify that
    they call, followed by the properties of the registry.

    Go strings are byte sequences: they are modelled by [string], whose
    characters are the 256 values of [ascii].  An [error] is modelled by its
    message; [None] is the nil error.

    The file of the registry also holds the DNS view service of package
    rest, in two revisions.  Its methods are embedded in the module [rest],
    over a client that is left abstract, and their properties follow those
    of the registry.  There an [error] is modelled by its dynamic type,
    since the methods switch on it. *)

From Stdlib Require Import String Ascii List ZArith Lia Bool.
From stdpp Require Import base option list gmap strings fin_maps.
Import ListNotations.
Local Open Scope string_scope.

(** ** Go slices and maps

    A slice value is either nil or a (possibly empty) sequence of elements;
    [reflect.DeepEqual] and testify tell the two apart. *)

Inductive slice (A : Type) : Type :=
| nil_slice
| mk_slice (l : list A).
Arguments nil_slice {A}.
Arguments mk_slice {A} l.

Definition elems {A} (s : slice A) : list A :=
  match s with
  | nil_slice => []
  | mk_slice l => l
  end.

(** [http.Header] is [map[string][]string]; the map itself may be nil. *)
Inductive Header : Type :=
| nil_Header
| mk_Header (m : gmap string (slice string)).

(** [[]byte(s)] for a string [s]: always a non-nil slice. *)
Definition bytes_of_string (s : string) : slice Byte.byte :=
  mk_slice (list_byte_of_string s).

(** ** Package strings *)

Fixpoint strings_HasPrefix (s prefix : string) {struct prefix} : bool :=
  match prefix with
  | EmptyString => true
  | String p prefix' =>
      match s with
      | EmptyString => false
      | String c s' => Ascii.eqb c p && strings_HasPrefix s' prefix'
      end
  end.

(** [strings.Replace(s, old, new, -1)] for a non-empty [old]: the
    non-overlapping occurrences of [old] are replaced from left to right.
    [skip] counts the bytes of the occurrence just replaced that are still
    to be passed over. *)
Fixpoint replace_from (old new : string) (skip : nat) (s : string) : string :=
  match s with
  | EmptyString => EmptyString
  | String c s' =>
      match skip with
      | S k => replace_from old new k s'
      | O =>
          if strings_HasPrefix s old
          then new +:+ replace_from old new (String.length old - 1) s'
          else String c (replace_from old new 0 s')
      end
  end.

Definition strings_Replace_all (s old new : string) : string :=
  replace_from old new 0 s.

(** [strings.Cut(s, sep)] for a one-byte separator. *)
Fixpoint strings_Cut (s : string) (sep : ascii) : string * string * bool :=
  match s with
  | EmptyString => (EmptyString, EmptyString, false)
  | String c s' =>
      if Ascii.eqb c sep then (EmptyString, s', true)
      else let '(before, after, found) := strings_Cut s' sep in
           (String c before, after, found)
  end.

Fixpoint strings_ContainsByte (s : string) (b : ascii) : bool :=
  match s with
  | EmptyString => false
  | String c s' => Ascii.eqb c b || strings_ContainsByte s' b
  end.

Fixpoint strings_CountByte (s : string) (b : ascii) : nat :=
  match s with
  | EmptyString => 0
  | String c s' => (if Ascii.eqb c b then 1 else 0) + strings_CountByte s' b
  end.

Fixpoint strings_HasSuffixByte (s : string) (b : ascii) : bool :=
  match s with
  | EmptyString => false
  | String c EmptyString => Ascii.eqb c b
  | String _ s' => strings_HasSuffixByte s' b
  end.

Fixpoint strings_dropLast (s : string) : string :=
  match s with
  | EmptyString => EmptyString
  | String _ EmptyString => EmptyString
  | String c s' => String c (strings_dropLast s')
  end.

Definition byte_in (lo hi : N) (c : ascii) : bool :=
  (lo <=? N_of_ascii c)%N && (N_of_ascii c <=? hi)%N.

Definition is_lower (c : ascii) : bool := byte_in 97 122 c.
Definition is_upper (c : ascii) : bool := byte_in 65 90 c.
Definition is_digit (c : ascii) : bool := byte_in 48 57 c.

Definition toLower_byte (c : ascii) : ascii :=
  if is_upper c then ascii_of_N (N_of_ascii c + 32) else c.

Fixpoint strings_ToLower (s : string) : string :=
  match s with
  | EmptyString => EmptyString
  | String c s' => String (toLower_byte c) (strings_ToLower s')
  end.

Fixpoint strings_Split (s : string) (sep : ascii) : list string :=
  match s with
  | EmptyString => [EmptyString]
  | String c s' =>
      if Ascii.eqb c sep then EmptyString :: strings_Split s' sep
      else match strings_Split s' sep with
           | h :: t => String c h :: t
           | [] => [String c EmptyString]
           end
  end.

(** [s[:strings.LastIndexByte(s, sep)]], or [None] when [sep] does not
    occur in [s]. *)
Fixpoint before_last (s : string) (sep : ascii) : option string :=
  match s with
  | EmptyString => None
  | String c s' =>
      match before_last s' sep with
      | Some p => Some (String c p)
      | None => if Ascii.eqb c sep then Some EmptyString else None
      end
  end.

(** [fmt.Sprintf] with the two formats of [AddTestCase]; every verb is
    [%s] and every argument a string. *)
Definition Sprintf_first (uri key value : string) : string :=
  uri +:+ "?" +:+ key +:+ "=" +:+ value.

Definition Sprintf_next (uri key value : string) : string :=
  uri +:+ "&" +:+ key +:+ "=" +:+ value.

(** ** Package net/url

    [url.Parse], [URL.ResolveReference] and [URL.RequestURI] with the
    functions they call.  The authority parser ([parseAuthority]: user
    information, host and port) is left to the section's variable of that
    name: [AddTestCase] only parses strings that begin with "/v1/", which
    never reach it. *)

Record Userinfo : Type := {
  username : string;
  password : string;
  passwordSet : bool
}.

Record URL : Type := {
  Scheme : string;
  Opaque : string;
  User : option Userinfo;
  Host : string;
  Path : string;
  RawPath : string;
  OmitHost : bool;
  ForceQuery : bool;
  RawQuery : string;
  Fragment : string;
  RawFragment : string
}.

Inductive url_error : Type :=
| ErrControlCharacter       (* invalid control character in URL *)
| ErrMissingScheme          (* missing protocol scheme *)
| ErrColonInFirstSegment    (* first path segment in URL cannot contain colon *)
| EscapeError (s : string)  (* invalid URL escape *)
| ErrAuthority (msg : string).

(** The two escaping modes that occur outside the authority. *)
Inductive encoding : Type := encodePath | encodeFragment.

Definition zero_URL : URL :=
  {| Scheme := ""; Opaque := ""; User := None; Host := ""; Path := "";
     RawPath := ""; OmitHost := false; ForceQuery := false; RawQuery := "";
     Fragment := ""; RawFragment := "" |}.

Definition stringContainsCTLByte (s : string) : bool :=
  existsb (fun b => (N_of_ascii b <? 32)%N || (N_of_ascii b =? 127)%N)
          (list_ascii_of_string s).

Definition ishex (c : ascii) : bool :=
  is_digit c || byte_in 97 102 c || byte_in 65 70 c.

Definition unhex (c : ascii) : N :=
  if is_digit c then N_of_ascii c - 48
  else if byte_in 97 102 c then N_of_ascii c - 97 + 10
  else if byte_in 65 70 c then N_of_ascii c - 65 + 10
  else 0.

Definition upperhex (n : N) : ascii :=
  if (n <? 10)%N then ascii_of_N (48 + n) else ascii_of_N (65 + (n - 10)).

Definition byte_among (c : ascii) (l : string) : bool := strings_ContainsByte l c.

Definition shouldEscape (c : ascii) (mode : encoding) : bool :=
  if is_lower c || is_upper c || is_digit c then false
  else if byte_among c "-_.~" then false
  else if byte_among c "$&+,/:;=?@" then
    match mode with
    | encodePath => Ascii.eqb c "?"
    | encodeFragment => false
    end
  else match mode with
       | encodeFragment => negb (byte_among c "!()*")
       | encodePath => true
       end.

(** [unescape(s, mode)] for the modes above: a '%' must be followed by two
    hexadecimal digits, and '+' stands for itself. *)
Fixpoint unescape (s : string) : string + url_error :=
  match s with
  | EmptyString => inl EmptyString
  | String c s' =>
      if Ascii.eqb c "%" then
        match s' with
        | String h1 (String h2 rest) =>
            if ishex h1 && ishex h2 then
              match unescape rest with
              | inl t => inl (String (ascii_of_N (unhex h1 * 16 + unhex h2)) t)
              | inr e => inr e
              end
            else inr (EscapeError (String c (String h1 (String h2 EmptyString))))
        | _ => inr (EscapeError s)
        end
      else match unescape s' with
           | inl t => inl (String c t)
           | inr e => inr e
           end
  end.

Fixpoint escape (s : string) (mode : encoding) : string :=
  match s with
  | EmptyString => EmptyString
  | String c s' =>
      if shouldEscape c mode then
        String "%" (String (upperhex (N_of_ascii c / 16))
                      (String (upperhex (N_of_ascii c mod 16)) (escape s' mode)))
      else String c (escape s' mode)
  end.

Fixpoint validEncoded (s : string) (mode : encoding) : bool :=
  match s with
  | EmptyString => true
  | String c s' =>
      (byte_among c "!$&'()*+,;=:@[]%" || negb (shouldEscape c mode))
      && validEncoded s' mode
  end.

Definition setPath (u : URL) (p : string) : URL + url_error :=
  match unescape p with
  | inr e => inr e
  | inl path =>
      inl {| Scheme := Scheme u; Opaque := Opaque u; User := User u;
             Host := Host u; Path := path;
             RawPath := if String.eqb p (escape path encodePath) then "" else p;
             OmitHost := OmitHost u; ForceQuery := ForceQuery u;
             RawQuery := RawQuery u; Fragment := Fragment u;
             RawFragment := RawFragment u |}
  end.

Definition setFragment (u : URL) (f : string) : URL + url_error :=
  match unescape f with
  | inr e => inr e
  | inl frag =>
      inl {| Scheme := Scheme u; Opaque := Opaque u; User := User u;
             Host := Host u; Path := Path u; RawPath := RawPath u;
             OmitHost := OmitHost u; ForceQuery := ForceQuery u;
             RawQuery := RawQuery u; Fragment := frag;
             RawFragment :=
               if String.eqb f (escape frag encodeFragment) then "" else f |}
  end.

Inductive scheme_scan : Type :=
| NoScheme
| BadScheme
| FoundScheme (scheme rest : string).

Fixpoint getScheme_scan (at_start : bool) (s : string) : scheme_scan :=
  match s with
  | EmptyString => NoScheme
  | String c s' =>
      let continue :=
        match getScheme_scan false s' with
        | FoundScheme scheme rest => FoundScheme (String c scheme) rest
        | r => r
        end in
      if is_lower c || is_upper c then continue
      else if is_digit c || byte_among c "+-." then
        if at_start then NoScheme else continue
      else if Ascii.eqb c ":" then
        if at_start then BadScheme else FoundScheme EmptyString s'
      else NoScheme
  end.

Definition getScheme (rawURL : string) : (string * string) + url_error :=
  match getScheme_scan true rawURL with
  | NoScheme => inl (EmptyString, rawURL)
  | BadScheme => inr ErrMissingScheme
  | FoundScheme scheme rest => inl (scheme, rest)
  end.

Definition EscapedPath (u : URL) : string :=
  if negb (String.eqb (RawPath u) "") && validEncoded (RawPath u) encodePath
     && match unescape (RawPath u) with
        | inl p => String.eqb p (Path u)
        | inr _ => false
        end
  then RawPath u
  else if String.eqb (Path u) "*" then "*"
  else escape (Path u) encodePath.

(** One round of the loop of [resolvePath]: [dst] is the builder's content
    and [first] the flag of that name. *)
Definition resolvePath_step (st : string * bool) (elem : string) : string * bool :=
  let '(dst, first) := st in
  if String.eqb elem "." then (dst, false)
  else if String.eqb elem ".." then
    match before_last (String.substring 1 (String.length dst - 1) dst) "/" with
    | None => ("/", true)
    | Some kept => ("/" +:+ kept, first)
    end
  else ((if first then dst else dst +:+ "/") +:+ elem, false).

Definition resolvePath (base ref : string) : string :=
  let full :=
    match ref with
    | EmptyString => base
    | String c _ =>
        if Ascii.eqb c "/" then ref
        else match before_last base "/" with
             | Some dir => dir +:+ "/" +:+ ref
             | None => ref
             end
    end in
  if String.eqb full "" then ""
  else
    let elems := strings_Split full "/" in
    let '(dst, _) := fold_left resolvePath_step elems ("/", true) in
    let last_elem := List.last elems EmptyString in
    let r := if String.eqb last_elem "." || String.eqb last_elem ".."
             then dst +:+ "/" else dst in
    match r with
    | String _ (String c r') => if Ascii.eqb c "/" then String c r' else r
    | _ => r
    end.

Definition set_Scheme (u : URL) (v : string) : URL :=
  {| Scheme := v; Opaque := Opaque u; User := User u; Host := Host u;
     Path := Path u; RawPath := RawPath u; OmitHost := OmitHost u;
     ForceQuery := ForceQuery u; RawQuery := RawQuery u;
     Fragment := Fragment u; RawFragment := RawFragment u |}.

Definition set_Opaque (u : URL) (v : string) : URL :=
  {| Scheme := Scheme u; Opaque := v; User := User u; Host := Host u;
     Path := Path u; RawPath := RawPath u; OmitHost := OmitHost u;
     ForceQuery := ForceQuery u; RawQuery := RawQuery u;
     Fragment := Fragment u; RawFragment := RawFragment u |}.

Definition set_User_Host (u : URL) (user : option Userinfo) (host : string) : URL :=
  {| Scheme := Scheme u; Opaque := Opaque u; User := user; Host := host;
     Path := Path u; RawPath := RawPath u; OmitHost := OmitHost u;
     ForceQuery := ForceQuery u; RawQuery := RawQuery u;
     Fragment := Fragment u; RawFragment := RawFragment u |}.

Definition set_Path (u : URL) (v : string) : URL :=
  {| Scheme := Scheme u; Opaque := Opaque u; User := User u; Host := Host u;
     Path := v; RawPath := RawPath u; OmitHost := OmitHost u;
     ForceQuery := ForceQuery u; RawQuery := RawQuery u;
     Fragment := Fragment u; RawFragment := RawFragment u |}.

Definition set_OmitHost (u : URL) (v : bool) : URL :=
  {| Scheme := Scheme u; Opaque := Opaque u; User := User u; Host := Host u;
     Path := Path u; RawPath := RawPath u; OmitHost := v;
     ForceQuery := ForceQuery u; RawQuery := RawQuery u;
     Fragment := Fragment u; RawFragment := RawFragment u |}.

Definition set_ForceQuery (u : URL) (v : bool) : URL :=
  {| Scheme := Scheme u; Opaque := Opaque u; User := User u; Host := Host u;
     Path := Path u; RawPath := RawPath u; OmitHost := OmitHost u;
     ForceQuery := v; RawQuery := RawQuery u;
     Fragment := Fragment u; RawFragment := RawFragment u |}.

Definition set_RawQuery (u : URL) (v : string) : URL :=
  {| Scheme := Scheme u; Opaque := Opaque u; User := User u; Host := Host u;
     Path := Path u; RawPath := RawPath u; OmitHost := OmitHost u;
     ForceQuery := ForceQuery u; RawQuery := v;
     Fragment := Fragment u; RawFragment := RawFragment u |}.

Definition set_Fragment (u : URL) (frag raw : string) : URL :=
  {| Scheme := Scheme u; Opaque := Opaque u; User := User u; Host := Host u;
     Path := Path u; RawPath := RawPath u; OmitHost := OmitHost u;
     ForceQuery := ForceQuery u; RawQuery := RawQuery u;
     Fragment := frag; RawFragment := raw |}.

Definition nonempty (s : string) : bool := negb (String.eqb s "").

(** [u.setPath(p)] with its error dropped, as [ResolveReference] calls it:
    on an error the receiver is left as it was. *)
Definition setPath_ignore (u : URL) (p : string) : URL :=
  match setPath u p with
  | inl u' => u'
  | inr _ => u
  end.

Definition ResolveReference (u ref : URL) : URL :=
  let url := if nonempty (Scheme ref) then ref else set_Scheme ref (Scheme u) in
  if nonempty (Scheme ref) || nonempty (Host ref) || bool_decide (is_Some (User ref))
  then setPath_ignore url (resolvePath (EscapedPath ref) "")
  else if nonempty (Opaque ref)
  then set_Path (set_User_Host url None "") ""
  else
    let url :=
      if String.eqb (Path ref) "" && negb (ForceQuery ref)
         && String.eqb (RawQuery ref) ""
      then
        let url := set_RawQuery url (RawQuery u) in
        if String.eqb (Fragment ref) ""
        then set_Fragment url (Fragment u) (RawFragment u)
        else url
      else url in
    if String.eqb (Path ref) "" && nonempty (Opaque u)
    then set_Path (set_User_Host (set_Opaque url (Opaque u)) None "") ""
    else
      setPath_ignore (set_User_Host url (User u) (Host u))
                     (resolvePath (EscapedPath u) (EscapedPath ref)).

Definition RequestURI (u : URL) : string :=
  let result :=
    if String.eqb (Opaque u) "" then
      let p := EscapedPath u in
      if String.eqb p "" then "/" else p
    else if strings_HasPrefix (Opaque u) "//"
         then Scheme u +:+ ":" +:+ Opaque u
         else Opaque u in
  if ForceQuery u || nonempty (RawQuery u)
  then result +:+ "?" +:+ RawQuery u
  else result.

(** ** testify: [assert.Equal]

    [assert.Equal(t, expected, actual)] returns [ObjectsAreEqual(expected,
    actual)].  For two [[]byte] values that is [bytes.Equal] unless one of
    them is nil, in which case both must be; for two [http.Header] values it
    is [reflect.DeepEqual]. *)

Definition slice_DeepEqual {A} (eqb : A -> A -> bool) (x y : slice A) : bool :=
  match x, y with
  | nil_slice, nil_slice => true
  | mk_slice a, mk_slice b =>
      (length a =? length b)%nat && forallb (fun p => eqb (fst p) (snd p)) (combine a b)
  | _, _ => false
  end.

Definition Header_DeepEqual (x y : Header) : bool :=
  match x, y with
  | nil_Header, nil_Header => true
  | mk_Header m1, mk_Header m2 =>
      (size m1 =? size m2)%nat
      && forallb (fun kv =>
                    match m2 !! fst kv with
                    | Some v' => slice_DeepEqual String.eqb (snd kv) v'
                    | None => false
                    end)
                 (map_to_list m1)
  | _, _ => false
  end.

Definition assert_Equal_Header (expected actual : Header) : bool :=
  Header_DeepEqual expected actual.

Definition assert_Equal_bytes (expected actual : slice Byte.byte) : bool :=
  match expected, actual with
  | nil_slice, nil_slice => true
  | mk_slice exp, mk_slice act =>
      (length exp =? length act)%nat
      && forallb (fun p => Byte.eqb (fst p) (snd p)) (combine exp act)
  | _, _ => false
  end.

(** ** Parameters and test cases

    [api.Param] is a pair of strings.  The two anonymous structs of
    [testCase] are flattened: [request_headers] is [request.headers], and so
    on. *)

Record Param : Type := { Key : string; Value : string }.

Record testCase : Type := {
  status : Z;
  request_headers : Header;
  request_body : slice Byte.byte;
  request_json : bool;
  response_headers : Header;
  response_body : slice Byte.byte
}.

(** * The DNS view service (package rest)

    The file holds two revisions of the service.  In the first one every
    method has a variant that takes a context, which it attaches to the
    request with [WithContext]; in the second one the context is the first
    argument of every method and of the client's [NewRequest].

    The client is outside this file: its methods [NewRequest] and [Do] are
    variables of the sections below.  They act on the world (the network,
    and what their arguments point to), which is threaded through every
    call; a call returns or panics. *)

Module rest.

Inductive outcome (A : Type) : Type :=
| returned (a : A)
| panicked.
Arguments returned {A} a.
Arguments panicked {A}.

Definition M (World A : Type) : Type := World -> outcome (A * World).

#[global] Instance M_ret {World : Type} : MRet (M World) :=
  fun A a w => returned (a, w).

#[global] Instance M_bind {World : Type} : MBind (M World) :=
  fun A B f m w =>
    match m w with
    | returned (a, w') => f a w'
    | panicked => panicked
    end.

Definition panic {World A : Type} : M World A := fun _ => panicked.

(** [map[string]int]: nil, or a map. *)
Inductive preferences : Type :=
| nil_preferences
| mk_preferences (m : gmap string Z).

Definition http_StatusNotFound : Z := 404.
Definition http_StatusConflict : Z := 409.

Section Values.

Variable World : Type.
Variable Response : Type.
Variable StatusCode : Response -> Z.

(** The struct [Error] of the package, of which this file reads the field
    [Resp], a pointer to the response. *)
Variable Error : Type.
Variable Resp : Error -> option Response.

Variable OtherError : Type.
Variable DNSView : Type.

(** A non-nil [error], by its dynamic type: a pointer to an [Error], which
    may be nil; one of the two values that this file makes with
    [errors.New]; or a value of another type. *)
Inductive error : Type :=
| api_error (e : option Error)
| ErrViewExists
| ErrViewMissing
| other_error (e : OtherError).

(** The request bodies that the methods pass to [NewRequest]: nil, a
    pointer to a view, the address of such a pointer, a map. *)
Inductive body : Type :=
| no_body
| view_body (v : option DNSView)
| view_ref_body (v : option DNSView)
| preferences_body (m : preferences).

(** The type switch on the error of [Do] with its one case:
    [errType.Resp.StatusCode == code] for a pointer to an [Error], which
    panics when the pointer or [Resp] is nil; no case for another type. *)
Definition status_is (err : error) (code : Z) : M World bool :=
  match err with
  | api_error None => panic
  | api_error (Some errType) =>
      match Resp errType with
      | None => panic
      | Some resp => mret (StatusCode resp =? code)%Z
      end
  | _ => mret false
  end.

End Values.

Arguments api_error {Error OtherError} e.
Arguments ErrViewExists {Error OtherError}.
Arguments ErrViewMissing {Error OtherError}.
Arguments other_error {Error OtherError} e.
Arguments no_body {DNSView}.
Arguments view_body {DNSView} v.
Arguments view_ref_body {DNSView} v.
Arguments preferences_body {DNSView} m.
Arguments status_is {World Response} StatusCode {Error} Resp {OtherError} err code.

(** ** The first revision: lines 1 to 228 *)

Module v1.
Section DNSViewService.

Variable World : Type.
Variable Context Request Response : Type.
Variable StatusCode : Response -> Z.
Variable Error : Type.
Variable Resp : Error -> option Response.
Variable OtherError : Type.

(** [dns.DNSView] with its field [Name], and its zero value. *)
Variable DNSView : Type.
Variable Name : DNSView -> string.
Variable zero_DNSView : DNSView.

Variable context_Background : Context.

(** [s.client.NewRequest(method, path, body)] and [req.WithContext(ctx)]. *)
Variable NewRequest :
  string -> string -> body DNSView -> M World (Request * option (error Error OtherError)).
Variable WithContext : Request -> Context -> M World Request.

(** [s.client.Do(req, v)]: the third argument is the content of the variable
    that [v] points to, and comes back as [Do] leaves it.  A nil [v] points
    to nothing: the value of [unit]. *)
Variable Do :
  forall T : Type,
    Request -> T -> M World (T * option Response * option (error Error OtherError)).

Definition ListWithContext (ctx : Context)
    : M World (slice (option DNSView) * option Response
               * option (error Error OtherError)) :=
  '(req, err) ← NewRequest "GET" "views" no_body;
  match err with
  | Some err => mret (nil_slice, None, Some err)
  | None =>
      req ← WithContext req ctx;
      '(vl, resp, err) ← Do (slice (option DNSView)) req nil_slice;
      match err with
      | Some err => mret (nil_slice, resp, Some err)
      | None => mret (vl, resp, None)
      end
  end.

Definition List := ListWithContext context_Background.

Definition CreateWithContext (ctx : Context) (v : option DNSView)
    : M World (option Response * option (error Error OtherError)) :=
  match v with
  | None => panic
  | Some view =>
      '(req, err) ← NewRequest "PUT" ("/v1/views/" +:+ Name view) (view_body v);
      match err with
      | Some err => mret (None, Some err)
      | None =>
          req ← WithContext req ctx;
          '(_, resp, err) ← Do unit req tt;
          match err with
          | Some err =>
              conflict ← status_is StatusCode Resp err http_StatusConflict;
              if conflict : bool then mret (None, Some ErrViewExists)
              else mret (resp, Some err)
          | None => mret (resp, None)
          end
      end
  end.

Definition Create := CreateWithContext context_Background.

Definition GetWithContext (ctx : Context) (viewName : string)
    : M World (option DNSView * option Response
               * option (error Error OtherError)) :=
  let path := "views/" +:+ viewName in
  '(req, err) ← NewRequest "GET" path no_body;
  match err with
  | Some err => mret (None, None, Some err)
  | None =>
      req ← WithContext req ctx;
      '(v, resp, err) ← Do DNSView req zero_DNSView;
      match err with
      | Some err =>
          missing ← status_is StatusCode Resp err http_StatusNotFound;
          if missing : bool then mret (None, resp, Some ErrViewMissing)
          else mret (None, resp, Some err)
      | None => mret (Some v, resp, None)
      end
  end.

Definition Get := GetWithContext context_Background.

Definition UpdateWithContext (ctx : Context) (v : option DNSView)
    : M World (option Response * option (error Error OtherError)) :=
  match v with
  | None => panic
  | Some view =>
      let path := "views/" +:+ Name view in
      '(req, err) ← NewRequest "POST" path (view_ref_body v);
      match err with
      | Some err => mret (None, Some err)
      | None =>
          req ← WithContext req ctx;
          '(_, resp, err) ← Do (option DNSView) req v;
          match err with
          | Some err =>
              missing ← status_is StatusCode Resp err http_StatusNotFound;
              if missing : bool then mret (resp, Some ErrViewMissing)
              else mret (resp, Some err)
          | None => mret (resp, None)
          end
      end
  end.

Definition Update := UpdateWithContext context_Background.

Definition DeleteWithContext (ctx : Context) (viewName : string)
    : M World (option Response * option (error Error OtherError)) :=
  let path := "views/" +:+ viewName in
  '(req, err) ← NewRequest "DELETE" path no_body;
  match err with
  | Some err => mret (None, Some err)
  | None =>
      req ← WithContext req ctx;
      '(_, resp, err) ← Do unit req tt;
      match err with
      | Some err =>
          missing ← status_is StatusCode Resp err http_StatusNotFound;
          if missing : bool then mret (resp, Some ErrViewMissing)
          else mret (resp, Some err)
      | None => mret (resp, None)
      end
  end.

Definition Delete := DeleteWithContext context_Background.

Definition GetPreferencesWithContext (ctx : Context)
    : M World (preferences * option Response * option (error Error OtherError)) :=
  let path := "config/views/preference" in
  '(req, err) ← NewRequest "GET" path no_body;
  match err with
  | Some err => mret (nil_preferences, None, Some err)
  | None =>
      req ← WithContext req ctx;
      '(m, resp, err) ← Do preferences req (mk_preferences ∅);
      match err with
      | Some err => mret (nil_preferences, resp, Some err)
      | None => mret (m, resp, None)
      end
  end.

Definition GetPreferences := GetPreferencesWithContext context_Background.

Definition UpdatePreferencesWithContext (ctx : Context) (m : preferences)
    : M World (preferences * option Response * option (error Error OtherError)) :=
  let path := "config/views/preference" in
  '(req, err) ← NewRequest "POST" path (preferences_body m);
  match err with
  | Some err => mret (nil_preferences, None, Some err)
  | None =>
      req ← WithContext req ctx;
      '(mapUpdated, resp, err) ← Do preferences req (mk_preferences ∅);
      match err with
      | Some err =>
          missing ← status_is StatusCode Resp err http_StatusNotFound;
          if missing : bool then mret (nil_preferences, resp, Some ErrViewMissing)
          else mret (nil_preferences, resp, Some err)
      | None => mret (mapUpdated, resp, None)
      end
  end.

Definition UpdatePreferences := UpdatePreferencesWithContext context_Background.

End DNSViewService.

Arguments ListWithContext {World Context Request Response Error OtherError DNSView} NewRequest WithContext Do ctx _.
Arguments List {World Context Request Response Error OtherError DNSView} context_Background NewRequest WithContext Do _.
Arguments CreateWithContext {World Context Request Response} StatusCode {Error} Resp {OtherError DNSView} Name NewRequest WithContext Do ctx v _.
Arguments Create {World Context Request Response} StatusCode {Error} Resp {OtherError DNSView} Name context_Background NewRequest WithContext Do v _.
Arguments GetWithContext {World Context Request Response} StatusCode {Error} Resp {OtherError DNSView} zero_DNSView NewRequest WithContext Do ctx viewName _.
Arguments Get {World Context Request Response} StatusCode {Error} Resp {OtherError DNSView} zero_DNSView context_Background NewRequest WithContext Do viewName _.
Arguments UpdateWithContext {World Context Request Response} StatusCode {Error} Resp {OtherError DNSView} Name NewRequest WithContext Do ctx v _.
Arguments Update {World Context Request Response} StatusCode {Error} Resp {OtherError DNSView} Name context_Background NewRequest WithContext Do v _.
Arguments DeleteWithContext {World Context Request Response} StatusCode {Error} Resp {OtherError DNSView} NewRequest WithContext Do ctx viewName _.
Arguments Delete {World Context Request Response} StatusCode {Error} Resp {OtherError DNSView} context_Background NewRequest WithContext Do viewName _.
Arguments GetPreferencesWithContext {World Context Request Response Error OtherError DNSView} NewRequest WithContext Do ctx _.
Arguments GetPreferences {World Context Request Response Error OtherError DNSView} context_Background NewRequest WithContext Do _.
Arguments UpdatePreferencesWithContext {World Context Request Response} StatusCode {Error} Resp {OtherError DNSView} NewRequest WithContext Do ctx m _.
Arguments UpdatePreferences {World Context Request Response} StatusCode {Error} Resp {OtherError DNSView} context_Background NewRequest WithContext Do m _.

End v1.

(** ** The second revision: lines 229 to 414 *)

Module v2.
Section DNSViewService.

Variable World : Type.
Variable Context Request Response : Type.
Variable StatusCode : Response -> Z.
Variable Error : Type.
Variable Resp : Error -> option Response.
Variable OtherError : Type.
Variable DNSView : Type.
Variable Name : DNSView -> string.
Variable zero_DNSView : DNSView.

(** [s.client.NewRequest(ctx, method, path, body)] and [s.client.Do(req, v)]. *)
Variable NewRequest :
  Context -> string -> string -> body DNSView
  -> M World (Request * option (error Error OtherError)).
Variable Do :
  forall T : Type,
    Request -> T -> M World (T * option Response * option (error Error OtherError)).

Definition List (ctx : Context)
    : M World (slice (option DNSView) * option Response
               * option (error Error OtherError)) :=
  '(req, err) ← NewRequest ctx "GET" "views" no_body;
  match err with
  | Some err => mret (nil_slice, None, Some err)
  | None =>
      '(vl, resp, err) ← Do (slice (option DNSView)) req nil_slice;
      match err with
      | Some err => mret (nil_slice, resp, Some err)
      | None => mret (vl, resp, None)
      end
  end.

Definition Create (ctx : Context) (v : option DNSView)
    : M World (option Response * option (error Error OtherError)) :=
  match v with
  | None => panic
  | Some view =>
      '(req, err) ← NewRequest ctx "PUT" ("/v1/views/" +:+ Name view) (view_body v);
      match err with
      | Some err => mret (None, Some err)
      | None =>
          '(_, resp, err) ← Do unit req tt;
          match err with
          | Some err =>
              conflict ← status_is StatusCode Resp err http_StatusConflict;
              if conflict : bool then mret (None, Some ErrViewExists)
              else mret (resp, Some err)
          | None => mret (resp, None)
          end
      end
  end.

Definition Get (ctx : Context) (viewName : string)
    : M World (option DNSView * option Response
               * option (error Error OtherError)) :=
  let path := "views/" +:+ viewName in
  '(req, err) ← NewRequest ctx "GET" path no_body;
  match err with
  | Some err => mret (None, None, Some err)
  | None =>
      '(v, resp, err) ← Do DNSView req zero_DNSView;
      match err with
      | Some err =>
          missing ← status_is StatusCode Resp err http_StatusNotFound;
          if missing : bool then mret (None, resp, Some ErrViewMissing)
          else mret (None, resp, Some err)
      | None => mret (Some v, resp, None)
      end
  end.

Definition Update (ctx : Context) (v : option DNSView)
    : M World (option Response * option (error Error OtherError)) :=
  match v with
  | None => panic
  | Some view =>
      let path := "views/" +:+ Name view in
      '(req, err) ← NewRequest ctx "POST" path (view_ref_body v);
      match err with
      | Some err => mret (None, Some err)
      | None =>
          '(_, resp, err) ← Do (option DNSView) req v;
          match err with
          | Some err =>
              missing ← status_is StatusCode Resp err http_StatusNotFound;
              if missing : bool then mret (resp, Some ErrViewMissing)
              else mret (resp, Some err)
          | None => mret (resp, None)
          end
      end
  end.

Definition Delete (ctx : Context) (viewName : string)
    : M World (option Response * option (error Error OtherError)) :=
  let path := "views/" +:+ viewName in
  '(req, err) ← NewRequest ctx "DELETE" path no_body;
  match err with
  | Some err => mret (None, Some err)
  | None =>
      '(_, resp, err) ← Do unit req tt;
      match err with
      | Some err =>
          missing ← status_is StatusCode Resp err http_StatusNotFound;
          if missing : bool then mret (resp, Some ErrViewMissing)
          else mret (resp, Some err)
      | None => mret (resp, None)
      end
  end.

Definition GetPreferences (ctx : Context)
    : M World (preferences * option Response * option (error Error OtherError)) :=
  let path := "config/views/preference" in
  '(req, err) ← NewRequest ctx "GET" path no_body;
  match err with
  | Some err => mret (nil_preferences, None, Some err)
  | None =>
      '(m, resp, err) ← Do preferences req (mk_preferences ∅);
      match err with
      | Some err => mret (nil_preferences, resp, Some err)
      | None => mret (m, resp, None)
      end
  end.

Definition UpdatePreferences (ctx : Context) (m : preferences)
    : M World (preferences * option Response * option (error Error OtherError)) :=
  let path := "config/views/preference" in
  '(req, err) ← NewRequest ctx "POST" path (preferences_body m);
  match err with
  | Some err => mret (nil_preferences, None, Some err)
  | None =>
      '(mapUpdated, resp, err) ← Do preferences req (mk_preferences ∅);
      match err with
      | Some err =>
          missing ← status_is StatusCode Resp err http_StatusNotFound;
          if missing : bool then mret (nil_preferences, resp, Some ErrViewMissing)
          else mret (nil_preferences, resp, Some err)
      | None => mret (mapUpdated, resp, None)
      end
  end.

(** The client of the second revision that a client of the first one
    makes: its [NewRequest] attaches the context to the request. *)
Definition NewRequest_WithContext
    (NewRequest1 : string -> string -> body DNSView
                   -> M World (Request * option (error Error OtherError)))
    (WithContext : Request -> Context -> M World Request)
    (ctx : Context) (method path : string) (b : body DNSView)
    : M World (Request * option (error Error OtherError)) :=
  '(req, err) ← NewRequest1 method path b;
  match err with
  | Some err => mret (req, Some err)
  | None => req ← WithContext req ctx; mret (req, None)
  end.

(** *** What the client does, for the statements below *)

(** The client builds the request and [Do] returns for it the response
    [resp] and a pointer to an [Error] whose own response has the status
    [code]. *)
Definition answered (T : Type) (ctx : Context) (method path : string)
    (b : body DNSView) (target : T) (code : Z)
    (w : World) (resp : option Response) (w' : World) : Prop :=
  exists req w1 target' errType r,
    NewRequest ctx method path b w = returned ((req, None), w1)
    /\ Do T req target w1
       = returned ((target', resp, Some (api_error (Some errType))), w')
    /\ Resp errType = Some r
    /\ StatusCode r = code.

(** The client builds the request and [Do] returns for it a pointer to an
    [Error] that is nil or whose response is nil. *)
Definition answered_without_response (T : Type) (ctx : Context)
    (method path : string) (b : body DNSView) (target : T) (w : World) : Prop :=
  exists req w1 target' resp e w',
    NewRequest ctx method path b w = returned ((req, None), w1)
    /\ Do T req target w1 = returned ((target', resp, Some (api_error e)), w')
    /\ (e = None \/ exists errType, e = Some errType /\ Resp errType = None).

(** A client that never panics. *)
Definition client_returns : Prop :=
  (forall ctx method path b w, NewRequest ctx method path b w <> panicked)
  /\ (forall T req target w, Do T req target w <> panicked).

(** A client that returns neither [ErrViewExists] nor [ErrViewMissing]. *)
Definition no_sentinel (err : option (error Error OtherError)) : Prop :=
  err <> Some ErrViewExists /\ err <> Some ErrViewMissing.

Definition client_makes_no_sentinel : Prop :=
  (forall ctx method path b w req err w',
      NewRequest ctx method path b w = returned ((req, err), w') ->
      no_sentinel err)
  /\ (forall T req target w target' resp err w',
         Do T req target w = returned ((target', resp, err), w') ->
         no_sentinel err).

End DNSViewService.

Arguments List {World Context Request Response Error OtherError DNSView} NewRequest Do ctx _.
Arguments Create {World Context Request Response} StatusCode {Error} Resp {OtherError DNSView} Name NewRequest Do ctx v _.
Arguments Get {World Context Request Response} StatusCode {Error} Resp {OtherError DNSView} zero_DNSView NewRequest Do ctx viewName _.
Arguments Update {World Context Request Response} StatusCode {Error} Resp {OtherError DNSView} Name NewRequest Do ctx v _.
Arguments Delete {World Context Request Response} StatusCode {Error} Resp {OtherError DNSView} NewRequest Do ctx viewName _.
Arguments GetPreferences {World Context Request Response Error OtherError DNSView} NewRequest Do ctx _.
Arguments UpdatePreferences {World Context Request Response} StatusCode {Error} Resp {OtherError DNSView} NewRequest Do ctx m _.
Arguments NewRequest_WithContext {World Context Request Error OtherError DNSView}
  NewRequest1 WithContext ctx method path b _.
Arguments answered {World Context Request Response} StatusCode {Error} Resp
  {OtherError DNSView} NewRequest Do T ctx method path b target code w resp w'.
Arguments answered_without_response {World Context Request Response Error} Resp
  {OtherError DNSView} NewRequest Do T ctx method path b target w.
Arguments client_returns {World Context Request Response Error OtherError DNSView}
  NewRequest Do.
Arguments no_sentinel {Error OtherError} err.
Arguments client_makes_no_sentinel
  {World Context Request Response Error OtherError DNSView} NewRequest Do.

End v2.

End rest.

(** ** Sample collaborators

    Used by the examples at the end of the file.  None of the examples parses
    a string with an authority.  [chan_int] stands for a channel value, a
    type that [json.Marshal] does not support; [bool_true] for the boolean
    [true].  The sample timer is the log of the calls made on it. *)

Definition sample_parseAuthority (authority : string)
    : (option Userinfo * string) + url_error :=
  inr (ErrAuthority authority).

Inductive sample_value : Type := chan_int | bool_true.

Definition sample_Marshal (v : sample_value) : list Byte.byte + string :=
  match v with
  | chan_int => inr "json: unsupported type: chan int"
  | bool_true => inl (list_byte_of_string "true")
  end.

Inductive timer_call : Type := stop_call | start_call.

Definition log_stopTimer (log : list timer_call) : list timer_call :=
  log ++ [stop_call].

Definition log_startTimer (log : list timer_call) : list timer_call :=
  log ++ [start_call].

(** A test case of the examples: GET with the request body "q", answered
    by 200 and "r". *)
Definition get_zones_q : testCase :=
  {| status := 200; request_headers := nil_Header;
     request_body := bytes_of_string "q"; request_json := false;
     response_headers := nil_Header;
     response_body := bytes_of_string "r" |}.

(** A sample client of the DNS view service.  The world counts the calls
    of [Do]; a request is its method and its path; a response is its
    status; an [Error] is its response, if it has one; a view is its name.
    [Do] decodes nothing: it answers 404 for the view "missing", 409 for
    the view "taken", an [Error] without a response for the view "broken",
    and 200 otherwise. *)
Definition sample_NewRequest (ctx : unit) (method path : string)
    (b : rest.body string)
    : rest.M nat (string * option (rest.error (option Z) string)) :=
  fun w => rest.returned ((method +:+ " " +:+ path, None), w).

Definition sample_Do (T : Type) (req : string) (target : T)
    : rest.M nat (T * option Z * option (rest.error (option Z) string)) :=
  fun w =>
    if String.eqb req "GET views/missing"
    then rest.returned
           ((target, Some 404%Z, Some (rest.api_error (Some (Some 404%Z)))), S w)
    else if String.eqb req "PUT /v1/views/taken"
    then rest.returned
           ((target, Some 409%Z, Some (rest.api_error (Some (Some 409%Z)))), S w)
    else if String.eqb req "GET views/broken"
    then rest.returned ((target, None, Some (rest.api_error (Some None))), S w)
    else rest.returned ((target, Some 200%Z, None), S w).

(** ** The mock service

    The collaborators whose code is outside this package are the section's
    variables: the authority parser of net/url, the values of the dynamic
    types that [json.Marshal] receives together with what it returns for
    them, and the timer of the service with its two methods. *)

Section Mock.

Variable parseAuthority : string -> (option Userinfo * string) + url_error.

Variable Other : Type.
Variable marshalOther : Other -> list Byte.byte + string.

Variable Timer : Type.
Variable stopTimer : Timer -> Timer.
Variable startTimer : Timer -> Timer.

(** [parse(rawURL, viaRequest)] with [viaRequest = false]. *)
Definition parse (rawURL : string) : URL + url_error :=
  if stringContainsCTLByte rawURL then inr ErrControlCharacter
  else if String.eqb rawURL "*" then inl (set_Path zero_URL "*")
  else
    match getScheme rawURL with
    | inr e => inr e
    | inl (scheme, rest) =>
        let url := set_Scheme zero_URL (strings_ToLower scheme) in
        let '(rest, url) :=
          if strings_HasSuffixByte rest "?" && (strings_CountByte rest "?" =? 1)%nat
          then (strings_dropLast rest, set_ForceQuery url true)
          else let '(r, q, _) := strings_Cut rest "?" in (r, set_RawQuery url q) in
        if negb (strings_HasPrefix rest "/") && nonempty (Scheme url)
        then inl (set_Opaque url rest)
        else if negb (strings_HasPrefix rest "/")
                && strings_ContainsByte (fst (fst (strings_Cut rest "/"))) ":"
        then inr ErrColonInFirstSegment
        else if (nonempty (Scheme url) || negb (strings_HasPrefix rest "///"))
                && strings_HasPrefix rest "//"
        then
          let '(authority, after, found) :=
            strings_Cut (String.substring 2 (String.length rest - 2) rest) "/" in
          let rest := if found then "/" +:+ after else "" in
          match parseAuthority authority with
          | inr e => inr e
          | inl (user, host) => setPath (set_User_Host url user host) rest
          end
        else if nonempty (Scheme url) && strings_HasPrefix rest "/"
        then setPath (set_OmitHost url true) rest
        else setPath url rest
    end.

Definition url_Parse (rawURL : string) : URL + url_error :=
  let '(u, frag, _) := strings_Cut rawURL "#" in
  match parse u with
  | inr e => inr e
  | inl url => if String.eqb frag "" then inl url else setFragment url frag
  end.

(** ** Bodies and [convertBody] *)

(** The values that reach [json.Marshal] in [convertBody]: the nil
    interface, or a value of a dynamic type other than [[]byte] and
    [string]. *)
Inductive dynamic : Type :=
| untyped_nil
| other_value (v : Other).

(** A body argument, of static type [interface{}], by its dynamic type. *)
Inductive iface : Type :=
| bytes_value (b : slice Byte.byte)
| string_value (s : string)
| dynamic_value (d : dynamic).

(** [json.Marshal]: the encoding and a nil error, or nil and the error. *)
Definition json_Marshal (v : dynamic) : slice Byte.byte * option string :=
  match v with
  | untyped_nil => (bytes_of_string "null", None)
  | other_value o =>
      match marshalOther o with
      | inl data => (mk_slice data, None)
      | inr err => (nil_slice, Some err)
      end
  end.

Definition convertBody (body : iface) : slice Byte.byte * bool * option string :=
  match body with
  | bytes_value b => (b, false, None)
  | string_value b => (bytes_of_string b, false, None)
  | dynamic_value d =>
      let '(data, err) := json_Marshal d in
      (data, true, err)
  end.

(** ** Test cases and the registry *)

(** The fields of [Service] that [AddTestCase] and [ClearTestCases] use.
    [tests] is never a nil map and neither are its inner maps: every one of
    them is made by a map literal.  A bucket holds pointers to test cases
    that are allocated by [AddTestCase] and never written afterwards, so a
    bucket is modelled by the list of their values. *)
Record Service : Type := {
  tests : gmap string (gmap string (list testCase));
  timer : Timer
}.

Definition set_tests (s : Service) (t : gmap string (gmap string (list testCase))) : Service :=
  {| tests := t; timer := timer s |}.

Definition set_timer (s : Service) (t : Timer) : Service :=
  {| tests := tests s; timer := t |}.

(** Reading [tests[method]] and [tests[method][uri]]: a missing key reads
    as the zero value. *)
Definition index_method (t : gmap string (gmap string (list testCase)))
    (method : string) : gmap string (list testCase) :=
  default ∅ (t !! method).

Definition index_bucket (t : gmap string (gmap string (list testCase)))
    (method uri : string) : list testCase :=
  default [] (index_method t method !! uri).

(** The assignment [tests[method][uri] = bucket]. *)
Definition assign_bucket (t : gmap string (gmap string (list testCase)))
    (method uri : string) (bucket : list testCase)
    : gmap string (gmap string (list testCase)) :=
  <[method := <[uri := bucket]> (index_method t method)]> t.

(** Lines 453 to 455. *)
Definition ensure_prefix (uri : string) : string :=
  if negb (strings_HasPrefix uri "/v1/") then "/v1/" +:+ uri else uri.

(** [baseUri, _ := url.Parse("/")]. *)
Definition baseUri : URL :=
  match url_Parse "/" with
  | inl u => u
  | inr _ => zero_URL
  end.

(** Lines 465 to 471. *)
Definition append_params (uri : string) (params : list Param) : string :=
  match params with
  | [] => uri
  | p0 :: rest =>
      fold_left (fun uri p => Sprintf_next uri (Key p) (Value p)) rest
                (Sprintf_first uri (Key p0) (Value p0))
  end.

(** Lines 457 to 463: the uri resolved against the base, or the error of
    line 460. *)
Definition request_uri (uri : string) : string + string :=
  match url_Parse uri with
  | inr uriErr => inr "could not parse testcase uri"
  | inl rel => inl (RequestURI (ResolveReference baseUri rel))
  end.

(** Lines 453 to 473: the bucket key, or the error of line 460. *)
Definition testcase_uri (uri : string) (params : list Param) : string + string :=
  let uri := ensure_prefix uri in
  match request_uri uri with
  | inr err => inr err
  | inl uri =>
      let uri := append_params uri params in
      inl (strings_Replace_all uri "//" "/")
  end.

(** Lines 489 to 494. *)
Definition ensure_bucket (t : gmap string (gmap string (list testCase)))
    (method uri : string) : gmap string (gmap string (list testCase)) :=
  let t := match t !! method with
           | Some _ => t
           | None => <[method := ∅]> t
           end in
  match index_method t method !! uri with
  | Some _ => t
  | None => assign_bucket t method uri []
  end.

(** The loop of lines 497 to 504: does it return? *)
Definition already_registered (tc : testCase) (bucket : list testCase) : bool :=
  existsb (fun test =>
             let header := assert_Equal_Header (request_headers tc) (request_headers test) in
             let body := assert_Equal_bytes (request_body tc) (request_body test) in
             header && body)
          bucket.

(** The body of [AddTestCase], between the two timer calls. *)
Definition AddTestCase_body (s : Service)
    (method uri : string) (returnStatus : Z)
    (requestHeaders responseHeaders : Header)
    (requestBody responseBody : iface)
    (params : list Param) : option string * Service :=
  match testcase_uri uri params with
  | inr err => (Some err, s)
  | inl uri =>
      let '(request_body, request_json, err) := convertBody requestBody in
      match err with
      | Some err =>
          (Some ("unable to convert request body to []byte: " +:+ err), s)
      | None =>
          let '(response_body, _, err) := convertBody responseBody in
          match err with
          | Some err =>
              (Some ("unable to convert response body to []byte: " +:+ err), s)
          | None =>
              let tc := {| status := returnStatus;
                           request_headers := requestHeaders;
                           request_body := request_body;
                           request_json := request_json;
                           response_headers := responseHeaders;
                           response_body := response_body |} in
              let t := ensure_bucket (tests s) method uri in
              if already_registered tc (index_bucket t method uri)
              then (Some "test case already registered", set_tests s t)
              else (None,
                    set_tests s
                      (assign_bucket t method uri (index_bucket t method uri ++ [tc])))
          end
      end
  end.

(** [AddTestCase]: [s.stopTimer()], the body, and the deferred
    [s.startTimer()] on the way out. *)
Definition AddTestCase (s : Service)
    (method uri : string) (returnStatus : Z)
    (requestHeaders responseHeaders : Header)
    (requestBody responseBody : iface)
    (params : list Param) : option string * Service :=
  let s := set_timer s (stopTimer (timer s)) in
  let '(err, s) :=
    AddTestCase_body s method uri returnStatus requestHeaders responseHeaders
                     requestBody responseBody params in
  (err, set_timer s (startTimer (timer s))).

Definition ClearTestCases (s : Service) : Service :=
  set_tests s ∅.

(** ** Vocabulary of the specification *)

(** The bucket of a (method, uri) pair as the registry holds it: [None]
    when the method or the uri has no entry. *)
Definition lookup_bucket (t : gmap string (gmap string (list testCase)))
    (method uri : string) : option (list testCase) :=
  t !! method ≫= (.!! uri).

(** No two entries of a bucket, at different positions, have the same
    request headers and the same request body. *)
Definition bucket_distinct (bucket : list testCase) : Prop :=
  forall (i j : nat) (A B : testCase),
    i <> j -> bucket !! i = Some A -> bucket !! j = Some B ->
    request_headers A <> request_headers B \/ request_body A <> request_body B.

Definition registry_invariant (t : gmap string (gmap string (list testCase))) : Prop :=
  forall (method uri : string) (bucket : list testCase),
    lookup_bucket t method uri = Some bucket -> bucket_distinct bucket.

(** The services that a test session can reach: a new service has an empty
    registry, and the two operations are the only ones that change it. *)
Inductive reachable : Service -> Prop :=
| reachable_new (t : Timer) : reachable {| tests := ∅; timer := t |}
| reachable_AddTestCase s method uri returnStatus requestHeaders responseHeaders
    requestBody responseBody params :
    reachable s ->
    reachable (snd (AddTestCase s method uri returnStatus requestHeaders
                                responseHeaders requestBody responseBody params))
| reachable_ClearTestCases s :
    reachable s -> reachable (ClearTestCases s).

(** The query string in the words of the specification: "?k1=v1" followed
    by "&ki=vi" for each further parameter, in the order given. *)
Fixpoint spec_query_rest (rest : list Param) : string :=
  match rest with
  | [] => ""
  | p :: rest => "&" +:+ Key p +:+ "=" +:+ Value p +:+ spec_query_rest rest
  end.

Definition spec_query (params : list Param) : string :=
  match params with
  | [] => ""
  | p0 :: rest => "?" +:+ Key p0 +:+ "=" +:+ Value p0 +:+ spec_query_rest rest
  end.

(** A key or a value without '/', and one that moreover has neither '&'
    nor '='. *)
Definition no_slash (s : string) : bool := negb (strings_ContainsByte s "/").

Definition plain (s : string) : bool :=
  no_slash s && negb (strings_ContainsByte s "&") && negb (strings_ContainsByte s "=").

Definition no_slash_param (p : Param) : bool :=
  no_slash (Key p) && no_slash (Value p).

Definition plain_param (p : Param) : bool :=
  plain (Key p) && plain (Value p).

(** The path "/s1/s2/.../sn" of the segments s1, ..., sn. *)
Fixpoint join_segments (segments : list string) : string :=
  match segments with
  | [] => ""
  | seg :: rest => "/" +:+ seg +:+ join_segments rest
  end.

Definition unreserved (c : ascii) : bool :=
  is_lower c || is_upper c || is_digit c || byte_among c "-_.~".

(** The characters of a path of clean segments. *)
Definition path_char (c : ascii) : bool := unreserved c || Ascii.eqb c "/".

Fixpoint string_forallb (f : ascii -> bool) (s : string) : bool :=
  match s with
  | EmptyString => true
  | String c s' => f c && string_forallb f s'
  end.

(** A path segment that normalization has nothing to do to: not empty,
    made of unreserved characters, and neither "." nor "..". *)
Definition clean_segment (seg : string) : bool :=
  nonempty seg && string_forallb unreserved seg
  && negb (String.eqb seg ".") && negb (String.eqb seg "..").

(** ** More vocabulary: what a call builds and what a registry looks like *)

(** The test case that lines 475 to 487 build from the arguments. *)
Definition new_testCase (returnStatus : Z)
    (requestHeaders responseHeaders : Header)
    (requestBody responseBody : iface) : testCase :=
  {| status := returnStatus;
     request_headers := requestHeaders;
     request_body := fst (fst (convertBody requestBody));
     request_json := snd (fst (convertBody requestBody));
     response_headers := responseHeaders;
     response_body := fst (fst (convertBody responseBody)) |}.

(** Two registries with the same buckets, present or absent. *)
Definition same_buckets (t t' : gmap string (gmap string (list testCase))) : Prop :=
  forall method uri, lookup_bucket t method uri = lookup_bucket t' method uri.

(** A registry without empty method maps and without empty buckets, whose
    uri keys all begin with '/'. *)
Definition registry_well_formed (t : gmap string (gmap string (list testCase))) : Prop :=
  (forall method inner, t !! method = Some inner -> inner <> ∅)
  /\ (forall method uri bucket,
         lookup_bucket t method uri = Some bucket ->
         bucket <> [] /\ strings_HasPrefix uri "/" = true).

(** A URL as [url.Parse] returns it for a string that begins with "/v1/":
    only a path, which begins with '/'. *)
Definition rooted_URL (u : URL) : Prop :=
  Scheme u = "" /\ Opaque u = "" /\ Host u = "" /\ User u = None
  /\ strings_HasPrefix (Path u) "/" = true
  /\ (RawPath u = "" \/ strings_HasPrefix (RawPath u) "/" = true).

(** Lines 489 to 507 on a registry: the two maps made where they are
    missing, and the test case appended to its bucket. *)
Definition append_testCase (t : gmap string (gmap string (list testCase)))
    (method uri : string) (tc : testCase)
    : gmap string (gmap string (list testCase)) :=
  assign_bucket (ensure_bucket t method uri) method uri
                (index_bucket t method uri ++ [tc]).

(** The services that further calls of [AddTestCase], and no call of
    [ClearTestCases], lead to. *)
Inductive later : Service -> Service -> Prop :=
| later_now s : later s s
| later_AddTestCase s s' method uri returnStatus requestHeaders responseHeaders
    requestBody responseBody params :
    later s s' ->
    later s (snd (AddTestCase s' method uri returnStatus requestHeaders
                              responseHeaders requestBody responseBody params)).

(** The URL that [parse] fills in for "/v1/" followed by a path without
    '?', and for that string followed by '?' and a query: before the path
    is set, only the query is. *)
Definition path_only (rawQuery : string) : URL :=
  set_RawQuery (set_Scheme zero_URL "") rawQuery.

(** * Properties *)

(** ** Equality as testify decides it *)

Lemma forallb_combine_eq {A} (eqb : A -> A -> bool) (a b : list A) :
  (forall x y, eqb x y = true <-> x = y) ->
  (length a =? length b)%nat && forallb (fun p => eqb (fst p) (snd p)) (combine a b) = true
  <-> a = b.
Proof.
  intros Heqb. revert b. induction a as [|x a IH]; intros [|y b]; simpl; try easy.
  split.
  - intros H. apply andb_true_iff in H as [Hl H].
    apply andb_true_iff in H as [Hx Hf]. apply Heqb in Hx. subst y.
    f_equal. apply IH. simpl. rewrite Hl, Hf. reflexivity.
  - intros [= -> ->]. destruct (IH b) as [_ IH']. specialize (IH' eq_refl).
    simpl in IH'. apply andb_true_iff in IH' as [-> ->].
    rewrite (proj2 (Heqb y y) eq_refl). reflexivity.
Qed.

Lemma byte_eqb_eq (x y : Byte.byte) : Byte.eqb x y = true <-> x = y.
Proof. split; [apply Byte.byte_dec_bl | apply Byte.byte_dec_lb]. Qed.

Lemma assert_Equal_bytes_eq (x y : slice Byte.byte) :
  assert_Equal_bytes x y = true <-> x = y.
Proof.
  destruct x as [|a], y as [|b]; simpl; try easy.
  rewrite (forallb_combine_eq Byte.eqb a b byte_eqb_eq).
  split; [intros -> | intros [= ->]]; reflexivity.
Qed.

Lemma slice_DeepEqual_string_eq (x y : slice string) :
  slice_DeepEqual String.eqb x y = true <-> x = y.
Proof.
  destruct x as [|a], y as [|b]; simpl; try easy.
  rewrite (forallb_combine_eq String.eqb a b String.eqb_eq).
  split; [intros -> | intros [= ->]]; reflexivity.
Qed.

Lemma assert_Equal_Header_eq (x y : Header) :
  assert_Equal_Header x y = true <-> x = y.
Proof.
  unfold assert_Equal_Header.
  destruct x as [|m1], y as [|m2]; simpl; try easy.
  rewrite andb_true_iff, Nat.eqb_eq, forallb_forall. split.
  - intros [Hsize Hall]. f_equal. apply map_subseteq_size_eq; [|lia].
    apply map_subseteq_spec. intros k v Hk.
    specialize (Hall (k, v)). simpl in Hall.
    assert (Hin : In (k, v) (map_to_list m1))
      by (apply list_elem_of_In, elem_of_map_to_list, Hk).
    specialize (Hall Hin). destruct (m2 !! k) as [v'|]; [|discriminate].
    apply slice_DeepEqual_string_eq in Hall. congruence.
  - intros [= ->]. split; [reflexivity|].
    intros [k v] Hin. simpl.
    apply list_elem_of_In, elem_of_map_to_list in Hin. rewrite Hin.
    apply slice_DeepEqual_string_eq. reflexivity.
Qed.

(** ** The two-level map *)

Lemma index_bucket_lookup t method uri :
  index_bucket t method uri = default [] (lookup_bucket t method uri).
Proof.
  unfold index_bucket, index_method, lookup_bucket.
  destruct (t !! method); simpl; [reflexivity | rewrite lookup_empty; reflexivity].
Qed.

Lemma lookup_bucket_empty method uri : lookup_bucket ∅ method uri = None.
Proof. unfold lookup_bucket. rewrite lookup_empty. reflexivity. Qed.

Lemma lookup_bucket_assign t method uri bucket :
  lookup_bucket (assign_bucket t method uri bucket) method uri = Some bucket.
Proof.
  unfold lookup_bucket, assign_bucket. rewrite lookup_insert_eq. simpl.
  apply lookup_insert_eq.
Qed.

Lemma lookup_bucket_assign_ne t method uri bucket method' uri' :
  (method', uri') <> (method, uri) ->
  lookup_bucket (assign_bucket t method uri bucket) method' uri'
  = lookup_bucket t method' uri'.
Proof.
  intros Hne. unfold lookup_bucket, assign_bucket, index_method.
  destruct (decide (method = method')) as [<-|Hm].
  - rewrite lookup_insert_eq. simpl.
    rewrite lookup_insert_ne by congruence.
    destruct (t !! method); simpl; [reflexivity | apply lookup_empty].
  - rewrite lookup_insert_ne by assumption. reflexivity.
Qed.

Lemma ensure_bucket_present t method uri bucket :
  lookup_bucket t method uri = Some bucket -> ensure_bucket t method uri = t.
Proof.
  unfold lookup_bucket, ensure_bucket, index_method. intros H.
  destruct (t !! method) as [inner|] eqn:Hm; [|discriminate]. simpl in H.
  rewrite Hm. simpl. rewrite H. reflexivity.
Qed.

Lemma lookup_bucket_ensure t method uri :
  lookup_bucket (ensure_bucket t method uri) method uri
  = Some (index_bucket t method uri).
Proof.
  destruct (lookup_bucket t method uri) as [bucket|] eqn:Hb.
  - rewrite (ensure_bucket_present _ _ _ _ Hb), index_bucket_lookup, Hb. reflexivity.
  - rewrite index_bucket_lookup, Hb. simpl.
    unfold lookup_bucket in Hb. unfold ensure_bucket.
    destruct (t !! method) as [inner|] eqn:Hm; simpl in Hb.
    + unfold index_method at 1. rewrite Hm. simpl. rewrite Hb.
      apply lookup_bucket_assign.
    + unfold index_method at 1. rewrite lookup_insert_eq. simpl.
      rewrite lookup_empty. apply lookup_bucket_assign.
Qed.

Lemma lookup_bucket_ensure_ne t method uri method' uri' :
  (method', uri') <> (method, uri) ->
  lookup_bucket (ensure_bucket t method uri) method' uri'
  = lookup_bucket t method' uri'.
Proof.
  intros Hne. unfold ensure_bucket.
  assert (Hfresh : forall t0 : gmap string (gmap string (list testCase)),
             t0 !! method = None ->
             lookup_bucket (<[method := ∅]> t0) method' uri' = lookup_bucket t0 method' uri').
  { intros t0 H0. unfold lookup_bucket.
    destruct (decide (method = method')) as [<-|Hm].
    - rewrite lookup_insert_eq, H0. simpl. apply lookup_empty.
    - rewrite lookup_insert_ne by assumption. reflexivity. }
  destruct (t !! method) as [inner|] eqn:Hm.
  - destruct (_ !! uri); [reflexivity|].
    apply lookup_bucket_assign_ne, Hne.
  - destruct (_ !! uri); [apply Hfresh, Hm|].
    rewrite lookup_bucket_assign_ne by assumption. apply Hfresh, Hm.
Qed.

Lemma index_bucket_ensure t method uri :
  index_bucket (ensure_bucket t method uri) method uri = index_bucket t method uri.
Proof.
  rewrite (index_bucket_lookup (ensure_bucket _ _ _)), lookup_bucket_ensure.
  reflexivity.
Qed.

(** ** The duplicate check *)

Lemma already_registered_true tc bucket :
  already_registered tc bucket = true <->
  exists test, In test bucket
               /\ request_headers test = request_headers tc
               /\ request_body test = request_body tc.
Proof.
  unfold already_registered. rewrite existsb_exists. split.
  - intros (test & Hin & H). apply andb_true_iff in H as [Hh Hb].
    apply assert_Equal_Header_eq in Hh. apply assert_Equal_bytes_eq in Hb.
    exists test. auto.
  - intros (test & Hin & Hh & Hb). exists test. split; [assumption|].
    apply andb_true_iff. split.
    + apply assert_Equal_Header_eq. auto.
    + apply assert_Equal_bytes_eq. auto.
Qed.

Lemma already_registered_false tc bucket test :
  already_registered tc bucket = false -> In test bucket ->
  request_headers test <> request_headers tc \/ request_body test <> request_body tc.
Proof.
  intros Hreg Hin.
  destruct (assert_Equal_Header (request_headers tc) (request_headers test)) eqn:Hh;
    [destruct (assert_Equal_bytes (request_body tc) (request_body test)) eqn:Hb|].
  - exfalso. apply assert_Equal_Header_eq in Hh. apply assert_Equal_bytes_eq in Hb.
    assert (already_registered tc bucket = true)
      by (apply already_registered_true; eauto).
    congruence.
  - right. intros Heq. symmetry in Heq. apply assert_Equal_bytes_eq in Heq. congruence.
  - left. intros Heq. symmetry in Heq. apply assert_Equal_Header_eq in Heq. congruence.
Qed.

Lemma bucket_distinct_nil : bucket_distinct [].
Proof. intros i j A B _ H. rewrite lookup_nil in H. discriminate. Qed.

Lemma bucket_distinct_snoc bucket tc :
  bucket_distinct bucket -> already_registered tc bucket = false ->
  bucket_distinct (bucket ++ [tc]).
Proof.
  intros Hd Hreg i j A B Hij Hi Hj.
  apply lookup_snoc_Some in Hi as [[Hil Hi]|[Hil <-]];
    apply lookup_snoc_Some in Hj as [[Hjl Hj]|[Hjl <-]].
  - eapply Hd; eauto.
  - eapply already_registered_false; [eassumption|].
    apply list_elem_of_In, list_elem_of_lookup. eauto.
  - destruct (already_registered_false tc bucket B Hreg) as [H|H].
    + apply list_elem_of_In, list_elem_of_lookup. eauto.
    + left. congruence.
    + right. congruence.
  - lia.
Qed.

(** ** [AddTestCase] and [ClearTestCases] *)

(** The return paths of the body, in the order of the source. *)
Ltac body_paths requestBody responseBody :=
  unfold AddTestCase, AddTestCase_body;
  destruct (testcase_uri _ _) as [key|uriErr] eqn:Huri;
  [ destruct (convertBody requestBody) as [[rb rj] [reqErr|]] eqn:Hreq;
    [ | destruct (convertBody responseBody) as [[pb pj] [respErr|]] eqn:Hresp;
        [ | destruct (already_registered _ _) eqn:Hdup ] ]
  | ]; cbn [fst snd tests timer set_tests set_timer ClearTestCases] in *.

Lemma testcase_uri_error uri params err :
  testcase_uri uri params = inr err -> err = "could not parse testcase uri".
Proof.
  unfold testcase_uri, request_uri. destruct (url_Parse _); intros [= <-].
  reflexivity.
Qed.

Lemma testcase_uri_inr_iff uri params :
  (exists err, testcase_uri uri params = inr err)
  <-> exists uriErr, url_Parse (ensure_prefix uri) = inr uriErr.
Proof.
  unfold testcase_uri, request_uri.
  destruct (url_Parse _) as [rel|e]; split; intros [x Hx];
    try discriminate; eauto.
Qed.

Lemma registry_invariant_index t method uri :
  registry_invariant t -> bucket_distinct (index_bucket t method uri).
Proof.
  intros Hinv. rewrite index_bucket_lookup.
  destruct (lookup_bucket t method uri) as [bucket|] eqn:Hb; simpl.
  - eapply Hinv, Hb.
  - apply bucket_distinct_nil.
Qed.

Lemma registry_invariant_ensure t method uri :
  registry_invariant t -> registry_invariant (ensure_bucket t method uri).
Proof.
  intros Hinv method' uri' bucket Hb.
  destruct (decide ((method', uri') = (method, uri))) as [[= -> ->]|Hne].
  - rewrite lookup_bucket_ensure in Hb. injection Hb as <-.
    apply registry_invariant_index, Hinv.
  - rewrite lookup_bucket_ensure_ne in Hb by assumption. eapply Hinv, Hb.
Qed.

Lemma registry_invariant_assign t method uri bucket :
  registry_invariant t -> bucket_distinct bucket ->
  registry_invariant (assign_bucket t method uri bucket).
Proof.
  intros Hinv Hd method' uri' bucket' Hb.
  destruct (decide ((method', uri') = (method, uri))) as [[= -> ->]|Hne].
  - rewrite lookup_bucket_assign in Hb. injection Hb as <-. assumption.
  - rewrite lookup_bucket_assign_ne in Hb by assumption. eapply Hinv, Hb.
Qed.

Lemma registry_invariant_empty : registry_invariant ∅.
Proof.
  intros method uri bucket H. rewrite lookup_bucket_empty in H. discriminate.
Qed.

Lemma AddTestCase_preserves_invariant s method uri returnStatus requestHeaders
    responseHeaders requestBody responseBody params :
  registry_invariant (tests s) ->
  registry_invariant
    (tests (snd (AddTestCase s method uri returnStatus requestHeaders
                             responseHeaders requestBody responseBody params))).
Proof.
  intros Hinv. body_paths requestBody responseBody; try assumption.
  - apply registry_invariant_ensure, Hinv.
  - apply registry_invariant_assign.
    + apply registry_invariant_ensure, Hinv.
    + apply bucket_distinct_snoc; [|assumption].
      apply registry_invariant_index, registry_invariant_ensure, Hinv.
Qed.

Lemma reachable_invariant s : reachable s -> registry_invariant (tests s).
Proof.
  induction 1 as [t | s method uri returnStatus requestHeaders responseHeaders
                        requestBody responseBody params _ IH | s _ _].
  - apply registry_invariant_empty.
  - apply AddTestCase_preserves_invariant, IH.
  - apply registry_invariant_empty.
Qed.

(** C2. The registry invariant (within a bucket, two entries at different
    positions differ in their request headers or in their request body)
    holds of the empty registry and is preserved by [AddTestCase], whatever
    its outcome, and by [ClearTestCases]; so it holds of every service that
    is reached from a new one by these operations. *)
Theorem registry_invariant_preserved :
  registry_invariant ∅
  /\ (forall s method uri returnStatus requestHeaders responseHeaders
             requestBody responseBody params,
         registry_invariant (tests s) ->
         registry_invariant
           (tests (snd (AddTestCase s method uri returnStatus requestHeaders
                                    responseHeaders requestBody responseBody params))))
  /\ (forall s, registry_invariant (tests (ClearTestCases s)))
  /\ (forall s, reachable s -> registry_invariant (tests s)).
Proof.
  split; [|split; [|split]].
  - apply registry_invariant_empty.
  - intros s method uri returnStatus requestHeaders responseHeaders
           requestBody responseBody params.
    apply AddTestCase_preserves_invariant.
  - intros s. apply registry_invariant_empty.
  - apply reachable_invariant.
Qed.

(** C6. [AddTestCase] returns the error "could not parse testcase uri"
    exactly when [url.Parse] rejects the uri with its "/v1/" prefix ensured,
    and then the registry is the one it was called with. *)
Theorem AddTestCase_malformed_uri :
  forall s method uri returnStatus requestHeaders responseHeaders
         requestBody responseBody params,
    let result := AddTestCase s method uri returnStatus requestHeaders
                              responseHeaders requestBody responseBody params in
    (fst result = Some "could not parse testcase uri"
     <-> exists uriErr, url_Parse (ensure_prefix uri) = inr uriErr)
    /\ ((exists uriErr, url_Parse (ensure_prefix uri) = inr uriErr) ->
        tests (snd result) = tests s).
Proof.
  intros s method uri returnStatus requestHeaders responseHeaders
         requestBody responseBody params result. subst result.
  rewrite <- (testcase_uri_inr_iff uri params).
  body_paths requestBody responseBody;
    (split; [split|]); try discriminate; try reflexivity;
    try (intros [err Herr]; discriminate).
  - intros _. exists uriErr. reflexivity.
  - intros _. apply testcase_uri_error in Huri. subst uriErr. reflexivity.
Qed.

Lemma assign_ensure_empty method uri bucket :
  assign_bucket (ensure_bucket ∅ method uri) method uri bucket
  = {[ method := {[ uri := bucket ]} ]}.
Proof.
  unfold ensure_bucket. rewrite lookup_empty.
  unfold index_method at 1. rewrite lookup_insert_eq. simpl. rewrite lookup_empty.
  unfold assign_bucket, index_method. rewrite !lookup_insert_eq. simpl.
  rewrite !insert_insert_eq, !insert_empty. reflexivity.
Qed.

(** C7. [ClearTestCases] leaves the empty registry, in which every lookup
    misses; an [AddTestCase] that follows behaves as on a registry that never
    held a test case: it cannot report a duplicate, and when it succeeds the
    registry holds the new test case and nothing else. *)
Theorem ClearTestCases_empties :
  forall s,
    tests (ClearTestCases s) = ∅
    /\ timer (ClearTestCases s) = timer s
    /\ (forall method uri,
           lookup_bucket (tests (ClearTestCases s)) method uri = None
           /\ index_bucket (tests (ClearTestCases s)) method uri = [])
    /\ (forall method uri returnStatus requestHeaders responseHeaders
               requestBody responseBody params,
           let result := AddTestCase (ClearTestCases s) method uri returnStatus
                           requestHeaders responseHeaders requestBody responseBody
                           params in
           result = AddTestCase {| tests := ∅; timer := timer s |} method uri
                      returnStatus requestHeaders responseHeaders requestBody
                      responseBody params
           /\ fst result <> Some "test case already registered"
           /\ (fst result = None ->
               exists key tc,
                 testcase_uri uri params = inl key
                 /\ tests (snd result) = {[ method := {[ key := [tc] ]} ]})).
Proof.
  intros s. split; [reflexivity|]. split; [reflexivity|]. split.
  - intros method uri. simpl. rewrite index_bucket_lookup, lookup_bucket_empty.
    split; reflexivity.
  - intros method uri returnStatus requestHeaders responseHeaders
           requestBody responseBody params result. subst result.
    split; [reflexivity|].
    body_paths requestBody responseBody.
    + split; [discriminate | intros [=]].
    + split; [discriminate | intros [=]].
    + rewrite index_bucket_ensure, index_bucket_lookup, lookup_bucket_empty in Hdup.
      discriminate.
    + split; [discriminate|]. intros _. eexists _, _. split; [reflexivity|].
      rewrite index_bucket_ensure, index_bucket_lookup, lookup_bucket_empty.
      apply assign_ensure_empty.
    + apply testcase_uri_error in Huri. subst uriErr.
      split; [discriminate | intros [=]].
Qed.

Lemma AddTestCase_timer_state s method uri returnStatus requestHeaders
    responseHeaders requestBody responseBody params :
  timer (snd (AddTestCase s method uri returnStatus requestHeaders
                          responseHeaders requestBody responseBody params))
  = startTimer (stopTimer (timer s)).
Proof. body_paths requestBody responseBody; reflexivity. Qed.

(** C8. On every call of [AddTestCase] the timer of the service is the one
    it was called with after one [stopTimer] followed by one [startTimer],
    whichever of the five return paths is taken: success, the uri error, the
    two conversion errors, the duplicate error. *)
Theorem AddTestCase_timer :
  forall s method uri returnStatus requestHeaders responseHeaders
         requestBody responseBody params,
    let result := AddTestCase s method uri returnStatus requestHeaders
                              responseHeaders requestBody responseBody params in
    timer (snd result) = startTimer (stopTimer (timer s))
    /\ (fst result = None
        \/ fst result = Some "could not parse testcase uri"
        \/ (exists err, fst result
                        = Some ("unable to convert request body to []byte: " +:+ err))
        \/ (exists err, fst result
                        = Some ("unable to convert response body to []byte: " +:+ err))
        \/ fst result = Some "test case already registered").
Proof.
  intros s method uri returnStatus requestHeaders responseHeaders
         requestBody responseBody params result. subst result.
  split; [apply AddTestCase_timer_state|].
  body_paths requestBody responseBody.
  - right; right; left. eauto.
  - right; right; right; left. eauto.
  - right; right; right; right. reflexivity.
  - left. reflexivity.
  - right; left. apply testcase_uri_error in Huri. subst. reflexivity.
Qed.

Lemma AddTestCase_success s method uri returnStatus requestHeaders responseHeaders
    requestBody responseBody params s' :
  AddTestCase s method uri returnStatus requestHeaders responseHeaders
              requestBody responseBody params = (None, s') ->
  exists key rb rj pb pj,
    testcase_uri uri params = inl key
    /\ convertBody requestBody = (rb, rj, None)
    /\ convertBody responseBody = (pb, pj, None)
    /\ let tc := {| status := returnStatus;
                    request_headers := requestHeaders;
                    request_body := rb; request_json := rj;
                    response_headers := responseHeaders;
                    response_body := pb |} in
       already_registered tc (index_bucket (tests s) method key) = false
       /\ s' = {| tests := assign_bucket (ensure_bucket (tests s) method key)
                             method key (index_bucket (tests s) method key ++ [tc]);
                  timer := startTimer (stopTimer (timer s)) |}.
Proof.
  body_paths requestBody responseBody; intros [= <-].
  rewrite index_bucket_ensure in *.
  exists key, rb, rj, pb, pj. auto.
Qed.

Lemma AddTestCase_duplicate s method uri returnStatus requestHeaders responseHeaders
    requestBody responseBody params key rb rj pb pj :
  testcase_uri uri params = inl key ->
  convertBody requestBody = (rb, rj, None) ->
  convertBody responseBody = (pb, pj, None) ->
  already_registered {| status := returnStatus;
                        request_headers := requestHeaders;
                        request_body := rb; request_json := rj;
                        response_headers := responseHeaders;
                        response_body := pb |}
                     (index_bucket (tests s) method key) = true ->
  AddTestCase s method uri returnStatus requestHeaders responseHeaders
              requestBody responseBody params
  = (Some "test case already registered",
     {| tests := ensure_bucket (tests s) method key;
        timer := startTimer (stopTimer (timer s)) |}).
Proof.
  intros Huri Hreq Hresp Hdup.
  unfold AddTestCase, AddTestCase_body. rewrite Huri, Hreq, Hresp.
  cbn [fst snd tests timer set_tests set_timer].
  rewrite index_bucket_ensure, Hdup. reflexivity.
Qed.

(** C1 (amended). When the bucket of the method and of the normalized uri
    holds an entry with the request headers and the request body bytes of the
    call, and the response body of the call converts, [AddTestCase] returns
    the error "test case already registered" and the registry is the one it
    was called with; the response status, headers and body are arbitrary. *)
Theorem AddTestCase_duplicate_rejected :
  forall s method uri returnStatus requestHeaders responseHeaders
         requestBody responseBody params key body json bucket test,
    testcase_uri uri params = inl key ->
    convertBody requestBody = (body, json, None) ->
    snd (convertBody responseBody) = None ->
    lookup_bucket (tests s) method key = Some bucket ->
    In test bucket ->
    request_headers test = requestHeaders ->
    request_body test = body ->
    AddTestCase s method uri returnStatus requestHeaders responseHeaders
                requestBody responseBody params
    = (Some "test case already registered",
       {| tests := tests s; timer := startTimer (stopTimer (timer s)) |}).
Proof.
  intros s method uri returnStatus requestHeaders responseHeaders
         requestBody responseBody params key body json bucket test
         Huri Hreq Hresp Hbucket Hin Hh Hb.
  destruct (convertBody responseBody) as [[pb pj] respErr] eqn:Hresp'.
  simpl in Hresp. subst respErr.
  rewrite (AddTestCase_duplicate _ _ _ _ _ _ _ _ _ _ _ _ _ _ Huri Hreq Hresp').
  - rewrite (ensure_bucket_present _ _ _ _ Hbucket). reflexivity.
  - apply already_registered_true. exists test.
    rewrite index_bucket_lookup, Hbucket. auto.
Qed.

(** Once the uri has parsed and both bodies have converted, the duplicate
    error is returned exactly when the bucket holds an entry with the request
    headers and the request body of the call. *)
Lemma AddTestCase_duplicate_iff s method uri returnStatus requestHeaders
    responseHeaders requestBody responseBody params key body json :
  testcase_uri uri params = inl key ->
  convertBody requestBody = (body, json, None) ->
  snd (convertBody responseBody) = None ->
  fst (AddTestCase s method uri returnStatus requestHeaders responseHeaders
                   requestBody responseBody params)
  = Some "test case already registered"
  <-> exists test,
        In test (index_bucket (tests s) method key)
        /\ request_headers test = requestHeaders
        /\ request_body test = body.
Proof.
  intros Huri Hreq Hresp.
  destruct (convertBody responseBody) as [[pb pj] respErr] eqn:Hresp'.
  simpl in Hresp. subst respErr.
  destruct (already_registered
              {| status := returnStatus; request_headers := requestHeaders;
                 request_body := body; request_json := json;
                 response_headers := responseHeaders; response_body := pb |}
              (index_bucket (tests s) method key)) eqn:Hdup.
  - rewrite (AddTestCase_duplicate _ _ _ _ _ _ _ _ _ _ _ _ _ _ Huri Hreq Hresp' Hdup).
    split; [intros _ | reflexivity].
    apply already_registered_true in Hdup. exact Hdup.
  - unfold AddTestCase, AddTestCase_body. rewrite Huri, Hreq, Hresp'.
    cbn [fst snd tests timer set_tests set_timer].
    rewrite index_bucket_ensure, Hdup. split; [discriminate|].
    intros Hex.
    assert (Htrue : already_registered
                      {| status := returnStatus; request_headers := requestHeaders;
                         request_body := body; request_json := json;
                         response_headers := responseHeaders; response_body := pb |}
                      (index_bucket (tests s) method key) = true)
      by (apply already_registered_true; exact Hex).
    congruence.
Qed.

(** C9. After a successful [AddTestCase] the bucket of the method and of the
    normalized uri is the list that a lookup in the registry found there
    before the call (the empty list when it found none) followed by the new
    test case, and the bucket of every other pair of a method and a uri is
    as it was, present or absent. *)
Theorem AddTestCase_success_frame :
  forall s method uri returnStatus requestHeaders responseHeaders
         requestBody responseBody params s',
    AddTestCase s method uri returnStatus requestHeaders responseHeaders
                requestBody responseBody params = (None, s') ->
    exists key rb rj pb pj,
      testcase_uri uri params = inl key
      /\ convertBody requestBody = (rb, rj, None)
      /\ convertBody responseBody = (pb, pj, None)
      /\ lookup_bucket (tests s') method key
         = Some (match lookup_bucket (tests s) method key with
                 | Some previous => previous
                 | None => []
                 end
                 ++ [{| status := returnStatus;
                        request_headers := requestHeaders;
                        request_body := rb; request_json := rj;
                        response_headers := responseHeaders;
                        response_body := pb |}])%list
      /\ forall method' uri',
           (method', uri') <> (method, key) ->
           lookup_bucket (tests s') method' uri' = lookup_bucket (tests s) method' uri'.
Proof.
  intros s method uri returnStatus requestHeaders responseHeaders
         requestBody responseBody params s' Hcall.
  apply AddTestCase_success in Hcall
    as (key & rb & rj & pb & pj & Huri & Hreq & Hresp & Hdup & ->).
  exists key, rb, rj, pb, pj. repeat (split; [assumption|]).
  cbn [tests]. split.
  - rewrite lookup_bucket_assign, index_bucket_lookup.
    destruct (lookup_bucket (tests s) method key); reflexivity.
  - intros method' uri' Hne.
    rewrite lookup_bucket_assign_ne, lookup_bucket_ensure_ne by assumption.
    reflexivity.
Qed.

Lemma AddTestCase_insert s method uri returnStatus requestHeaders responseHeaders
    requestBody responseBody params key rb rj pb pj :
  testcase_uri uri params = inl key ->
  convertBody requestBody = (rb, rj, None) ->
  convertBody responseBody = (pb, pj, None) ->
  let tc := {| status := returnStatus;
               request_headers := requestHeaders;
               request_body := rb; request_json := rj;
               response_headers := responseHeaders;
               response_body := pb |} in
  already_registered tc (index_bucket (tests s) method key) = false ->
  AddTestCase s method uri returnStatus requestHeaders responseHeaders
              requestBody responseBody params
  = (None,
     {| tests := assign_bucket (ensure_bucket (tests s) method key)
                   method key (index_bucket (tests s) method key ++ [tc]);
        timer := startTimer (stopTimer (timer s)) |}).
Proof.
  intros Huri Hreq Hresp tc Hdup. subst tc.
  unfold AddTestCase, AddTestCase_body. rewrite Huri, Hreq, Hresp.
  cbn [fst snd tests timer set_tests set_timer].
  rewrite index_bucket_ensure, Hdup. reflexivity.
Qed.

Lemma AddTestCase_request_error s method uri returnStatus requestHeaders
    responseHeaders requestBody responseBody params key err :
  testcase_uri uri params = inl key ->
  snd (convertBody requestBody) = Some err ->
  AddTestCase s method uri returnStatus requestHeaders responseHeaders
              requestBody responseBody params
  = (Some ("unable to convert request body to []byte: " +:+ err),
     {| tests := tests s; timer := startTimer (stopTimer (timer s)) |}).
Proof.
  intros Huri Hreq. unfold AddTestCase, AddTestCase_body. rewrite Huri.
  destruct (convertBody requestBody) as [[rb rj] reqErr]. simpl in Hreq.
  subst reqErr. reflexivity.
Qed.

Lemma AddTestCase_response_error s method uri returnStatus requestHeaders
    responseHeaders requestBody responseBody params key err :
  testcase_uri uri params = inl key ->
  snd (convertBody requestBody) = None ->
  snd (convertBody responseBody) = Some err ->
  AddTestCase s method uri returnStatus requestHeaders responseHeaders
              requestBody responseBody params
  = (Some ("unable to convert response body to []byte: " +:+ err),
     {| tests := tests s; timer := startTimer (stopTimer (timer s)) |}).
Proof.
  intros Huri Hreq Hresp. unfold AddTestCase, AddTestCase_body. rewrite Huri.
  destruct (convertBody requestBody) as [[rb rj] reqErr]. simpl in Hreq.
  destruct (convertBody responseBody) as [[pb pj] respErr]. simpl in Hresp.
  subst reqErr respErr. reflexivity.
Qed.

(** C5. [convertBody] keeps a byte slice as it is and converts a
    string to its bytes, both tagged literal; every other value goes to
    [json.Marshal] and is tagged structured.  When the uri parses, a request
    body that fails to convert makes [AddTestCase] return the request
    conversion error, and a response body that fails to convert after the
    request body converted makes it return the response conversion error; in
    both cases the registry is the one it was called with. *)
Theorem convertBody_three_way :
  (forall b, convertBody (bytes_value b) = (b, false, None))
  /\ (forall str, convertBody (string_value str) = (bytes_of_string str, false, None))
  /\ (forall d, convertBody (dynamic_value d)
                = (fst (json_Marshal d), true, snd (json_Marshal d)))
  /\ (forall s method uri returnStatus requestHeaders responseHeaders
             requestBody responseBody params key,
         testcase_uri uri params = inl key ->
         let result := AddTestCase s method uri returnStatus requestHeaders
                         responseHeaders requestBody responseBody params in
         (forall err,
             snd (convertBody requestBody) = Some err ->
             fst result = Some ("unable to convert request body to []byte: " +:+ err)
             /\ tests (snd result) = tests s)
         /\ (forall err,
                snd (convertBody requestBody) = None ->
                snd (convertBody responseBody) = Some err ->
                fst result = Some ("unable to convert response body to []byte: " +:+ err)
                /\ tests (snd result) = tests s)).
Proof.
  split; [reflexivity|]. split; [reflexivity|]. split.
  - intros d. simpl. destruct (json_Marshal d). reflexivity.
  - intros s method uri returnStatus requestHeaders responseHeaders
           requestBody responseBody params key Huri result. subst result. split.
    + intros err Hreq.
      rewrite (AddTestCase_request_error _ _ _ _ _ _ _ _ _ _ _ Huri Hreq).
      split; reflexivity.
    + intros err Hreq Hresp.
      rewrite (AddTestCase_response_error _ _ _ _ _ _ _ _ _ _ _ Huri Hreq Hresp).
      split; reflexivity.
Qed.

Lemma assert_Equal_bytes_null (b : slice Byte.byte) :
  elems b = [] -> assert_Equal_bytes (bytes_of_string "null") b = false.
Proof. destruct b as [|l]; simpl; [reflexivity|]. intros ->. reflexivity. Qed.

(** C10. [convertBody] of the nil interface is the four bytes "null", tagged
    structured, with no error, whereas an empty byte slice and the empty
    string convert to no bytes, tagged literal.  A test case whose request
    body is "null" is never found registered in a bucket whose entries have
    empty request bodies; so after an empty-bodied registration into a
    cleared registry, the registration of the same method, uri, headers and
    parameters with a nil request body succeeds, and the bucket holds both
    entries, the first literal and empty, the second structured "null". *)
Theorem convertBody_nil_interface :
  convertBody (dynamic_value untyped_nil) = (bytes_of_string "null", true, None)
  /\ convertBody (bytes_value (mk_slice [])) = (mk_slice [], false, None)
  /\ convertBody (string_value "") = (mk_slice [], false, None)
  /\ (forall tc bucket,
         request_body tc = bytes_of_string "null" ->
         Forall (fun test => elems (request_body test) = []) bucket ->
         already_registered tc bucket = false)
  /\ (forall s method uri status1 status2 headers responseHeaders1
             responseHeaders2 emptyBody responseBody1 responseBody2 params,
         emptyBody = bytes_value (mk_slice []) \/ emptyBody = string_value ""
         \/ emptyBody = bytes_value nil_slice ->
         let first := AddTestCase (ClearTestCases s) method uri status1 headers
                        responseHeaders1 emptyBody responseBody1 params in
         let second := AddTestCase (snd first) method uri status2 headers
                         responseHeaders2 (dynamic_value untyped_nil)
                         responseBody2 params in
         fst first = None ->
         snd (convertBody responseBody2) = None ->
         fst second = None
         /\ exists key tc1 tc2,
              lookup_bucket (tests (snd second)) method key = Some [tc1; tc2]
              /\ elems (request_body tc1) = [] /\ request_json tc1 = false
              /\ request_body tc2 = bytes_of_string "null"
              /\ request_json tc2 = true).
Proof.
  split; [reflexivity|]. split; [reflexivity|]. split; [reflexivity|]. split.
  - intros tc bucket Hnull Hall. unfold already_registered.
    induction Hall as [|test bucket Hempty _ IH]; [reflexivity|].
    simpl. rewrite IH, Hnull, (assert_Equal_bytes_null _ Hempty), andb_false_r.
    reflexivity.
  - intros s method uri status1 status2 headers responseHeaders1
           responseHeaders2 emptyBody responseBody1 responseBody2 params
           Hempty first second Hfirst Hresp2.
    destruct first as [err1 s1] eqn:Hcall. simpl in Hfirst. subst err1.
    subst first.
    apply AddTestCase_success in Hcall
      as (key & rb & rj & pb & pj & Huri & Hreq & Hresp & _ & Hs1).
    cbn [ClearTestCases set_tests tests timer] in Hs1.
    rewrite index_bucket_lookup, lookup_bucket_empty in Hs1. simpl in Hs1.
    rewrite assign_ensure_empty in Hs1.
    assert (Hrb : elems rb = [] /\ rj = false).
    { destruct Hempty as [->|[->| ->]]; simpl in Hreq;
        injection Hreq as <- <-; auto. }
    destruct Hrb as [Hrb ->].
    destruct (convertBody responseBody2) as [[pb2 pj2] respErr2] eqn:Hresp2'.
    simpl in Hresp2. subst respErr2.
    assert (Hbucket : index_bucket (tests s1) method key
                      = [{| status := status1; request_headers := headers;
                            request_body := rb; request_json := false;
                            response_headers := responseHeaders1;
                            response_body := pb |}]).
    { rewrite Hs1. cbn [tests]. rewrite index_bucket_lookup.
      unfold lookup_bucket. rewrite lookup_singleton_eq. simpl.
      rewrite lookup_singleton_eq. reflexivity. }
    subst second. cbn [snd].
    assert (Hdup : already_registered
                     {| status := status2; request_headers := headers;
                        request_body := bytes_of_string "null";
                        request_json := true;
                        response_headers := responseHeaders2;
                        response_body := pb2 |}
                     (index_bucket (tests s1) method key) = false).
    { rewrite Hbucket. unfold already_registered.
      cbn [existsb request_headers request_body].
      rewrite (assert_Equal_bytes_null _ Hrb), andb_false_r. reflexivity. }
    rewrite (AddTestCase_insert s1 method uri status2 headers responseHeaders2
               (dynamic_value untyped_nil) responseBody2 params key
               (bytes_of_string "null") true pb2 pj2 Huri eq_refl Hresp2' Hdup).
    split; [reflexivity|]. cbn [snd tests]. rewrite Hbucket.
    eexists key, _, _. rewrite lookup_bucket_assign.
    split; [reflexivity|]. cbn [request_body request_json]. auto.
Qed.

(** ** Strings *)

Local Arguments String.append !_ _ / : simpl nomatch.

Lemma append_nil_r (s : string) : s +:+ "" = s.
Proof. induction s as [|c s IH]; simpl; [|rewrite IH]; reflexivity. Qed.

Lemma append_assoc (a b c : string) : (a +:+ b) +:+ c = a +:+ (b +:+ c).
Proof. induction a as [|x a IH]; simpl; [|rewrite IH]; reflexivity. Qed.

Lemma append_inv_head (a b c : string) : a +:+ b = a +:+ c -> b = c.
Proof. induction a as [|x a IH]; simpl; [auto | intros [= H]; auto]. Qed.

Lemma string_ind2 (P : string -> Prop) :
  P "" -> (forall c, P (String c "")) ->
  (forall c c' s, P s -> P (String c' s) -> P (String c (String c' s))) ->
  forall s, P s.
Proof.
  intros H0 H1 H2 s.
  assert (H : P s /\ forall c, P (String c s)); [|apply H].
  induction s as [|c s [IHs IHc]]; split; auto.
Qed.

Lemma ContainsByte_append (a b : string) (c : ascii) :
  strings_ContainsByte (a +:+ b) c = strings_ContainsByte a c || strings_ContainsByte b c.
Proof.
  induction a as [|x a IH]; simpl; [reflexivity|].
  rewrite IH, orb_assoc. reflexivity.
Qed.

(** [strings.Replace(s, "//", "/", -1)], clause by clause. *)
Lemma collapse_nil : strings_Replace_all "" "//" "/" = "".
Proof. reflexivity. Qed.

Lemma collapse_slash_slash (s : string) :
  strings_Replace_all (String "/" (String "/" s)) "//" "/"
  = String "/" (strings_Replace_all s "//" "/").
Proof. reflexivity. Qed.

Lemma collapse_not_slash (c : ascii) (s : string) :
  Ascii.eqb c "/" = false ->
  strings_Replace_all (String c s) "//" "/" = String c (strings_Replace_all s "//" "/").
Proof.
  intros Hc. unfold strings_Replace_all. simpl. rewrite Hc. reflexivity.
Qed.

Lemma collapse_slash_other (c : ascii) (s : string) :
  Ascii.eqb c "/" = false ->
  strings_Replace_all (String "/" (String c s)) "//" "/"
  = String "/" (strings_Replace_all (String c s) "//" "/").
Proof.
  intros Hc. unfold strings_Replace_all. simpl. rewrite !Hc. reflexivity.
Qed.

Lemma collapse_slash_end :
  strings_Replace_all "/" "//" "/" = "/".
Proof. reflexivity. Qed.

Lemma no_slash_cons (c : ascii) (s : string) :
  no_slash (String c s) = negb (Ascii.eqb c "/") && no_slash s.
Proof. unfold no_slash. simpl. apply negb_orb. Qed.

Lemma no_slash_cons_true (c : ascii) (s : string) :
  no_slash (String c s) = true -> Ascii.eqb c "/" = false /\ no_slash s = true.
Proof.
  rewrite no_slash_cons, andb_true_iff, negb_true_iff. auto.
Qed.

Lemma collapse_no_slash (s : string) :
  no_slash s = true -> strings_Replace_all s "//" "/" = s.
Proof.
  induction s as [|c s IH]; [reflexivity|].
  intros [Hc Hs]%no_slash_cons_true.
  rewrite (collapse_not_slash _ _ Hc), (IH Hs). reflexivity.
Qed.

Lemma collapse_no_slash_append (a b : string) :
  no_slash a = true ->
  strings_Replace_all (a +:+ b) "//" "/" = a +:+ strings_Replace_all b "//" "/".
Proof.
  induction a as [|c a IH]; [reflexivity|].
  intros [Hc Ha]%no_slash_cons_true. simpl.
  rewrite (collapse_not_slash _ _ Hc), (IH Ha). reflexivity.
Qed.

(** A suffix without '/' passes through the replacement untouched. *)
Lemma collapse_append_no_slash (a b : string) :
  no_slash b = true ->
  strings_Replace_all (a +:+ b) "//" "/" = strings_Replace_all a "//" "/" +:+ b.
Proof.
  intros Hb. induction a as [|c|c c' a IHa IHc'] using string_ind2.
  - apply collapse_no_slash, Hb.
  - simpl. destruct (Ascii.eqb c "/") eqn:Hc.
    + apply Ascii.eqb_eq in Hc. subst c. rewrite collapse_slash_end. simpl.
      destruct b as [|x b]; [reflexivity|].
      destruct (no_slash_cons_true _ _ Hb) as [Hx _].
      rewrite (collapse_slash_other _ _ Hx). f_equal.
      apply collapse_no_slash, Hb.
    + rewrite !(collapse_not_slash _ _ Hc). simpl. f_equal.
      apply collapse_no_slash, Hb.
  - simpl. destruct (Ascii.eqb c "/") eqn:Hc.
    + apply Ascii.eqb_eq in Hc. subst c.
      destruct (Ascii.eqb c' "/") eqn:Hc'.
      * apply Ascii.eqb_eq in Hc'. subst c'.
        rewrite !collapse_slash_slash, IHa. reflexivity.
      * rewrite !(collapse_slash_other _ _ Hc'). simpl in IHc'. rewrite IHc'.
        reflexivity.
    + rewrite !(collapse_not_slash _ _ Hc). simpl in IHc'. rewrite IHc'. reflexivity.
Qed.

Lemma no_slash_append (a b : string) :
  no_slash (a +:+ b) = no_slash a && no_slash b.
Proof. unfold no_slash. rewrite ContainsByte_append. apply negb_orb. Qed.

(** ** The query string *)

Lemma fold_Sprintf_next (rest : list Param) (uri : string) :
  fold_left (fun uri p => Sprintf_next uri (Key p) (Value p)) rest uri
  = uri +:+ spec_query_rest rest.
Proof.
  revert uri. induction rest as [|p rest IH]; intros uri; simpl.
  - symmetry. apply append_nil_r.
  - rewrite IH. unfold Sprintf_next. rewrite !append_assoc. reflexivity.
Qed.

Lemma append_params_spec_query (uri : string) (params : list Param) :
  append_params uri params = uri +:+ spec_query params.
Proof.
  destruct params as [|p0 rest]; simpl.
  - symmetry. apply append_nil_r.
  - rewrite fold_Sprintf_next. unfold Sprintf_first.
    rewrite !append_assoc. reflexivity.
Qed.

Lemma testcase_uri_request_uri uri params key :
  testcase_uri uri params = inl key ->
  exists requestURI,
    forall params',
      testcase_uri uri params'
      = inl (strings_Replace_all (requestURI +:+ spec_query params') "//" "/").
Proof.
  unfold testcase_uri, request_uri.
  destruct (url_Parse _) as [rel|uriErr]; [|discriminate].
  intros _. exists (RequestURI (ResolveReference baseUri rel)). intros params'.
  rewrite append_params_spec_query. reflexivity.
Qed.

Lemma no_slash_spec_query_rest (rest : list Param) :
  Forall (fun p => no_slash_param p = true) rest ->
  no_slash (spec_query_rest rest) = true.
Proof.
  induction 1 as [|p rest Hp _ IH]; [reflexivity|].
  apply andb_true_iff in Hp as [Hk Hv].
  cbn [spec_query_rest]. rewrite !no_slash_append, Hk, Hv, IH. reflexivity.
Qed.

Lemma no_slash_spec_query (params : list Param) :
  Forall (fun p => no_slash_param p = true) params ->
  no_slash (spec_query params) = true.
Proof.
  destruct 1 as [|p rest Hp Hrest]; [reflexivity|].
  apply andb_true_iff in Hp as [Hk Hv].
  cbn [spec_query].
  rewrite !no_slash_append, Hk, Hv, (no_slash_spec_query_rest _ Hrest). reflexivity.
Qed.

Lemma plain_inv (s : string) :
  plain s = true ->
  no_slash s = true /\ strings_ContainsByte s "&" = false
  /\ strings_ContainsByte s "=" = false.
Proof.
  unfold plain. rewrite !andb_true_iff, !negb_true_iff. tauto.
Qed.

Lemma plain_param_no_slash (params : list Param) :
  Forall (fun p => plain_param p = true) params ->
  Forall (fun p => no_slash_param p = true) params.
Proof.
  intros Hall. eapply Forall_impl; [exact Hall|].
  intros p [Hk Hv]%andb_true_iff.
  apply plain_inv in Hk as [Hk _], Hv as [Hv _].
  unfold no_slash_param. rewrite Hk, Hv. reflexivity.
Qed.

(** Two strings that agree up to their first [c] and after it. *)
Lemma append_cut_inj (c : ascii) (a a' b b' : string) :
  strings_ContainsByte a c = false -> strings_ContainsByte a' c = false ->
  a +:+ String c b = a' +:+ String c b' -> a = a' /\ b = b'.
Proof.
  revert a'. induction a as [|x a IH]; intros [|x' a']; simpl; intros Ha Ha' Heq.
  - injection Heq as ->. auto.
  - injection Heq as -> _. rewrite Ascii.eqb_refl in Ha'. discriminate.
  - injection Heq as -> _. rewrite Ascii.eqb_refl in Ha. discriminate.
  - injection Heq as -> Heq.
    apply orb_false_iff in Ha as [_ Ha], Ha' as [_ Ha'].
    destruct (IH a' Ha Ha' Heq) as [-> ->]. auto.
Qed.

Lemma append_end_inj (c : ascii) (a a' t t' : string) :
  strings_ContainsByte a c = false -> strings_ContainsByte a' c = false ->
  (t = "" \/ exists r, t = String c r) ->
  (t' = "" \/ exists r, t' = String c r) ->
  a +:+ t = a' +:+ t' -> a = a' /\ t = t'.
Proof.
  intros Ha Ha' [->|[r ->]] [->|[r' ->]] Heq.
  - rewrite !append_nil_r in Heq. auto.
  - rewrite append_nil_r in Heq. subst a.
    rewrite ContainsByte_append in Ha. simpl in Ha.
    rewrite Ascii.eqb_refl, orb_true_r in Ha. discriminate.
  - rewrite append_nil_r in Heq. subst a'.
    rewrite ContainsByte_append in Ha'. simpl in Ha'.
    rewrite Ascii.eqb_refl, orb_true_r in Ha'. discriminate.
  - destruct (append_cut_inj c a a' r r' Ha Ha' Heq) as [-> ->]. auto.
Qed.

Lemma spec_query_rest_shape (rest : list Param) :
  spec_query_rest rest = "" \/ exists r, spec_query_rest rest = String "&" r.
Proof. destruct rest as [|p rest]; simpl; eauto. Qed.

Lemma key_value_inj (p p' : Param) (t t' : string) :
  plain_param p = true -> plain_param p' = true ->
  (t = "" \/ exists r, t = String "&" r) ->
  (t' = "" \/ exists r, t' = String "&" r) ->
  Key p +:+ "=" +:+ Value p +:+ t = Key p' +:+ "=" +:+ Value p' +:+ t' ->
  p = p' /\ t = t'.
Proof.
  intros [Hk Hv]%andb_true_iff [Hk' Hv']%andb_true_iff Ht Ht' Heq.
  apply plain_inv in Hk as (_ & _ & Hk), Hv as (_ & Hv & _).
  apply plain_inv in Hk' as (_ & _ & Hk'), Hv' as (_ & Hv' & _).
  simpl in Heq.
  destruct (append_cut_inj "=" _ _ _ _ Hk Hk' Heq) as [Hkey Heq'].
  destruct (append_end_inj "&" _ _ _ _ Hv Hv' Ht Ht' Heq') as [Hvalue Htail].
  split; [|assumption].
  destruct p, p'. simpl in *. congruence.
Qed.

Lemma spec_query_rest_inj (rest rest' : list Param) :
  Forall (fun p => plain_param p = true) rest ->
  Forall (fun p => plain_param p = true) rest' ->
  spec_query_rest rest = spec_query_rest rest' -> rest = rest'.
Proof.
  intros Hall. revert rest'.
  induction Hall as [|p rest Hp _ IH]; intros rest' Hall' Heq;
    destruct Hall' as [|p' rest' Hp' Hall']; simpl in Heq; try discriminate;
    [reflexivity|].
  injection Heq as Heq.
  destruct (key_value_inj p p' _ _ Hp Hp' (spec_query_rest_shape rest)
              (spec_query_rest_shape rest') Heq) as [-> Htail].
  f_equal. apply IH; assumption.
Qed.

Lemma spec_query_inj (params params' : list Param) :
  Forall (fun p => plain_param p = true) params ->
  Forall (fun p => plain_param p = true) params' ->
  spec_query params = spec_query params' -> params = params'.
Proof.
  intros Hall Hall' Heq.
  destruct Hall as [|p rest Hp Hall], Hall' as [|p' rest' Hp' Hall'];
    simpl in Heq; try discriminate; [reflexivity|].
  injection Heq as Heq.
  destruct (key_value_inj p p' _ _ Hp Hp' (spec_query_rest_shape rest)
              (spec_query_rest_shape rest') Heq) as [-> Htail].
  f_equal. apply spec_query_rest_inj; assumption.
Qed.

(** C4 (amended). On a successful [AddTestCase] with parameters the bucket
    key is the request URI followed by "?k1=v1", then "&ki=vi" for every
    further parameter in the order given, with each "//" of the whole string
    replaced by "/".  When no key and no value contains '/', the key is the
    normalized path followed by that query string as it stands; when
    moreover none contains '&' or '=', a different list of such parameters, a
    reordering of distinct ones included, gives a different key. *)
Theorem AddTestCase_params_key :
  forall s method uri returnStatus requestHeaders responseHeaders
         requestBody responseBody params s',
    params <> [] ->
    AddTestCase s method uri returnStatus requestHeaders responseHeaders
                requestBody responseBody params = (None, s') ->
    exists key requestURI tc,
      testcase_uri uri params = inl key
      /\ lookup_bucket (tests s') method key
         = Some (index_bucket (tests s) method key ++ [tc])%list
      /\ testcase_uri uri [] = inl (strings_Replace_all requestURI "//" "/")
      /\ key = strings_Replace_all (requestURI +:+ spec_query params) "//" "/"
      /\ (Forall (fun p => no_slash_param p = true) params ->
          key = strings_Replace_all requestURI "//" "/" +:+ spec_query params)
      /\ (forall params' key',
             Forall (fun p => plain_param p = true) params ->
             Forall (fun p => plain_param p = true) params' ->
             testcase_uri uri params' = inl key' ->
             params' <> params -> key' <> key).
Proof.
  intros s method uri returnStatus requestHeaders responseHeaders
         requestBody responseBody params s' _ Hcall.
  apply AddTestCase_success in Hcall
    as (key & rb & rj & pb & pj & Huri & Hreq & Hresp & Hdup & ->).
  destruct (testcase_uri_request_uri _ _ _ Huri) as [requestURI Hkey].
  pose proof (Hkey params) as Hparams. rewrite Huri in Hparams.
  injection Hparams as Hparams.
  exists key, requestURI. eexists. split; [assumption|]. split.
  { cbn [tests]. apply lookup_bucket_assign. }
  split.
  { rewrite Hkey. simpl. rewrite append_nil_r. reflexivity. }
  split; [assumption|]. split.
  - intros Hall. rewrite Hparams.
    apply collapse_append_no_slash, no_slash_spec_query, Hall.
  - intros params' key' Hall Hall' Huri' Hne Heq.
    rewrite Hkey in Huri'. injection Huri' as Hkey'.
    rewrite collapse_append_no_slash in Hkey'
      by apply no_slash_spec_query, plain_param_no_slash, Hall'.
    rewrite collapse_append_no_slash in Hparams
      by apply no_slash_spec_query, plain_param_no_slash, Hall.
    apply Hne. apply spec_query_inj; [assumption..|].
    apply (append_inv_head (strings_Replace_all requestURI "//" "/")).
    congruence.
Qed.

(** ** Paths that normalization leaves alone *)

Ltac by_cases_on_byte c :=
  destruct c as [[] [] [] [] [] [] [] []]; vm_compute; intros; congruence.

Lemma unreserved_not_slash c : unreserved c = true -> Ascii.eqb c "/" = false.
Proof. by_cases_on_byte c. Qed.

Lemma path_char_not_control c :
  path_char c = true -> (N_of_ascii c <? 32)%N || (N_of_ascii c =? 127)%N = false.
Proof. by_cases_on_byte c. Qed.

Lemma path_char_not_hash c : path_char c = true -> Ascii.eqb c "#" = false.
Proof. by_cases_on_byte c. Qed.

Lemma path_char_not_question c : path_char c = true -> Ascii.eqb c "?" = false.
Proof. by_cases_on_byte c. Qed.

Lemma path_char_not_percent c : path_char c = true -> Ascii.eqb c "%" = false.
Proof. by_cases_on_byte c. Qed.

Lemma path_char_not_escaped c : path_char c = true -> shouldEscape c encodePath = false.
Proof. by_cases_on_byte c. Qed.

Lemma string_forallb_append f (a b : string) :
  string_forallb f (a +:+ b) = string_forallb f a && string_forallb f b.
Proof.
  induction a as [|c a IH]; simpl; [reflexivity|].
  rewrite IH, andb_assoc. reflexivity.
Qed.

Lemma string_forallb_impl (f g : ascii -> bool) (s : string) :
  (forall c, f c = true -> g c = true) ->
  string_forallb f s = true -> string_forallb g s = true.
Proof.
  intros Hfg. induction s as [|c s IH]; simpl; [reflexivity|].
  intros [Hc Hs]%andb_true_iff. rewrite (Hfg _ Hc), (IH Hs). reflexivity.
Qed.

Lemma forallb_not_ContainsByte f (b : ascii) (s : string) :
  (forall c, f c = true -> Ascii.eqb c b = false) ->
  string_forallb f s = true -> strings_ContainsByte s b = false.
Proof.
  intros Hf. induction s as [|c s IH]; simpl; [reflexivity|].
  intros [Hc Hs]%andb_true_iff. rewrite (Hf _ Hc), (IH Hs). reflexivity.
Qed.

Lemma path_chars_no_control (s : string) :
  string_forallb path_char s = true -> stringContainsCTLByte s = false.
Proof.
  unfold stringContainsCTLByte. induction s as [|c s IH]; simpl; [reflexivity|].
  intros [Hc Hs]%andb_true_iff.
  rewrite (path_char_not_control _ Hc), (IH Hs). reflexivity.
Qed.

Lemma Cut_absent (s : string) (sep : ascii) :
  strings_ContainsByte s sep = false -> strings_Cut s sep = (s, "", false).
Proof.
  induction s as [|c s IH]; simpl; [reflexivity|].
  intros [Hc Hs]%orb_false_iff. rewrite Hc, (IH Hs). reflexivity.
Qed.

Lemma CountByte_absent (s : string) (b : ascii) :
  strings_ContainsByte s b = false -> strings_CountByte s b = 0.
Proof.
  induction s as [|c s IH]; simpl; [reflexivity|].
  intros [Hc Hs]%orb_false_iff. rewrite Hc, (IH Hs). reflexivity.
Qed.

Lemma unescape_no_percent (s : string) :
  strings_ContainsByte s "%" = false -> unescape s = inl s.
Proof.
  induction s as [|c s IH]; [reflexivity|].
  cbn [strings_ContainsByte]. intros [Hc Hs]%orb_false_iff.
  cbn [unescape]. rewrite Hc, (IH Hs). reflexivity.
Qed.

Lemma escape_path_chars (s : string) :
  string_forallb path_char s = true -> escape s encodePath = s.
Proof.
  induction s as [|c s IH]; [reflexivity|].
  cbn [string_forallb escape]. intros [Hc Hs]%andb_true_iff.
  rewrite (path_char_not_escaped _ Hc), (IH Hs). reflexivity.
Qed.

Lemma setPath_path_chars (u : URL) (p : string) :
  string_forallb path_char p = true ->
  setPath u p
  = inl {| Scheme := Scheme u; Opaque := Opaque u; User := User u;
           Host := Host u; Path := p; RawPath := "";
           OmitHost := OmitHost u; ForceQuery := ForceQuery u;
           RawQuery := RawQuery u; Fragment := Fragment u;
           RawFragment := RawFragment u |}.
Proof.
  intros Hp. unfold setPath.
  rewrite unescape_no_percent
    by (eapply forallb_not_ContainsByte; [apply path_char_not_percent | exact Hp]).
  rewrite (escape_path_chars _ Hp), String.eqb_refl. reflexivity.
Qed.

Lemma getScheme_slash (rest : string) :
  getScheme (String "/" rest) = inl ("", String "/" rest).
Proof. reflexivity. Qed.

(** [url.Parse] of a rooted path of unreserved characters and slashes that
    does not begin with two slashes: the URL with that path and nothing else. *)
Lemma url_Parse_path (rest : string) :
  string_forallb path_char (String "/" rest) = true ->
  strings_HasPrefix (String "/" rest) "//" = false ->
  url_Parse (String "/" rest) = inl (set_Path zero_URL (String "/" rest)).
Proof.
  intros Hchars Hslash. unfold url_Parse.
  rewrite Cut_absent
    by (eapply forallb_not_ContainsByte; [apply path_char_not_hash | exact Hchars]).
  unfold parse. rewrite (path_chars_no_control _ Hchars).
  assert (Hq : strings_ContainsByte (String "/" rest) "?" = false)
    by (eapply forallb_not_ContainsByte; [apply path_char_not_question | exact Hchars]).
  change (String.eqb (String "/" rest) "*") with false. cbv iota.
  rewrite getScheme_slash.
  rewrite (CountByte_absent _ _ Hq), andb_false_r, (Cut_absent _ _ Hq).
  cbv iota beta.
  change (strings_HasPrefix (String "/" rest) "/") with true.
  rewrite Hslash. cbn [negb andb orb].
  change (nonempty (Scheme (set_RawQuery (set_Scheme zero_URL (strings_ToLower "")) "")))
    with false.
  cbn [andb orb]. rewrite andb_false_r.
  rewrite (setPath_path_chars _ _ Hchars). reflexivity.
Qed.

Lemma baseUri_root : baseUri = set_Path zero_URL "/".
Proof. reflexivity. Qed.

Lemma EscapedPath_path (p : string) :
  string_forallb path_char (String "/" p) = true ->
  EscapedPath (set_Path zero_URL (String "/" p)) = String "/" p.
Proof.
  intros Hp. unfold EscapedPath. cbn [RawPath Path set_Path zero_URL].
  change (nonempty "") with false. cbn [andb].
  change (String.eqb (String "/" p) "*") with false. cbv iota.
  apply escape_path_chars, Hp.
Qed.

(** Against the base "/", a reference that only has a path of unreserved
    characters and slashes resolves to itself as soon as its path does. *)
Lemma ResolveReference_path (p : string) :
  string_forallb path_char (String "/" p) = true ->
  resolvePath "/" (String "/" p) = String "/" p ->
  RequestURI (ResolveReference baseUri (set_Path zero_URL (String "/" p)))
  = String "/" p.
Proof.
  intros Hp Hresolve. rewrite baseUri_root. unfold ResolveReference.
  rewrite (EscapedPath_path _ Hp).
  change (EscapedPath (set_Path zero_URL "/")) with "/".
  rewrite Hresolve.
  cbn [Scheme Host User Opaque Path ForceQuery RawQuery Fragment set_Path
       set_Scheme zero_URL].
  change (nonempty "") with false.
  change (String.eqb (String "/" p) "") with false.
  change (bool_decide (is_Some (@None Userinfo))) with false.
  cbn [orb andb negb]. cbv iota.
  unfold setPath_ignore. rewrite (setPath_path_chars _ _ Hp).
  unfold RequestURI.
  cbn [Scheme Host User Opaque Path RawPath OmitHost ForceQuery RawQuery
       Fragment RawFragment set_User_Host set_Scheme set_Path zero_URL].
  change (String.eqb "" "") with true. cbv iota.
  change (nonempty "") with false. cbn [orb]. cbv iota.
  pose proof (EscapedPath_path _ Hp) as Hesc.
  unfold set_Path, zero_URL in Hesc.
  cbn [Scheme Host User Opaque Path RawPath OmitHost ForceQuery RawQuery
       Fragment RawFragment] in Hesc.
  rewrite Hesc. reflexivity.
Qed.

(** *** Segments *)

Lemma clean_segment_inv (seg : string) :
  clean_segment seg = true ->
  nonempty seg = true /\ string_forallb unreserved seg = true
  /\ String.eqb seg "." = false /\ String.eqb seg ".." = false.
Proof.
  unfold clean_segment. rewrite !andb_true_iff, !negb_true_iff. tauto.
Qed.

Lemma clean_segment_no_slash (seg : string) :
  clean_segment seg = true -> no_slash seg = true.
Proof.
  intros (_ & Hchars & _)%clean_segment_inv. unfold no_slash.
  rewrite (forallb_not_ContainsByte unreserved "/" seg unreserved_not_slash Hchars).
  reflexivity.
Qed.

Lemma join_segments_path_chars (segments : list string) :
  Forall (fun seg => clean_segment seg = true) segments ->
  string_forallb path_char (join_segments segments) = true.
Proof.
  induction 1 as [|seg rest Hseg _ IH]; [reflexivity|].
  apply clean_segment_inv in Hseg as (_ & Hchars & _).
  cbn [join_segments]. rewrite !string_forallb_append, IH, andb_true_r.
  apply andb_true_iff. split; [reflexivity|].
  eapply string_forallb_impl; [|exact Hchars].
  intros c Hc. unfold path_char. rewrite Hc. reflexivity.
Qed.

Lemma Split_no_sep (x t h : string) (tl : list string) :
  no_slash x = true -> strings_Split t "/" = h :: tl ->
  strings_Split (x +:+ t) "/" = (x +:+ h) :: tl.
Proof.
  intros Hx Ht. induction x as [|c x IH]; [exact Ht|].
  apply no_slash_cons_true in Hx as [Hc Hx].
  simpl. rewrite Hc, (IH Hx). reflexivity.
Qed.

Lemma Split_join_segments (segments : list string) :
  Forall (fun seg => clean_segment seg = true) segments ->
  strings_Split (join_segments segments) "/" = "" :: segments.
Proof.
  induction 1 as [|seg rest Hseg _ IH]; [reflexivity|].
  cbn [join_segments]. simpl.
  rewrite (Split_no_sep seg _ "" rest (clean_segment_no_slash _ Hseg) IH).
  rewrite append_nil_r. reflexivity.
Qed.

Lemma resolvePath_step_clean (dst seg : string) :
  clean_segment seg = true ->
  resolvePath_step (dst, false) seg = (dst +:+ "/" +:+ seg, false).
Proof.
  intros (_ & _ & Hdot & Hdots)%clean_segment_inv.
  unfold resolvePath_step. rewrite Hdot, Hdots, append_assoc. reflexivity.
Qed.

Lemma fold_resolvePath_step_clean (segments : list string) (dst : string) :
  Forall (fun seg => clean_segment seg = true) segments ->
  fold_left resolvePath_step segments (dst, false)
  = (dst +:+ join_segments segments, false).
Proof.
  intros Hall. revert dst.
  induction Hall as [|seg rest Hseg _ IH]; intros dst.
  - simpl. rewrite append_nil_r. reflexivity.
  - cbn [fold_left join_segments].
    rewrite (resolvePath_step_clean _ _ Hseg), IH, !append_assoc. reflexivity.
Qed.

Lemma last_clean (segments : list string) (seg : string) :
  Forall (fun seg => clean_segment seg = true) (seg :: segments) ->
  clean_segment (List.last (seg :: segments) "") = true.
Proof.
  revert seg. induction segments as [|seg' rest IH]; intros seg Hall.
  - inversion Hall. assumption.
  - inversion Hall as [|? ? _ Hrest]. subst.
    change (List.last (seg :: seg' :: rest) "") with (List.last (seg' :: rest) "").
    apply IH, Hrest.
Qed.

Lemma resolvePath_join_segments (seg : string) (segments : list string) :
  Forall (fun seg => clean_segment seg = true) (seg :: segments) ->
  resolvePath "/" (join_segments (seg :: segments)) = join_segments (seg :: segments).
Proof.
  intros Hall. pose proof (Split_join_segments _ Hall) as Hsplit.
  change (join_segments (seg :: segments))
    with (String "/" (seg +:+ join_segments segments)) in *.
  unfold resolvePath.
  change (Ascii.eqb "/" "/") with true. cbv iota zeta.
  change (String.eqb (String "/" (seg +:+ join_segments segments)) "") with false.
  cbv iota. rewrite Hsplit.
  change (fold_left resolvePath_step ("" :: seg :: segments) ("/", true))
    with (fold_left resolvePath_step (seg :: segments) ("/", false)).
  rewrite (fold_resolvePath_step_clean _ _ Hall).
  change (List.last ("" :: seg :: segments) "") with (List.last (seg :: segments) "").
  destruct (clean_segment_inv _ (last_clean _ _ Hall)) as (_ & _ & -> & ->).
  reflexivity.
Qed.

Lemma collapse_join_segments (segments : list string) :
  Forall (fun seg => clean_segment seg = true) segments ->
  strings_Replace_all (join_segments segments) "//" "/" = join_segments segments.
Proof.
  induction 1 as [|seg rest Hseg _ IH]; [reflexivity|].
  pose proof (clean_segment_no_slash _ Hseg) as Hns.
  apply clean_segment_inv in Hseg as (Hne & _).
  destruct seg as [|c seg]; [discriminate|].
  apply no_slash_cons_true in Hns as [Hc Hns].
  cbn [join_segments]. simpl.
  rewrite (collapse_slash_other _ _ Hc), (collapse_not_slash _ _ Hc).
  rewrite (collapse_no_slash_append _ _ Hns), IH. reflexivity.
Qed.

(** *** The prefix *)

Lemma ensure_prefix_idempotent (uri : string) :
  ensure_prefix (ensure_prefix uri) = ensure_prefix uri.
Proof.
  destruct (strings_HasPrefix uri "/v1/") eqn:Hp.
  - assert (ensure_prefix uri = uri) as ->
      by (unfold ensure_prefix; rewrite Hp; reflexivity).
    unfold ensure_prefix. rewrite Hp. reflexivity.
  - assert (ensure_prefix uri = "/v1/" +:+ uri) as ->
      by (unfold ensure_prefix; rewrite Hp; reflexivity).
    reflexivity.
Qed.

Lemma ensure_prefix_add (p : string) :
  strings_HasPrefix p "/v1/" = false ->
  ensure_prefix p = ensure_prefix ("/v1/" +:+ p).
Proof. intros Hp. unfold ensure_prefix. rewrite Hp. reflexivity. Qed.

Lemma testcase_uri_prefix (p : string) (params : list Param) :
  strings_HasPrefix p "/v1/" = false ->
  testcase_uri p params = testcase_uri ("/v1/" +:+ p) params.
Proof.
  intros Hp. unfold testcase_uri. rewrite (ensure_prefix_add _ Hp). reflexivity.
Qed.

Lemma testcase_uri_clean (segments : list string) :
  segments <> [] ->
  Forall (fun seg => clean_segment seg = true) segments ->
  testcase_uri (join_segments ("v1" :: segments)) []
  = inl (join_segments ("v1" :: segments)).
Proof.
  intros Hne Hall.
  assert (Hall' : Forall (fun seg => clean_segment seg = true) ("v1" :: segments))
    by (constructor; [reflexivity | assumption]).
  pose proof (join_segments_path_chars _ Hall') as Hchars.
  pose proof (resolvePath_join_segments _ _ Hall') as Hresolve.
  pose proof (collapse_join_segments _ Hall') as Hcollapse.
  destruct segments as [|seg rest]; [congruence|].
  unfold testcase_uri, request_uri, ensure_prefix.
  change (join_segments ("v1" :: seg :: rest))
    with (String "/" ("v1/" +:+ seg +:+ join_segments rest)) in *.
  change (strings_HasPrefix (String "/" ("v1/" +:+ seg +:+ join_segments rest)) "/v1/")
    with true.
  cbn [negb]. cbv iota.
  rewrite (url_Parse_path _ Hchars) by reflexivity.
  rewrite (ResolveReference_path _ Hchars Hresolve).
  cbn [append_params]. rewrite Hcollapse. reflexivity.
Qed.

Lemma testcase_uri_fixed (uri : string) :
  strings_HasPrefix uri "/v1/" = true ->
  request_uri uri = inl uri ->
  strings_Replace_all uri "//" "/" = uri ->
  testcase_uri uri [] = inl uri.
Proof.
  intros Hp Hrequest Hcollapse. unfold testcase_uri, ensure_prefix.
  rewrite Hp. cbn [negb]. cbv iota zeta. rewrite Hrequest.
  cbn [append_params]. rewrite Hcollapse. reflexivity.
Qed.

(** C3 (amended). Ensuring the "/v1/" prefix is idempotent; for a path [p]
    that does not start with "/v1/", the uris [p] and "/v1/" followed by [p]
    give the same bucket key and the same result of [AddTestCase], whatever
    the parameters; normalization leaves unchanged a uri that starts with
    "/v1/", that resolves to itself against the base and that the
    replacement of "//" does not change; such is every uri "/v1/s1/.../sn"
    with at least one segment after "v1" whose segments are clean: not
    empty, made of unreserved characters, neither "." nor "..". *)
Theorem testcase_uri_normal_forms :
  (forall uri, ensure_prefix (ensure_prefix uri) = ensure_prefix uri)
  /\ (forall uri,
         strings_HasPrefix uri "/v1/" = true ->
         request_uri uri = inl uri ->
         strings_Replace_all uri "//" "/" = uri ->
         testcase_uri uri [] = inl uri)
  /\ (forall p params,
         strings_HasPrefix p "/v1/" = false ->
         testcase_uri p params = testcase_uri ("/v1/" +:+ p) params)
  /\ (forall s method p returnStatus requestHeaders responseHeaders
             requestBody responseBody params,
         strings_HasPrefix p "/v1/" = false ->
         AddTestCase s method p returnStatus requestHeaders responseHeaders
                     requestBody responseBody params
         = AddTestCase s method ("/v1/" +:+ p) returnStatus requestHeaders
                       responseHeaders requestBody responseBody params)
  /\ (forall segments,
         segments <> [] ->
         Forall (fun seg => clean_segment seg = true) segments ->
         testcase_uri (join_segments ("v1" :: segments)) []
         = inl (join_segments ("v1" :: segments))).
Proof.
  split; [exact ensure_prefix_idempotent|].
  split; [exact testcase_uri_fixed|].
  split; [exact testcase_uri_prefix|].
  split; [|exact testcase_uri_clean].
  intros s method p returnStatus requestHeaders responseHeaders
         requestBody responseBody params Hp.
  unfold AddTestCase, AddTestCase_body.
  rewrite (testcase_uri_prefix _ params Hp). reflexivity.
Qed.

(** ** Outcomes of [AddTestCase], all together *)

Lemma already_registered_present tc t method uri :
  already_registered tc (index_bucket t method uri) = true ->
  exists bucket, lookup_bucket t method uri = Some bucket.
Proof.
  rewrite index_bucket_lookup.
  destruct (lookup_bucket t method uri) as [bucket|]; [eauto | discriminate].
Qed.

Lemma convertBody_triple (body : iface) :
  convertBody body
  = (fst (fst (convertBody body)), snd (fst (convertBody body)), snd (convertBody body)).
Proof. destruct (convertBody body) as [[data json] err]. reflexivity. Qed.

Lemma AddTestCase_duplicate_inv s method uri returnStatus requestHeaders
    responseHeaders requestBody responseBody params s' :
  AddTestCase s method uri returnStatus requestHeaders responseHeaders
              requestBody responseBody params
  = (Some "test case already registered", s') ->
  exists key,
    testcase_uri uri params = inl key
    /\ snd (convertBody requestBody) = None
    /\ snd (convertBody responseBody) = None
    /\ already_registered
         (new_testCase returnStatus requestHeaders responseHeaders
                       requestBody responseBody)
         (index_bucket (tests s) method key) = true
    /\ s' = {| tests := tests s; timer := startTimer (stopTimer (timer s)) |}.
Proof.
  unfold new_testCase.
  body_paths requestBody responseBody; intros Heq.
  - apply (f_equal fst) in Heq. cbn [fst] in Heq. discriminate Heq.
  - apply (f_equal fst) in Heq. cbn [fst] in Heq. discriminate Heq.
  - apply (f_equal snd) in Heq. cbn [snd] in Heq. subst s'.
    rewrite index_bucket_ensure in Hdup.
    exists key. repeat (split; [reflexivity|]). split; [exact Hdup|].
    destruct (already_registered_present _ _ _ _ Hdup) as [bucket Hb].
    rewrite (ensure_bucket_present _ _ _ _ Hb). reflexivity.
  - discriminate Heq.
  - apply testcase_uri_error in Huri. subst uriErr. discriminate Heq.
Qed.

Lemma AddTestCase_failure_state s method uri returnStatus requestHeaders
    responseHeaders requestBody responseBody params err s' :
  AddTestCase s method uri returnStatus requestHeaders responseHeaders
              requestBody responseBody params = (Some err, s') ->
  s' = {| tests := tests s; timer := startTimer (stopTimer (timer s)) |}.
Proof.
  body_paths requestBody responseBody; intros [= _ <-]; try reflexivity.
  rewrite index_bucket_ensure in Hdup.
  destruct (already_registered_present _ _ _ _ Hdup) as [bucket Hb].
  rewrite (ensure_bucket_present _ _ _ _ Hb). reflexivity.
Qed.

(** X1. A call of [AddTestCase] that returns an error, whichever it is,
    leaves the registry as it was: no map and no bucket has been made for
    the method or for the uri.  Only the timer has been stopped and
    started. *)
Theorem AddTestCase_error_unchanged :
  forall s method uri returnStatus requestHeaders responseHeaders
         requestBody responseBody params err s',
    AddTestCase s method uri returnStatus requestHeaders responseHeaders
                requestBody responseBody params = (Some err, s') ->
    s' = {| tests := tests s; timer := startTimer (stopTimer (timer s)) |}.
Proof.
  intros s method uri returnStatus requestHeaders responseHeaders
         requestBody responseBody params err s' Hcall.
  exact (AddTestCase_failure_state _ _ _ _ _ _ _ _ _ _ _ Hcall).
Qed.


(** ** The registry after a call *)

Lemma Service_eq (a b : Service) :
  tests a = tests b -> timer a = timer b -> a = b.
Proof. destruct a, b. simpl. intros -> ->. reflexivity. Qed.

Lemma lookup_append_testCase t method uri tc :
  lookup_bucket (append_testCase t method uri tc) method uri
  = Some (index_bucket t method uri ++ [tc])%list.
Proof. apply lookup_bucket_assign. Qed.

Lemma lookup_append_testCase_ne t method uri tc method' uri' :
  (method', uri') <> (method, uri) ->
  lookup_bucket (append_testCase t method uri tc) method' uri'
  = lookup_bucket t method' uri'.
Proof.
  intros Hne. unfold append_testCase.
  rewrite lookup_bucket_assign_ne by exact Hne.
  apply lookup_bucket_ensure_ne, Hne.
Qed.

Lemma index_append_testCase_ne t method uri tc method' uri' :
  (method', uri') <> (method, uri) ->
  index_bucket (append_testCase t method uri tc) method' uri'
  = index_bucket t method' uri'.
Proof.
  intros Hne. rewrite !index_bucket_lookup.
  rewrite lookup_append_testCase_ne by exact Hne. reflexivity.
Qed.

Lemma ensure_bucket_method t method uri method' :
  is_Some (ensure_bucket t method uri !! method')
  <-> method' = method \/ is_Some (t !! method').
Proof.
  unfold ensure_bucket, assign_bucket, index_method.
  destruct (t !! method) as [inner|] eqn:Hm; cbn [default from_option id].
  - rewrite Hm. cbn [default from_option id].
    destruct (inner !! uri) eqn:Hu.
    + split; [intros H; right; exact H|]. intros [->|H]; [rewrite Hm; eauto | exact H].
    + destruct (decide (method' = method)) as [->|Hne].
      * rewrite lookup_insert_eq. split; eauto.
      * rewrite lookup_insert_ne by congruence.
        split; [intros H; right; exact H|]. intros [?|H]; [contradiction | exact H].
  - rewrite lookup_insert_eq. cbn [default from_option id]. rewrite lookup_empty.
    destruct (decide (method' = method)) as [->|Hne].
    + rewrite lookup_insert_eq. split; eauto.
    + rewrite !lookup_insert_ne by congruence.
      split; [intros H; right; exact H|]. intros [?|H]; [contradiction | exact H].
Qed.

Lemma append_testCase_method t method uri tc method' :
  is_Some (append_testCase t method uri tc !! method')
  <-> method' = method \/ is_Some (t !! method').
Proof.
  unfold append_testCase, assign_bucket.
  destruct (decide (method' = method)) as [->|Hne].
  - rewrite lookup_insert_eq. split; eauto.
  - rewrite lookup_insert_ne by congruence.
    rewrite ensure_bucket_method. reflexivity.
Qed.

Lemma registry_ext (t t' : gmap string (gmap string (list testCase))) :
  same_buckets t t' ->
  (forall method, is_Some (t !! method) <-> is_Some (t' !! method)) ->
  t = t'.
Proof.
  intros Hsame Hdom. apply map_eq. intros method.
  specialize (Hdom method).
  destruct (t !! method) as [inner|] eqn:Hm, (t' !! method) as [inner'|] eqn:Hm'.
  - f_equal. apply map_eq. intros uri.
    specialize (Hsame method uri). unfold lookup_bucket in Hsame.
    rewrite Hm, Hm' in Hsame. exact Hsame.
  - destruct Hdom as [Hdom _]. destruct Hdom as [x Hx]; [eauto | discriminate Hx].
  - destruct Hdom as [_ Hdom]. destruct Hdom as [x Hx]; [eauto | discriminate Hx].
  - reflexivity.
Qed.

Lemma append_testCase_commute t method1 uri1 tc1 method2 uri2 tc2 :
  (method1, uri1) <> (method2, uri2) ->
  append_testCase (append_testCase t method1 uri1 tc1) method2 uri2 tc2
  = append_testCase (append_testCase t method2 uri2 tc2) method1 uri1 tc1.
Proof.
  intros Hne.
  assert (Hne' : (method2, uri2) <> (method1, uri1)) by congruence.
  apply registry_ext.
  - intros method uri.
    destruct (decide ((method, uri) = (method2, uri2))) as [[= -> ->]|H2].
    + rewrite lookup_append_testCase.
      rewrite (lookup_append_testCase_ne _ method1 uri1) by exact Hne'.
      rewrite lookup_append_testCase.
      rewrite index_append_testCase_ne by exact Hne'. reflexivity.
    + rewrite lookup_append_testCase_ne by exact H2.
      destruct (decide ((method, uri) = (method1, uri1))) as [[= -> ->]|H1].
      * rewrite !lookup_append_testCase.
        rewrite index_append_testCase_ne by exact Hne. reflexivity.
      * rewrite !lookup_append_testCase_ne by assumption. reflexivity.
  - intros method. rewrite !append_testCase_method. tauto.
Qed.

Lemma AddTestCase_tests s method uri returnStatus requestHeaders
    responseHeaders requestBody responseBody params :
  tests (snd (AddTestCase s method uri returnStatus requestHeaders
                          responseHeaders requestBody responseBody params))
  = match fst (AddTestCase s method uri returnStatus requestHeaders
                 responseHeaders requestBody responseBody params),
          testcase_uri uri params with
    | None, inl key =>
        append_testCase (tests s) method key
          (new_testCase returnStatus requestHeaders responseHeaders
                        requestBody responseBody)
    | _, _ => tests s
    end.
Proof.
  destruct (AddTestCase s method uri returnStatus requestHeaders
              responseHeaders requestBody responseBody params)
    as [[err|] s'] eqn:Hcall; cbn [fst snd].
  - rewrite (AddTestCase_failure_state _ _ _ _ _ _ _ _ _ _ _ Hcall). reflexivity.
  - apply AddTestCase_success in Hcall
      as (key & rb & rj & pb & pj & Huri & Hreq & Hresp & _ & ->).
    rewrite Huri. unfold new_testCase, append_testCase.
    rewrite Hreq, Hresp. reflexivity.
Qed.

Lemma AddTestCase_error_local s s' method uri returnStatus requestHeaders
    responseHeaders requestBody responseBody params :
  (forall key, testcase_uri uri params = inl key ->
               index_bucket (tests s) method key = index_bucket (tests s') method key) ->
  fst (AddTestCase s method uri returnStatus requestHeaders responseHeaders
                   requestBody responseBody params)
  = fst (AddTestCase s' method uri returnStatus requestHeaders responseHeaders
                     requestBody responseBody params).
Proof.
  intros Hlocal. unfold AddTestCase, AddTestCase_body.
  cbn [tests timer set_tests set_timer].
  destruct (testcase_uri uri params) as [key|uriErr]; [|reflexivity].
  specialize (Hlocal key eq_refl).
  destruct (convertBody requestBody) as [[rb rj] [reqErr|]]; [reflexivity|].
  destruct (convertBody responseBody) as [[pb pj] [respErr|]]; [reflexivity|].
  rewrite !index_bucket_ensure, Hlocal.
  destruct (already_registered _ _); reflexivity.
Qed.

Lemma AddTestCase_frame s method uri returnStatus requestHeaders
    responseHeaders requestBody responseBody params method' uri' :
  (method' <> method \/ testcase_uri uri params <> inl uri') ->
  lookup_bucket
    (tests (snd (AddTestCase s method uri returnStatus requestHeaders
                             responseHeaders requestBody responseBody params)))
    method' uri'
  = lookup_bucket (tests s) method' uri'.
Proof.
  intros Hne. rewrite AddTestCase_tests.
  destruct (fst _); [reflexivity|].
  destruct (testcase_uri uri params) as [key|]; [|reflexivity].
  apply lookup_append_testCase_ne. intros [= -> ->]. destruct Hne; congruence.
Qed.

Lemma AddTestCase_step_bucket s method uri returnStatus requestHeaders
    responseHeaders requestBody responseBody params method' uri' bucket :
  lookup_bucket (tests s) method' uri' = Some bucket ->
  exists added,
    lookup_bucket
      (tests (snd (AddTestCase s method uri returnStatus requestHeaders
                               responseHeaders requestBody responseBody params)))
      method' uri'
    = Some (bucket ++ added)%list.
Proof.
  intros Hb. rewrite AddTestCase_tests.
  destruct (fst _); [exists []; rewrite app_nil_r; exact Hb|].
  destruct (testcase_uri uri params) as [key|];
    [|exists []; rewrite app_nil_r; exact Hb].
  destruct (decide ((method', uri') = (method, key))) as [[= -> ->]|Hne].
  - rewrite lookup_append_testCase, index_bucket_lookup, Hb. cbn [default]. eauto.
  - rewrite lookup_append_testCase_ne by exact Hne.
    exists []. rewrite app_nil_r. exact Hb.
Qed.

Lemma later_bucket s s' method uri bucket :
  later s s' ->
  lookup_bucket (tests s) method uri = Some bucket ->
  exists added, lookup_bucket (tests s') method uri = Some (bucket ++ added)%list.
Proof.
  intros Hlater Hb. induction Hlater as [s|s s' m u st qh ph qb pb ps _ IH].
  - exists []. rewrite app_nil_r. exact Hb.
  - destruct (IH Hb) as [added Hadded].
    destruct (AddTestCase_step_bucket s' m u st qh ph qb pb ps _ _ _ Hadded)
      as [added' Hadded'].
    exists (added ++ added')%list. rewrite app_assoc. exact Hadded'.
Qed.

(** X3. Once a test case is registered it stays registered: after a call
    of [AddTestCase] that succeeded or that was refused as a duplicate, and
    after any further calls of [AddTestCase], every call with the same
    method, a uri and parameters that give the same key, the same request
    headers and a request body that converts to the same bytes (whatever
    its dynamic type) is refused as a duplicate, if its response body
    converts, and leaves the registry as it is. *)
Theorem AddTestCase_registered_stays_duplicate :
  forall s method uri returnStatus requestHeaders responseHeaders
         requestBody responseBody params err s1 s2
         uri' params' returnStatus' responseHeaders' requestBody' responseBody',
    AddTestCase s method uri returnStatus requestHeaders responseHeaders
                requestBody responseBody params = (err, s1) ->
    err = None \/ err = Some "test case already registered" ->
    later s1 s2 ->
    testcase_uri uri' params' = testcase_uri uri params ->
    fst (fst (convertBody requestBody')) = fst (fst (convertBody requestBody)) ->
    snd (convertBody requestBody') = None ->
    snd (convertBody responseBody') = None ->
    AddTestCase s2 method uri' returnStatus' requestHeaders responseHeaders'
                requestBody' responseBody' params'
    = (Some "test case already registered",
       {| tests := tests s2; timer := startTimer (stopTimer (timer s2)) |}).
Proof.
  intros s method uri returnStatus requestHeaders responseHeaders
         requestBody responseBody params err s1 s2
         uri' params' returnStatus' responseHeaders' requestBody' responseBody'
         Hcall Herr Hlater Huri' Hbytes Hreq' Hresp'.
  assert (Hin1 : exists key bucket test,
             testcase_uri uri params = inl key
             /\ lookup_bucket (tests s1) method key = Some bucket
             /\ In test bucket
             /\ request_headers test = requestHeaders
             /\ request_body test = fst (fst (convertBody requestBody))).
  { destruct Herr as [-> | ->].
    - apply AddTestCase_success in Hcall
        as (key & rb & rj & pb & pj & Huri & Hreq & Hresp & _ & ->).
      exists key, (index_bucket (tests s) method key ++
                   [{| status := returnStatus; request_headers := requestHeaders;
                       request_body := rb; request_json := rj;
                       response_headers := responseHeaders;
                       response_body := pb |}])%list.
      eexists. split; [exact Huri|]. cbn [tests].
      split; [apply lookup_bucket_assign|].
      split; [apply in_or_app; right; left; reflexivity|].
      rewrite Hreq. split; reflexivity.
    - apply AddTestCase_duplicate_inv in Hcall
        as (key & Huri & _ & _ & Hdup & ->).
      apply already_registered_true in Hdup as (test & Hin & Hh & Hb).
      rewrite index_bucket_lookup in Hin. cbn [tests].
      destruct (lookup_bucket (tests s) method key) as [bucket|] eqn:Hbucket;
        [|destruct Hin].
      exists key, bucket, test. repeat split; assumption. }
  destruct Hin1 as (key & bucket & test & Huri & Hbucket & Hin & Hh & Hb).
  destruct (later_bucket _ _ _ _ _ Hlater Hbucket) as [added Hbucket2].
  destruct (convertBody requestBody') as [[rb' rj'] reqErr'] eqn:Hrb'.
  destruct (convertBody responseBody') as [[pb' pj'] respErr'] eqn:Hpb'.
  cbn [fst snd] in Hbytes, Hreq', Hresp'. subst reqErr' respErr'.
  rewrite Huri in Huri'.
  assert (Hdup : already_registered
                   {| status := returnStatus'; request_headers := requestHeaders;
                      request_body := rb'; request_json := rj';
                      response_headers := responseHeaders';
                      response_body := pb' |}
                   (index_bucket (tests s2) method key) = true).
  { apply already_registered_true. exists test.
    rewrite index_bucket_lookup, Hbucket2. cbn [default].
    split; [apply in_or_app; left; exact Hin|].
    split; [exact Hh|]. cbn [request_body]. congruence. }
  rewrite (AddTestCase_duplicate _ _ _ _ _ _ _ _ _ _ _ _ _ _ Huri' Hrb' Hpb' Hdup).
  rewrite (ensure_bucket_present _ _ _ _ Hbucket2). reflexivity.
Qed.

(** X4. [AddTestCase] never removes, replaces or reorders an entry: after
    any number of calls, a bucket that was there is still there and begins
    with the entries it had, in their order. *)
Theorem AddTestCase_buckets_grow :
  forall s s' method uri bucket,
    later s s' ->
    lookup_bucket (tests s) method uri = Some bucket ->
    exists added,
      lookup_bucket (tests s') method uri = Some (bucket ++ added)%list.
Proof.
  intros s s' method uri bucket Hlater Hbucket.
  exact (later_bucket _ _ _ _ _ Hlater Hbucket).
Qed.

(** X5. Two calls of [AddTestCase] for different buckets commute: when the
    methods differ or the uris with their parameters give different keys,
    each call returns the same error whichever comes first, and the service
    after both is the same. *)
Theorem AddTestCase_commute :
  forall s method1 uri1 status1 requestHeaders1 responseHeaders1
         requestBody1 responseBody1 params1
         method2 uri2 status2 requestHeaders2 responseHeaders2
         requestBody2 responseBody2 params2,
    method1 <> method2 \/ testcase_uri uri1 params1 <> testcase_uri uri2 params2 ->
    let first1 := AddTestCase s method1 uri1 status1 requestHeaders1
                    responseHeaders1 requestBody1 responseBody1 params1 in
    let then2 := AddTestCase (snd first1) method2 uri2 status2 requestHeaders2
                   responseHeaders2 requestBody2 responseBody2 params2 in
    let first2 := AddTestCase s method2 uri2 status2 requestHeaders2
                    responseHeaders2 requestBody2 responseBody2 params2 in
    let then1 := AddTestCase (snd first2) method1 uri1 status1 requestHeaders1
                   responseHeaders1 requestBody1 responseBody1 params1 in
    fst first1 = fst then1 /\ fst then2 = fst first2 /\ snd then2 = snd then1.
Proof.
  intros s method1 uri1 status1 requestHeaders1 responseHeaders1
         requestBody1 responseBody1 params1
         method2 uri2 status2 requestHeaders2 responseHeaders2
         requestBody2 responseBody2 params2 Hne first1 then2 first2 then1.
  assert (H1 : fst first1 = fst then1).
  { apply AddTestCase_error_local. intros key Hkey.
    rewrite !index_bucket_lookup. f_equal. symmetry.
    apply AddTestCase_frame. destruct Hne as [Hne|Hne]; [left; congruence|].
    right. congruence. }
  assert (H2 : fst then2 = fst first2).
  { apply AddTestCase_error_local. intros key Hkey.
    rewrite !index_bucket_lookup. f_equal.
    apply AddTestCase_frame. destruct Hne as [Hne|Hne]; [left; congruence|].
    right. congruence. }
  split; [exact H1|]. split; [exact H2|].
  apply Service_eq.
  - unfold then1 in H1. unfold then2 in H2. unfold then2, then1.
    rewrite (AddTestCase_tests (snd first1)), (AddTestCase_tests (snd first2)).
    rewrite H2, <- H1. unfold first1, first2. rewrite !AddTestCase_tests.
    destruct (fst (AddTestCase s method1 _ _ _ _ _ _ _)),
             (fst (AddTestCase s method2 _ _ _ _ _ _ _)); try reflexivity;
      destruct (testcase_uri uri1 params1) as [key1|] eqn:Hk1;
      destruct (testcase_uri uri2 params2) as [key2|] eqn:Hk2;
      try reflexivity.
    apply append_testCase_commute. intros [= -> ->]. destruct Hne; congruence.
  - unfold then2, then1, first1, first2.
    rewrite !AddTestCase_timer_state. reflexivity.
Qed.

(** ** The shape of the registry *)

Lemma ensure_bucket_method_ne t method uri method' :
  method' <> method -> ensure_bucket t method uri !! method' = t !! method'.
Proof.
  intros Hne. unfold ensure_bucket, assign_bucket.
  destruct (t !! method) as [inner|] eqn:Hm.
  - destruct (index_method t method !! uri); [reflexivity|].
    rewrite lookup_insert_ne by congruence. reflexivity.
  - destruct (index_method (<[method:=∅]> t) method !! uri).
    + rewrite lookup_insert_ne by congruence. reflexivity.
    + rewrite !lookup_insert_ne by congruence. reflexivity.
Qed.

Lemma registry_well_formed_empty : registry_well_formed ∅.
Proof.
  split.
  - intros method inner H. rewrite lookup_empty in H. discriminate H.
  - intros method uri bucket H. rewrite lookup_bucket_empty in H. discriminate H.
Qed.

Lemma append_testCase_well_formed t method uri tc :
  registry_well_formed t ->
  strings_HasPrefix uri "/" = true ->
  registry_well_formed (append_testCase t method uri tc).
Proof.
  intros [Hinner Hbucket] Hroot. split.
  - intros method' inner.
    destruct (decide (method' = method)) as [->|Hne].
    + unfold append_testCase, assign_bucket. rewrite lookup_insert_eq.
      intros [= <-]. apply insert_non_empty.
    + unfold append_testCase, assign_bucket.
      rewrite lookup_insert_ne by congruence.
      rewrite ensure_bucket_method_ne by exact Hne. apply Hinner.
  - intros method' uri' bucket.
    destruct (decide ((method', uri') = (method, uri))) as [[= -> ->]|Hne].
    + rewrite lookup_append_testCase. intros [= <-].
      split; [|exact Hroot]. intros Happ. apply app_eq_nil in Happ as [_ Hnil].
      discriminate Hnil.
    + rewrite lookup_append_testCase_ne by exact Hne. apply Hbucket.
Qed.

(** ** The paths of the DNS view service *)

(** X14. The path that [Create] sends, "/v1/views/" followed by the name
    of the view, and the path that [Get], [Update] and [Delete] send,
    "views/" followed by the name, give the same bucket key, with every
    list of parameters; for a name that is a clean segment the key is the
    path of [Create] itself. *)
Theorem view_paths_one_key :
  forall (viewName : string) (params : list Param),
    testcase_uri ("views/" +:+ viewName) params
    = testcase_uri ("/v1/views/" +:+ viewName) params
    /\ (clean_segment viewName = true ->
        testcase_uri ("views/" +:+ viewName) []
        = inl ("/v1/views/" +:+ viewName)).
Proof.
  intros viewName params.
  assert (Hprefix : forall ps,
             testcase_uri ("views/" +:+ viewName) ps
             = testcase_uri ("/v1/views/" +:+ viewName) ps).
  { intros ps. exact (testcase_uri_prefix ("views/" +:+ viewName) ps eq_refl). }
  split; [apply Hprefix|].
  intros Hclean. rewrite Hprefix.
  pose proof (testcase_uri_clean ["views"; viewName]) as Hkey.
  cbn [join_segments] in Hkey. rewrite append_nil_r in Hkey.
  apply Hkey; [discriminate|].
  constructor; [reflexivity|]. constructor; [exact Hclean | constructor].
Qed.

End Mock.

Arguments untyped_nil {Other}.
Arguments other_value {Other} v.
Arguments bytes_value {Other} b.
Arguments string_value {Other} s.
Arguments dynamic_value {Other} d.
Arguments Build_Service {Timer} tests timer.
Arguments tests {Timer} s.
Arguments timer {Timer} s.
Arguments ClearTestCases {Timer} s.

(** * The authority parser is never reached

    [AddTestCase] parses "/" and strings that begin with "/v1/": neither has
    an authority, so the result does not depend on [parseAuthority]. *)

Local Arguments String.append !_ _ / : simpl nomatch.

Lemma HasPrefix_split (s prefix : string) :
  strings_HasPrefix s prefix = true -> exists t, s = prefix +:+ t.
Proof.
  revert s. induction prefix as [|p prefix IH]; intros s; simpl.
  - intros _. exists s. reflexivity.
  - destruct s as [|c s]; [discriminate|].
    intros [Hc Hs]%andb_true_iff. apply Ascii.eqb_eq in Hc. subst c.
    destruct (IH s Hs) as [t ->]. exists t. reflexivity.
Qed.

Lemma ensure_prefix_split (uri : string) :
  exists t, ensure_prefix uri = "/v1/" +:+ t.
Proof.
  unfold ensure_prefix. destruct (strings_HasPrefix uri "/v1/") eqn:Hp.
  - exact (HasPrefix_split uri "/v1/" Hp).
  - exists uri. reflexivity.
Qed.

Lemma Cut_v1 (sep : ascii) (t : string) :
  strings_ContainsByte "/v1/" sep = false ->
  strings_Cut ("/v1/" +:+ t) sep
  = let '(before, after, found) := strings_Cut t sep in
    ("/v1/" +:+ before, after, found).
Proof.
  intros Hsep. cbn [strings_ContainsByte] in Hsep.
  apply orb_false_iff in Hsep as [Hslash Hsep].
  apply orb_false_iff in Hsep as [Hv Hsep].
  apply orb_false_iff in Hsep as [H1 _].
  cbn [String.append strings_Cut]. rewrite Hslash, Hv, H1.
  destruct (strings_Cut t sep) as [[before after] found]. reflexivity.
Qed.

Lemma parse_v1 (pa pa' : string -> (option Userinfo * string) + url_error)
    (b : string) :
  parse pa ("/v1/" +:+ b) = parse pa' ("/v1/" +:+ b).
Proof.
  unfold parse.
  destruct (stringContainsCTLByte ("/v1/" +:+ b)); [reflexivity|].
  change (String.eqb ("/v1/" +:+ b) "*") with false. cbv iota.
  change ("/v1/" +:+ b) with (String "/" ("v1/" +:+ b)).
  rewrite getScheme_slash.
  destruct (strings_HasSuffixByte (String "/" ("v1/" +:+ b)) "?"
            && (strings_CountByte (String "/" ("v1/" +:+ b)) "?" =? 1)%nat)
    eqn:Hcond.
  - destruct b as [|c b]; [discriminate Hcond|].
    change (strings_dropLast (String "/" ("v1/" +:+ String c b)))
      with ("/v1/" +:+ strings_dropLast (String c b)).
    reflexivity.
  - change (String "/" ("v1/" +:+ b)) with ("/v1/" +:+ b).
    rewrite (Cut_v1 "?" b eq_refl).
    destruct (strings_Cut b "?") as [[r q] f]. reflexivity.
Qed.

Lemma url_Parse_v1 (pa pa' : string -> (option Userinfo * string) + url_error)
    (t : string) :
  url_Parse pa ("/v1/" +:+ t) = url_Parse pa' ("/v1/" +:+ t).
Proof.
  unfold url_Parse.
  rewrite (Cut_v1 "#" t eq_refl).
  destruct (strings_Cut t "#") as [[b frag] f].
  rewrite (parse_v1 pa pa' b). reflexivity.
Qed.

Lemma testcase_uri_authority
    (pa pa' : string -> (option Userinfo * string) + url_error)
    (uri : string) (params : list Param) :
  testcase_uri pa uri params = testcase_uri pa' uri params.
Proof.
  unfold testcase_uri, request_uri.
  destruct (ensure_prefix_split uri) as [t ->].
  rewrite (url_Parse_v1 pa pa' t). reflexivity.
Qed.

Lemma AddTestCase_authority
    (pa pa' : string -> (option Userinfo * string) + url_error)
    (Other : Type) (marshalOther : Other -> list Byte.byte + string)
    (Timer : Type) (stopTimer startTimer : Timer -> Timer)
    (s : Service Timer) (method uri : string) (returnStatus : Z)
    (requestHeaders responseHeaders : Header)
    (requestBody responseBody : iface Other) (params : list Param) :
  AddTestCase pa Other marshalOther Timer stopTimer startTimer s method uri
              returnStatus requestHeaders responseHeaders requestBody
              responseBody params
  = AddTestCase pa' Other marshalOther Timer stopTimer startTimer s method uri
                returnStatus requestHeaders responseHeaders requestBody
                responseBody params.
Proof.
  unfold AddTestCase, AddTestCase_body.
  rewrite (testcase_uri_authority pa pa' uri params). reflexivity.
Qed.

(** * Bucket keys begin with '/'

    A uri that [AddTestCase] parses begins with "/v1/": its URL has only a
    path, a query and a fragment, and the path begins with '/'.  Resolving
    against the root, the request URI, the parameters and the replacement
    of "//" keep the leading '/'. *)

Section Keys.

Variable parseAuthority : string -> (option Userinfo * string) + url_error.
Variable Other : Type.
Variable marshalOther : Other -> list Byte.byte + string.
Variable Timer : Type.
Variable stopTimer : Timer -> Timer.
Variable startTimer : Timer -> Timer.

Lemma HasPrefix_slash (s : string) :
  strings_HasPrefix s "/" = true <-> exists t, s = String "/" t.
Proof.
  split.
  - intros H. destruct (HasPrefix_split s "/" H) as [t ->]. exists t. reflexivity.
  - intros [t ->]. reflexivity.
Qed.

Lemma HasPrefix_slash_append (s t : string) :
  strings_HasPrefix s "/" = true -> strings_HasPrefix (s +:+ t) "/" = true.
Proof. intros [s' ->]%HasPrefix_slash. reflexivity. Qed.

Lemma unescape_slash (t p : string) :
  unescape (String "/" t) = inl p -> strings_HasPrefix p "/" = true.
Proof.
  cbn [unescape]. change (Ascii.eqb "/" "%") with false. cbv iota.
  destruct (unescape t); intros [= <-]. reflexivity.
Qed.

Lemma escape_slash (t : string) :
  escape (String "/" t) encodePath = String "/" (escape t encodePath).
Proof. reflexivity. Qed.

Lemma setPath_slash (u u' : URL) (t : string) :
  setPath u (String "/" t) = inl u' ->
  Scheme u' = Scheme u /\ Opaque u' = Opaque u /\ Host u' = Host u
  /\ User u' = User u
  /\ strings_HasPrefix (Path u') "/" = true
  /\ (RawPath u' = "" \/ strings_HasPrefix (RawPath u') "/" = true).
Proof.
  unfold setPath.
  destruct (unescape (String "/" t)) as [path|e] eqn:Hpath; [|discriminate].
  generalize (String.eqb (String "/" t) (escape path encodePath)).
  intros same [= <-]. cbn [Scheme Opaque Host User Path RawPath].
  repeat (split; [reflexivity|]).
  split; [exact (unescape_slash t path Hpath)|].
  destruct same; [left | right]; reflexivity.
Qed.

Lemma parse_v1_rooted (b : string) (u : URL) :
  parse parseAuthority ("/v1/" +:+ b) = inl u -> rooted_URL u.
Proof.
  unfold parse.
  destruct (stringContainsCTLByte ("/v1/" +:+ b)); [discriminate|].
  change (String.eqb ("/v1/" +:+ b) "*") with false. cbv iota.
  change ("/v1/" +:+ b) with (String "/" ("v1/" +:+ b)).
  rewrite getScheme_slash.
  destruct (strings_HasSuffixByte (String "/" ("v1/" +:+ b)) "?"
            && (strings_CountByte (String "/" ("v1/" +:+ b)) "?" =? 1)%nat)
    eqn:Hcond.
  - destruct b as [|c b]; [discriminate Hcond|].
    change (strings_dropLast (String "/" ("v1/" +:+ String c b)))
      with ("/v1/" +:+ strings_dropLast (String c b)).
    intros Hset. apply setPath_slash in Hset.
    exact Hset.
  - change (String "/" ("v1/" +:+ b)) with ("/v1/" +:+ b).
    rewrite (Cut_v1 "?" b eq_refl).
    destruct (strings_Cut b "?") as [[r q] f].
    intros Hset. apply setPath_slash in Hset.
    exact Hset.
Qed.

Lemma setFragment_rooted (u u' : URL) (frag : string) :
  setFragment u frag = inl u' -> rooted_URL u -> rooted_URL u'.
Proof.
  unfold setFragment. destruct (unescape frag); [|discriminate].
  intros [= <-] H. exact H.
Qed.

Lemma url_Parse_v1_rooted (t : string) (u : URL) :
  url_Parse parseAuthority ("/v1/" +:+ t) = inl u -> rooted_URL u.
Proof.
  unfold url_Parse. rewrite (Cut_v1 "#" t eq_refl).
  destruct (strings_Cut t "#") as [[b frag] f].
  destruct (parse parseAuthority ("/v1/" +:+ b)) as [url|e] eqn:Hparse;
    [|discriminate].
  apply parse_v1_rooted in Hparse.
  destruct (String.eqb frag "").
  - intros [= <-]. exact Hparse.
  - intros Hfrag. exact (setFragment_rooted _ _ _ Hfrag Hparse).
Qed.

Lemma EscapedPath_rooted (u : URL) :
  strings_HasPrefix (Path u) "/" = true ->
  RawPath u = "" \/ strings_HasPrefix (RawPath u) "/" = true ->
  strings_HasPrefix (EscapedPath u) "/" = true.
Proof.
  intros [p Hp]%HasPrefix_slash Hraw. unfold EscapedPath.
  destruct (negb (String.eqb (RawPath u) "")) eqn:Hnonempty; cbn [andb].
  - destruct Hraw as [Hraw|Hraw].
    + rewrite Hraw in Hnonempty. discriminate Hnonempty.
    + destruct (validEncoded (RawPath u) encodePath && _); [exact Hraw|].
      rewrite Hp. reflexivity.
  - rewrite Hp. reflexivity.
Qed.

Lemma resolvePath_step_rooted (dst : string) (first : bool) (elem : string) :
  strings_HasPrefix dst "/" = true ->
  strings_HasPrefix (fst (resolvePath_step (dst, first) elem)) "/" = true.
Proof.
  intros Hdst. unfold resolvePath_step.
  destruct (String.eqb elem "."); [exact Hdst|].
  destruct (String.eqb elem "..").
  - destruct (before_last _ _); reflexivity.
  - cbn [fst]. apply HasPrefix_slash_append.
    destruct first; [exact Hdst | apply HasPrefix_slash_append, Hdst].
Qed.

Lemma resolvePath_fold_rooted (elems : list string) (st : string * bool) :
  strings_HasPrefix (fst st) "/" = true ->
  strings_HasPrefix (fst (fold_left resolvePath_step elems st)) "/" = true.
Proof.
  revert st. induction elems as [|elem elems IH]; intros [dst first] Hst.
  - exact Hst.
  - cbn [fold_left]. apply IH. apply resolvePath_step_rooted. exact Hst.
Qed.

Lemma resolvePath_rooted (base t : string) :
  strings_HasPrefix (resolvePath base (String "/" t)) "/" = true.
Proof.
  unfold resolvePath. change (Ascii.eqb "/" "/") with true. cbv iota.
  change (String.eqb (String "/" t) "") with false. cbv iota.
  pose proof (resolvePath_fold_rooted (strings_Split (String "/" t) "/")
                ("/", true) eq_refl) as Hfold.
  destruct (fold_left resolvePath_step _ _) as [dst first]. cbn [fst] in Hfold.
  assert (Hr : forall r, strings_HasPrefix r "/" = true ->
                 strings_HasPrefix
                   match r with
                   | String _ (String c r') =>
                       if Ascii.eqb c "/" then String c r' else r
                   | _ => r
                   end "/" = true).
  { intros r [r0 ->]%HasPrefix_slash. destruct r0 as [|c r']; [reflexivity|].
    destruct (Ascii.eqb c "/") eqn:Hc; [|reflexivity].
    apply Ascii.eqb_eq in Hc. subst c. reflexivity. }
  apply Hr. destruct (_ || _); [apply HasPrefix_slash_append|]; exact Hfold.
Qed.

Lemma RequestURI_rooted (u : URL) :
  Opaque u = "" ->
  strings_HasPrefix (Path u) "/" = true ->
  RawPath u = "" \/ strings_HasPrefix (RawPath u) "/" = true ->
  strings_HasPrefix (RequestURI u) "/" = true.
Proof.
  intros Hopaque Hpath Hraw. unfold RequestURI. rewrite Hopaque.
  change (String.eqb "" "") with true. cbv iota.
  pose proof (EscapedPath_rooted u Hpath Hraw) as Hesc.
  assert (Hresult : strings_HasPrefix
                      (if String.eqb (EscapedPath u) "" then "/" else EscapedPath u)
                      "/" = true).
  { destruct (String.eqb (EscapedPath u) ""); [reflexivity | exact Hesc]. }
  destruct (ForceQuery u || nonempty (RawQuery u)); [|exact Hresult].
  apply HasPrefix_slash_append. exact Hresult.
Qed.

Lemma ResolveReference_rooted (ref : URL) :
  rooted_URL ref ->
  strings_HasPrefix
    (RequestURI (ResolveReference (baseUri parseAuthority) ref)) "/" = true.
Proof.
  intros (Hscheme & Hopaque & Hhost & Huser & Hpath & Hraw).
  pose proof (EscapedPath_rooted ref Hpath Hraw) as Hesc.
  apply HasPrefix_slash in Hesc as [e He].
  destruct (proj1 (HasPrefix_slash _) Hpath) as [p Hp].
  rewrite baseUri_root. unfold ResolveReference.
  rewrite Hscheme, Hhost, Huser, Hopaque, Hp, He.
  change (nonempty "") with false.
  change (String.eqb (String "/" p) "") with false.
  cbn [orb andb bool_decide decide_rel]. 
  change (bool_decide (is_Some (@None Userinfo))) with false. cbv iota.
  pose proof (resolvePath_rooted (EscapedPath (set_Path zero_URL "/")) e) as Hres.
  apply HasPrefix_slash in Hres as [r Hr]. rewrite Hr.
  unfold setPath_ignore.
  destruct (setPath _ (String "/" r)) as [u'|err] eqn:Hset.
  - apply setPath_slash in Hset as (_ & Ho & _ & _ & Hp' & Hr').
    apply RequestURI_rooted; [rewrite Ho; exact Hopaque | exact Hp' | exact Hr'].
  - apply RequestURI_rooted; cbn; [exact Hopaque | rewrite Hp; reflexivity | exact Hraw].
Qed.

Lemma collapse_rooted (t : string) :
  strings_HasPrefix (strings_Replace_all (String "/" t) "//" "/") "/" = true.
Proof.
  destruct t as [|c t]; [reflexivity|].
  destruct (Ascii.eqb c "/") eqn:Hc.
  - apply Ascii.eqb_eq in Hc. subst c. rewrite collapse_slash_slash. reflexivity.
  - rewrite (collapse_slash_other _ _ Hc). reflexivity.
Qed.

Lemma testcase_uri_rooted (uri : string) (params : list Param) (key : string) :
  testcase_uri parseAuthority uri params = inl key ->
  strings_HasPrefix key "/" = true.
Proof.
  unfold testcase_uri, request_uri.
  destruct (ensure_prefix_split uri) as [t ->].
  destruct (url_Parse parseAuthority ("/v1/" +:+ t)) as [rel|e] eqn:Hparse;
    [|discriminate].
  apply url_Parse_v1_rooted in Hparse.
  pose proof (ResolveReference_rooted rel Hparse) as Hreq.
  apply HasPrefix_slash in Hreq as [r Hr]. rewrite Hr.
  intros [= <-]. rewrite append_params_spec_query.
  change (String "/" r +:+ spec_query params)
    with (String "/" (r +:+ spec_query params)).
  apply collapse_rooted.
Qed.

(** X6. Every bucket key that [AddTestCase] computes begins with '/',
    whatever the uri and the parameters: a uri that parses never gives an
    empty or a relative key. *)
Theorem AddTestCase_key_rooted :
  forall (uri : string) (params : list Param) (key : string),
    testcase_uri parseAuthority uri params = inl key ->
    exists rest, key = String "/" rest.
Proof.
  intros uri params key Hkey.
  apply HasPrefix_slash. exact (testcase_uri_rooted uri params key Hkey).
Qed.

(** X7. In every service that is reachable from a new one by
    [AddTestCase] and [ClearTestCases], the registry has no empty method
    map and no empty bucket, and every uri key begins with '/': a lookup
    that finds a bucket finds at least one test case. *)
Theorem reachable_well_formed :
  forall s : Service Timer,
    reachable parseAuthority Other marshalOther Timer stopTimer startTimer s ->
    registry_well_formed (tests s).
Proof.
  intros s Hreach.
  induction Hreach as [t|s method uri st qh ph qb pb ps _ IH|s _ _].
  - apply registry_well_formed_empty.
  - rewrite AddTestCase_tests.
    destruct (fst _); [exact IH|].
    destruct (testcase_uri parseAuthority uri ps) as [key|] eqn:Hkey; [|exact IH].
    apply append_testCase_well_formed; [exact IH|].
    exact (testcase_uri_rooted uri ps key Hkey).
  - apply registry_well_formed_empty.
Qed.

(** ** A query in the uri, or as parameters *)

Lemma CTL_append (a b : string) :
  stringContainsCTLByte (a +:+ b)
  = stringContainsCTLByte a || stringContainsCTLByte b.
Proof.
  unfold stringContainsCTLByte. induction a as [|c a IH]; [reflexivity|].
  cbn [String.append list_ascii_of_string existsb]. rewrite IH.
  rewrite orb_assoc. reflexivity.
Qed.

Lemma CountByte_append (a b : string) (c : ascii) :
  strings_CountByte (a +:+ b) c
  = (strings_CountByte a c + strings_CountByte b c)%nat.
Proof.
  induction a as [|x a IH]; [reflexivity|].
  cbn [String.append strings_CountByte]. rewrite IH. lia.
Qed.

Lemma append_nonempty (a b : string) : b <> "" -> a +:+ b <> "".
Proof. destruct a; [intros H; exact H | discriminate]. Qed.

Lemma HasSuffixByte_append (a b : string) (c : ascii) :
  b <> "" -> strings_HasSuffixByte (a +:+ b) c = strings_HasSuffixByte b c.
Proof.
  intros Hb. induction a as [|x a IH]; [reflexivity|].
  cbn [String.append strings_HasSuffixByte].
  pose proof (append_nonempty a b Hb) as Hab.
  destruct (a +:+ b) as [|y s]; [contradiction | exact IH].
Qed.

Lemma HasSuffixByte_count (s : string) (c : ascii) :
  strings_HasSuffixByte s c = true -> strings_CountByte s c <> 0%nat.
Proof.
  induction s as [|x s IH]; [discriminate|].
  destruct s as [|y s].
  - cbn [strings_HasSuffixByte strings_CountByte]. intros ->. discriminate.
  - intros H. specialize (IH H). revert IH.
    generalize (String y s). intros s' IH.
    cbn [strings_CountByte]. lia.
Qed.

Lemma HasSuffixByte_absent (s : string) (c : ascii) :
  strings_ContainsByte s c = false -> strings_HasSuffixByte s c = false.
Proof.
  intros Habsent. destruct (strings_HasSuffixByte s c) eqn:Hsuffix; [|reflexivity].
  apply HasSuffixByte_count in Hsuffix.
  rewrite (CountByte_absent _ _ Habsent) in Hsuffix. contradiction.
Qed.

Lemma Cut_append (a : string) (sep : ascii) (b : string) :
  strings_ContainsByte a sep = false ->
  strings_Cut (a +:+ String sep b) sep = (a, b, true).
Proof.
  induction a as [|x a IH]; cbn [String.append strings_Cut strings_ContainsByte].
  - intros _. rewrite Ascii.eqb_refl. reflexivity.
  - intros [Hx Ha]%orb_false_iff. rewrite Hx, (IH Ha). reflexivity.
Qed.

Lemma parse_v1_path (t : string) :
  strings_ContainsByte t "?" = false ->
  parse parseAuthority ("/v1/" +:+ t)
  = if stringContainsCTLByte t then inr ErrControlCharacter
    else setPath (path_only "") ("/v1/" +:+ t).
Proof.
  intros Ht. unfold parse.
  rewrite CTL_append. change (stringContainsCTLByte "/v1/") with false.
  cbn [orb]. destruct (stringContainsCTLByte t); [reflexivity|].
  change (String.eqb ("/v1/" +:+ t) "*") with false. cbv iota.
  change ("/v1/" +:+ t) with (String "/" ("v1/" +:+ t)) at 1.
  rewrite getScheme_slash.
  change (String "/" ("v1/" +:+ t)) with ("/v1/" +:+ t).
  assert (Habsent : strings_ContainsByte ("/v1/" +:+ t) "?" = false).
  { rewrite ContainsByte_append, Ht. reflexivity. }
  rewrite (HasSuffixByte_absent _ _ Habsent). cbn [andb].
  rewrite (Cut_absent _ _ Habsent). reflexivity.
Qed.

Lemma parse_v1_query (t q : string) :
  strings_ContainsByte t "?" = false ->
  q <> "" ->
  stringContainsCTLByte q = false ->
  parse parseAuthority ("/v1/" +:+ t +:+ String "?" q)
  = if stringContainsCTLByte t then inr ErrControlCharacter
    else setPath (path_only q) ("/v1/" +:+ t).
Proof.
  intros Ht Hq Hctl. unfold parse.
  rewrite !CTL_append. change (stringContainsCTLByte "/v1/") with false.
  change (stringContainsCTLByte (String "?" q))
    with (false || stringContainsCTLByte q).
  rewrite Hctl. cbn [orb]. rewrite orb_false_r.
  destruct (stringContainsCTLByte t); [reflexivity|].
  change (String.eqb ("/v1/" +:+ t +:+ String "?" q) "*") with false. cbv iota.
  change ("/v1/" +:+ t +:+ String "?" q)
    with (String "/" ("v1/" +:+ t +:+ String "?" q)) at 1.
  rewrite getScheme_slash.
  change (String "/" ("v1/" +:+ t +:+ String "?" q))
    with ("/v1/" +:+ t +:+ String "?" q).
  assert (Habsent : strings_ContainsByte ("/v1/" +:+ t) "?" = false).
  { rewrite ContainsByte_append, Ht. reflexivity. }
  rewrite <- (append_assoc "/v1/" t (String "?" q)).
  assert (Hcond : strings_HasSuffixByte (("/v1/" +:+ t) +:+ String "?" q) "?"
                  && (strings_CountByte (("/v1/" +:+ t) +:+ String "?" q) "?" =? 1)%nat
                  = false).
  { rewrite CountByte_append, (CountByte_absent _ _ Habsent).
    change (String "?" q) with ("?" +:+ q).
    rewrite (HasSuffixByte_append _ ("?" +:+ q)) by discriminate.
    rewrite (HasSuffixByte_append "?" q) by exact Hq.
    destruct (strings_HasSuffixByte q "?") eqn:Hsuffix; [|reflexivity].
    apply HasSuffixByte_count in Hsuffix.
    cbn [andb String.append strings_CountByte Ascii.eqb Bool.eqb Nat.add].
    apply Nat.eqb_neq. lia. }
  rewrite Hcond, (Cut_append _ _ _ Habsent). reflexivity.
Qed.

Lemma url_Parse_v1_path (t : string) :
  strings_ContainsByte t "?" = false ->
  strings_ContainsByte t "#" = false ->
  url_Parse parseAuthority ("/v1/" +:+ t)
  = if stringContainsCTLByte t then inr ErrControlCharacter
    else setPath (path_only "") ("/v1/" +:+ t).
Proof.
  intros Hquery Hhash. unfold url_Parse.
  rewrite Cut_absent by (rewrite ContainsByte_append, Hhash; reflexivity).
  rewrite (parse_v1_path t Hquery).
  destruct (stringContainsCTLByte t); [reflexivity|].
  destruct (setPath _ _); reflexivity.
Qed.

Lemma url_Parse_v1_query (t q : string) :
  strings_ContainsByte t "?" = false ->
  strings_ContainsByte t "#" = false ->
  q <> "" ->
  stringContainsCTLByte q = false ->
  strings_ContainsByte q "#" = false ->
  url_Parse parseAuthority ("/v1/" +:+ t +:+ String "?" q)
  = if stringContainsCTLByte t then inr ErrControlCharacter
    else setPath (path_only q) ("/v1/" +:+ t).
Proof.
  intros Hquery Hhash Hq Hctl Hqhash. unfold url_Parse.
  rewrite Cut_absent.
  2:{ rewrite !ContainsByte_append, Hhash.
      cbn [strings_ContainsByte]. rewrite Hqhash. reflexivity. }
  rewrite (parse_v1_query t q Hquery Hq Hctl).
  destruct (stringContainsCTLByte t); [reflexivity|].
  destruct (setPath _ _); reflexivity.
Qed.

Lemma RequestURI_query (t q : string) (u uq : URL) :
  q <> "" ->
  setPath (path_only "") ("/v1/" +:+ t) = inl u ->
  setPath (path_only q) ("/v1/" +:+ t) = inl uq ->
  RequestURI (ResolveReference (baseUri parseAuthority) uq)
  = RequestURI (ResolveReference (baseUri parseAuthority) u) +:+ "?" +:+ q.
Proof.
  intros Hq. unfold setPath.
  destruct (unescape ("/v1/" +:+ t)) as [path|e] eqn:Hpath; [|discriminate].
  change ("/v1/" +:+ t) with (String "/" ("v1/" +:+ t)) in Hpath.
  pose proof (unescape_slash _ _ Hpath) as Hroot.
  apply HasPrefix_slash in Hroot as [p ->].
  generalize (String.eqb ("/v1/" +:+ t) (escape (String "/" p) encodePath)).
  intros same [= <-] [= <-].
  rewrite baseUri_root. unfold ResolveReference, path_only.
  cbn [Scheme Opaque User Host Path RawPath OmitHost ForceQuery RawQuery
       Fragment RawFragment set_Scheme set_RawQuery set_User_Host zero_URL].
  change (nonempty "") with false.
  change (String.eqb (String "/" p) "") with false.
  change (bool_decide (is_Some (@None Userinfo))) with false.
  cbn [orb andb]. cbv iota.
  unfold EscapedPath.
  cbn [Scheme Opaque User Host Path RawPath OmitHost ForceQuery RawQuery
       Fragment RawFragment set_Scheme set_RawQuery set_User_Host set_Path
       zero_URL].
  set (target := resolvePath _ _). clearbody target.
  unfold setPath_ignore, setPath.
  destruct (unescape target) as [path'|e']; unfold RequestURI, EscapedPath;
    cbn [Scheme Opaque User Host Path RawPath OmitHost ForceQuery RawQuery
         Fragment RawFragment set_Scheme set_RawQuery set_User_Host set_Path
         zero_URL];
    change (String.eqb "" "") with true; cbv iota;
    change (nonempty "") with false; cbn [orb];
    (replace (nonempty q) with true
       by (destruct q; [contradiction | reflexivity]));
    reflexivity.
Qed.

Lemma HasPrefix_v1_query (uri q : string) :
  strings_HasPrefix (uri +:+ String "?" q) "/v1/" = strings_HasPrefix uri "/v1/".
Proof.
  destruct uri as [|c1 [|c2 [|c3 [|c4 uri]]]]; cbn;
    repeat match goal with
           | |- context [Ascii.eqb ?c ?d] => is_var c; destruct (Ascii.eqb c d)
           end; reflexivity.
Qed.

Lemma ensure_prefix_query (uri q : string) :
  ensure_prefix (uri +:+ String "?" q) = ensure_prefix uri +:+ String "?" q.
Proof.
  unfold ensure_prefix. rewrite HasPrefix_v1_query.
  destruct (strings_HasPrefix uri "/v1/"); reflexivity.
Qed.

Lemma testcase_uri_query (uri q : string) (params : list Param) :
  spec_query params = String "?" q ->
  q <> "" ->
  strings_ContainsByte uri "?" = false ->
  strings_ContainsByte uri "#" = false ->
  stringContainsCTLByte q = false ->
  strings_ContainsByte q "#" = false ->
  testcase_uri parseAuthority (uri +:+ spec_query params) []
  = testcase_uri parseAuthority uri params.
Proof.
  intros Hparams Hq Hquery Hhash Hctl Hqhash. rewrite Hparams.
  unfold testcase_uri, request_uri. rewrite ensure_prefix_query.
  assert (Hsplit : exists t, ensure_prefix uri = "/v1/" +:+ t
                             /\ strings_ContainsByte t "?" = false
                             /\ strings_ContainsByte t "#" = false).
  { unfold ensure_prefix. destruct (strings_HasPrefix uri "/v1/") eqn:Hp.
    - destruct (HasPrefix_split uri "/v1/" Hp) as [t ->]. exists t.
      rewrite ContainsByte_append in Hquery, Hhash.
      apply orb_false_iff in Hquery as [_ Hquery].
      apply orb_false_iff in Hhash as [_ Hhash]. auto.
    - exists uri. auto. }
  destruct Hsplit as (t & -> & Htq & Hth).
  rewrite (append_assoc "/v1/" t (String "?" q)).
  rewrite (url_Parse_v1_query t q Htq Hth Hq Hctl Hqhash).
  rewrite (url_Parse_v1_path t Htq Hth).
  destruct (stringContainsCTLByte t); [reflexivity|].
  destruct (setPath (path_only "") ("/v1/" +:+ t)) as [u|e] eqn:Hu;
    destruct (setPath (path_only q) ("/v1/" +:+ t)) as [uq|eq] eqn:Huq.
  - rewrite (RequestURI_query t q u uq Hq Hu Huq).
    rewrite (append_params_spec_query _ params), Hparams.
    cbn [append_params]. reflexivity.
  - unfold setPath in Hu, Huq.
    destruct (unescape ("/v1/" +:+ t)); discriminate.
  - unfold setPath in Hu, Huq.
    destruct (unescape ("/v1/" +:+ t)); discriminate.
  - reflexivity.
Qed.

(** X15. A query written in the uri and the same query given as
    parameters name the same bucket: for a uri without '?' and '#' and
    parameters without '#' and control bytes, the uri followed by "?",
    the first key, "=", its value, and "&", key, "=", value for each further
    parameter, registered without parameters, gives the key (or the error)
    of the uri registered with the parameters. *)
Theorem AddTestCase_query_in_uri :
  forall (uri : string) (params : list Param),
    strings_ContainsByte uri "?" = false ->
    strings_ContainsByte uri "#" = false ->
    stringContainsCTLByte (spec_query params) = false ->
    strings_ContainsByte (spec_query params) "#" = false ->
    testcase_uri parseAuthority (uri +:+ spec_query params) []
    = testcase_uri parseAuthority uri params.
Proof.
  intros uri [|p0 rest] Hquery Hhash Hctl Hqhash.
  - cbn [spec_query]. rewrite append_nil_r.
    unfold testcase_uri. destruct (request_uri _ _); reflexivity.
  - apply (testcase_uri_query uri
             (Key p0 +:+ "=" +:+ Value p0 +:+ spec_query_rest rest));
      first [assumption | reflexivity | exact Hctl | exact Hqhash | idtac].
    intros Hempty. apply (f_equal (fun s => strings_ContainsByte s "=")) in Hempty.
    rewrite !ContainsByte_append in Hempty. cbn [strings_ContainsByte] in Hempty.
    rewrite Ascii.eqb_refl in Hempty. cbn [orb] in Hempty.
    rewrite orb_true_r in Hempty. discriminate Hempty.
Qed.

(** ** The fragment of a uri *)

Lemma HasPrefix_v1_fragment (uri frag : string) :
  strings_HasPrefix (uri +:+ String "#" frag) "/v1/" = strings_HasPrefix uri "/v1/".
Proof.
  destruct uri as [|c1 [|c2 [|c3 [|c4 uri]]]]; cbn;
    repeat match goal with
           | |- context [Ascii.eqb ?c ?d] => is_var c; destruct (Ascii.eqb c d)
           end; reflexivity.
Qed.

Lemma ensure_prefix_fragment (uri frag : string) :
  ensure_prefix (uri +:+ String "#" frag) = ensure_prefix uri +:+ String "#" frag.
Proof.
  unfold ensure_prefix. rewrite HasPrefix_v1_fragment.
  destruct (strings_HasPrefix uri "/v1/"); reflexivity.
Qed.

Lemma RequestURI_fragment (u u' : URL) (frag : string) :
  rooted_URL u ->
  setFragment u frag = inl u' ->
  RequestURI (ResolveReference (baseUri parseAuthority) u')
  = RequestURI (ResolveReference (baseUri parseAuthority) u).
Proof.
  intros (Hscheme & Hopaque & Hhost & Huser & Hpath & _).
  apply HasPrefix_slash in Hpath as [p Hp].
  unfold setFragment. destruct (unescape frag) as [f|e]; [|discriminate].
  generalize (String.eqb frag (escape f encodeFragment)). intros same [= <-].
  destruct u as [scheme opaque user host path rawPath omitHost forceQuery
                 rawQuery fragment rawFragment].
  cbn [Scheme Opaque User Host Path] in Hscheme, Hopaque, Hhost, Huser, Hp.
  subst scheme opaque user host path.
  rewrite baseUri_root. unfold ResolveReference, EscapedPath.
  cbn [Scheme Opaque User Host Path RawPath OmitHost ForceQuery RawQuery
       Fragment RawFragment set_Scheme set_RawQuery set_User_Host set_Path
       zero_URL].
  change (nonempty "") with false.
  change (String.eqb (String "/" p) "") with false.
  change (bool_decide (is_Some (@None Userinfo))) with false.
  cbn [orb andb]. cbv iota.
  set (target := resolvePath _ _). clearbody target.
  unfold setPath_ignore, setPath.
  destruct (unescape target) as [path'|e']; unfold RequestURI, EscapedPath;
    cbn [Scheme Opaque User Host Path RawPath OmitHost ForceQuery RawQuery
         Fragment RawFragment set_Scheme set_RawQuery set_User_Host set_Path
         zero_URL];
    reflexivity.
Qed.

(** X16. The fragment of a uri does not reach the bucket key: a uri
    without '#', followed by '#' and a fragment whose escapes are valid,
    gives the key (or the error) of the uri alone, with every list of
    parameters. *)
Theorem AddTestCase_fragment_dropped :
  forall (uri frag : string) (params : list Param) (unescaped : string),
    strings_ContainsByte uri "#" = false ->
    unescape frag = inl unescaped ->
    testcase_uri parseAuthority (uri +:+ "#" +:+ frag) params
    = testcase_uri parseAuthority uri params.
Proof.
  intros uri frag params unescaped Hhash Hfrag.
  change ("#" +:+ frag) with (String "#" frag).
  unfold testcase_uri, request_uri. rewrite ensure_prefix_fragment.
  assert (Hsplit : exists t, ensure_prefix uri = "/v1/" +:+ t
                             /\ strings_ContainsByte ("/v1/" +:+ t) "#" = false).
  { unfold ensure_prefix. destruct (strings_HasPrefix uri "/v1/") eqn:Hp.
    - destruct (HasPrefix_split uri "/v1/" Hp) as [t ->]. exists t. auto.
    - exists uri. split; [reflexivity|].
      rewrite ContainsByte_append, Hhash. reflexivity. }
  destruct Hsplit as (t & -> & Ht).
  unfold url_Parse.
  rewrite (Cut_append _ _ _ Ht), (Cut_absent _ _ Ht).
  destruct (parse parseAuthority ("/v1/" +:+ t)) as [url|e] eqn:Hparse;
    [|reflexivity].
  change (String.eqb "" "") with true. cbv iota.
  destruct (String.eqb frag ""); [reflexivity|].
  apply parse_v1_rooted in Hparse.
  destruct (setFragment url frag) as [url'|e] eqn:Hset.
  - rewrite (RequestURI_fragment url url' frag Hparse Hset). reflexivity.
  - unfold setFragment in Hset. rewrite Hfrag in Hset. discriminate Hset.
Qed.

End Keys.

(** * The DNS view service

    The properties are stated for the second revision; the first one is
    related to it at the end. *)

Section Service.

Variable World : Type.
Variable Context Request Response : Type.
Variable StatusCode : Response -> Z.
Variable Error : Type.
Variable Resp : Error -> option Response.
Variable OtherError : Type.
Variable DNSView : Type.
Variable Name : DNSView -> string.
Variable zero_DNSView : DNSView.
Variable NewRequest :
  Context -> string -> string -> rest.body DNSView
  -> rest.M World (Request * option (rest.error Error OtherError)).
Variable Do :
  forall T : Type,
    Request -> T
    -> rest.M World (T * option Response * option (rest.error Error OtherError)).

Local Abbreviation List := (rest.v2.List NewRequest Do).
Local Abbreviation Create := (rest.v2.Create StatusCode Resp Name NewRequest Do).
Local Abbreviation Get := (rest.v2.Get StatusCode Resp zero_DNSView NewRequest Do).
Local Abbreviation Update := (rest.v2.Update StatusCode Resp Name NewRequest Do).
Local Abbreviation Delete := (rest.v2.Delete StatusCode Resp NewRequest Do).
Local Abbreviation GetPreferences := (rest.v2.GetPreferences NewRequest Do).
Local Abbreviation UpdatePreferences :=
  (rest.v2.UpdatePreferences StatusCode Resp NewRequest Do).

Ltac run_method :=
  unfold rest.v2.List, rest.v2.Create, rest.v2.Get, rest.v2.Update,
         rest.v2.Delete, rest.v2.GetPreferences, rest.v2.UpdatePreferences,
         rest.status_is, rest.panic, mbind, mret, rest.M_bind, rest.M_ret in *;
  repeat case_match; simplify_eq.

(** X8. The methods that return data return none together with an error:
    [List], [GetPreferences] and [UpdatePreferences] return nil with every
    error, whatever [Do] has decoded, and [Get] returns a view exactly when
    it returns no error. *)
Theorem no_data_with_an_error :
  forall (ctx : Context) (viewName : string) (m : rest.preferences) (w : World),
    (forall vl resp err w',
        List ctx w = rest.returned ((vl, resp, Some err), w') -> vl = nil_slice)
    /\ (forall v resp err w',
           Get ctx viewName w = rest.returned ((v, resp, err), w') ->
           (v = None <-> err <> None))
    /\ (forall p resp err w',
           GetPreferences ctx w = rest.returned ((p, resp, Some err), w') ->
           p = rest.nil_preferences)
    /\ (forall p resp err w',
           UpdatePreferences ctx m w = rest.returned ((p, resp, Some err), w') ->
           p = rest.nil_preferences).
Proof.
  intros ctx viewName m w. split; [|split; [|split]].
  - intros vl resp err w' H. run_method; reflexivity.
  - intros v resp err w' H. run_method; split; intros; congruence.
  - intros p resp err w' H. run_method; reflexivity.
  - intros p resp err w' H. run_method; reflexivity.
Qed.

Local Abbreviation answered := (rest.v2.answered StatusCode Resp NewRequest Do).
Local Abbreviation answered_without_response :=
  (rest.v2.answered_without_response Resp NewRequest Do).

Ltac run_client :=
  unfold rest.v2.answered, rest.v2.answered_without_response,
         rest.v2.client_returns, rest.v2.client_makes_no_sentinel,
         rest.v2.no_sentinel in *.

Ltac no_sentinel_case :=
  match goal with
  | HNew : forall ctx method path b w req err w', NewRequest _ _ _ _ _ = _ -> _,
    H : NewRequest _ _ _ _ _ = rest.returned ((_, Some _), _) |- _ =>
      destruct (HNew _ _ _ _ _ _ _ _ H); congruence
  | HDo : forall T req target w target' resp err w', Do _ _ _ _ = _ -> _,
    H : Do _ _ _ _ = rest.returned ((_, _, Some _), _) |- _ =>
      destruct (HDo _ _ _ _ _ _ _ _ H); congruence
  end.

Ltac run_answered :=
  run_method;
  repeat match goal with
         | H1 : ?x = _, H2 : ?x = _ |- _ => rewrite H1 in H2; simplify_eq
         end;
  try congruence;
  try (exfalso;
       match goal with
       | H : (_ =? _)%Z = false |- _ => apply Z.eqb_neq in H; congruence
       end).

(** X9. An error of [NewRequest] ends the call: each of the seven methods
    returns it as it is, with no data and no response, in the world that
    [NewRequest] left, and without calling [Do].  It is not translated and
    its response is not read, whatever its type and its status. *)
Theorem NewRequest_error_returned :
  forall (ctx : Context) (viewName : string) (view : DNSView)
         (m : rest.preferences) (w w1 : World) (req : Request)
         (err : rest.error Error OtherError),
    (NewRequest ctx "GET" "views" rest.no_body w
     = rest.returned ((req, Some err), w1) ->
     List ctx w = rest.returned ((nil_slice, None, Some err), w1))
    /\ (NewRequest ctx "PUT" ("/v1/views/" +:+ Name view)
                   (rest.view_body (Some view)) w
        = rest.returned ((req, Some err), w1) ->
        Create ctx (Some view) w = rest.returned ((None, Some err), w1))
    /\ (NewRequest ctx "GET" ("views/" +:+ viewName) rest.no_body w
        = rest.returned ((req, Some err), w1) ->
        Get ctx viewName w = rest.returned ((None, None, Some err), w1))
    /\ (NewRequest ctx "POST" ("views/" +:+ Name view)
                   (rest.view_ref_body (Some view)) w
        = rest.returned ((req, Some err), w1) ->
        Update ctx (Some view) w = rest.returned ((None, Some err), w1))
    /\ (NewRequest ctx "DELETE" ("views/" +:+ viewName) rest.no_body w
        = rest.returned ((req, Some err), w1) ->
        Delete ctx viewName w = rest.returned ((None, Some err), w1))
    /\ (NewRequest ctx "GET" "config/views/preference" rest.no_body w
        = rest.returned ((req, Some err), w1) ->
        GetPreferences ctx w
        = rest.returned ((rest.nil_preferences, None, Some err), w1))
    /\ (NewRequest ctx "POST" "config/views/preference"
                   (rest.preferences_body m) w
        = rest.returned ((req, Some err), w1) ->
        UpdatePreferences ctx m w
        = rest.returned ((rest.nil_preferences, None, Some err), w1)).
Proof.
  intros ctx viewName view m w w1 req err.
  unfold rest.v2.List, rest.v2.Create, rest.v2.Get, rest.v2.Update,
         rest.v2.Delete, rest.v2.GetPreferences, rest.v2.UpdatePreferences,
         mbind, mret, rest.M_bind, rest.M_ret.
  repeat split; intros ->; reflexivity.
Qed.

(** X10. With a client that does not itself return [ErrViewMissing] or
    [ErrViewExists]: [Get], [Update], [Delete] and [UpdatePreferences]
    return [ErrViewMissing] exactly when [Do] has returned an [Error] whose
    response has the status 404, and they return it with the response that
    [Do] returned; [Create] returns [ErrViewExists] exactly when [Do] has
    returned an [Error] whose response has the status 409, and returns it
    with no response. *)
Theorem sentinel_errors_iff :
  rest.v2.client_makes_no_sentinel NewRequest Do ->
  forall (ctx : Context) (viewName : string) (view : DNSView)
         (m : rest.preferences) (w w' : World) (resp : option Response),
    ((exists v, Get ctx viewName w
                = rest.returned ((v, resp, Some rest.ErrViewMissing), w'))
     <-> answered DNSView ctx "GET" ("views/" +:+ viewName) rest.no_body
                  zero_DNSView rest.http_StatusNotFound w resp w')
    /\ (Update ctx (Some view) w
        = rest.returned ((resp, Some rest.ErrViewMissing), w')
        <-> answered (option DNSView) ctx "POST" ("views/" +:+ Name view)
                     (rest.view_ref_body (Some view)) (Some view)
                     rest.http_StatusNotFound w resp w')
    /\ (Delete ctx viewName w
        = rest.returned ((resp, Some rest.ErrViewMissing), w')
        <-> answered unit ctx "DELETE" ("views/" +:+ viewName) rest.no_body tt
                     rest.http_StatusNotFound w resp w')
    /\ ((exists p, UpdatePreferences ctx m w
                   = rest.returned ((p, resp, Some rest.ErrViewMissing), w'))
        <-> answered rest.preferences ctx "POST" "config/views/preference"
                     (rest.preferences_body m) (rest.mk_preferences ∅)
                     rest.http_StatusNotFound w resp w')
    /\ (Create ctx (Some view) w
        = rest.returned ((resp, Some rest.ErrViewExists), w')
        <-> resp = None
            /\ exists resp0,
                 answered unit ctx "PUT" ("/v1/views/" +:+ Name view)
                          (rest.view_body (Some view)) tt
                          rest.http_StatusConflict w resp0 w').
Proof.
  intros [HNew HDo] ctx viewName view m w w' resp.
  assert (HNew' : forall ctx method path b w req err w',
             NewRequest ctx method path b w = rest.returned ((req, Some err), w') ->
             err <> rest.ErrViewExists /\ err <> rest.ErrViewMissing).
  { intros ? ? ? ? ? ? ? ? H. destruct (HNew _ _ _ _ _ _ _ _ H) as [H1 H2].
    split; congruence. }
  assert (HDo' : forall T req target w target' resp err w',
             Do T req target w = rest.returned ((target', resp, Some err), w') ->
             err <> rest.ErrViewExists /\ err <> rest.ErrViewMissing).
  { intros ? ? ? ? ? ? ? ? H. destruct (HDo _ _ _ _ _ _ _ _ H) as [H1 H2].
    split; congruence. }
  clear HNew HDo.
  assert (Hstatus : forall (r : Response) (code : Z),
             (StatusCode r =? code)%Z = true -> StatusCode r = code).
  { intros r code H. apply Z.eqb_eq, H. }
  split; [|split; [|split; [|split]]]; run_client; split.
  - intros [v H]. run_method; try no_sentinel_case. eauto 12.
  - intros (req & w1 & v & errType & r & HN & HD & HR & HS).
    exists None. run_answered.
  - intros H. run_method; try no_sentinel_case. eauto 12.
  - intros (req & w1 & v & errType & r & HN & HD & HR & HS).
    run_answered.
  - intros H. run_method; try no_sentinel_case. eauto 12.
  - intros (req & w1 & v & errType & r & HN & HD & HR & HS).
    run_answered.
  - intros [p H]. run_method; try no_sentinel_case. eauto 12.
  - intros (req & w1 & v & errType & r & HN & HD & HR & HS).
    exists rest.nil_preferences. run_answered.
  - intros H. run_method; try no_sentinel_case. split; [reflexivity|]. eauto 12.
  - intros [-> (resp0 & req & w1 & v & errType & r & HN & HD & HR & HS)].
    run_answered.
Qed.

(** X11. With a client that does not itself return [ErrViewMissing] or
    [ErrViewExists]: [List] and [GetPreferences] return neither, [Create]
    does not return [ErrViewMissing], and [Get], [Update], [Delete] and
    [UpdatePreferences] do not return [ErrViewExists]. *)
Theorem sentinel_errors_by_method :
  rest.v2.client_makes_no_sentinel NewRequest Do ->
  forall (ctx : Context) (viewName : string) (v : option DNSView)
         (m : rest.preferences) (w w' : World) (resp : option Response),
    (forall vl err,
        List ctx w = rest.returned ((vl, resp, err), w') ->
        rest.v2.no_sentinel err)
    /\ (forall p err,
           GetPreferences ctx w = rest.returned ((p, resp, err), w') ->
           rest.v2.no_sentinel err)
    /\ Create ctx v w <> rest.returned ((resp, Some rest.ErrViewMissing), w')
    /\ (forall view,
           Get ctx viewName w
           <> rest.returned ((view, resp, Some rest.ErrViewExists), w'))
    /\ Update ctx v w <> rest.returned ((resp, Some rest.ErrViewExists), w')
    /\ Delete ctx viewName w <> rest.returned ((resp, Some rest.ErrViewExists), w')
    /\ (forall p,
           UpdatePreferences ctx m w
           <> rest.returned ((p, resp, Some rest.ErrViewExists), w')).
Proof.
  intros [HNew HDo] ctx viewName v m w w' resp.
  assert (HNew' : forall ctx method path b w req err w',
             NewRequest ctx method path b w = rest.returned ((req, Some err), w') ->
             err <> rest.ErrViewExists /\ err <> rest.ErrViewMissing).
  { intros ? ? ? ? ? ? ? ? H. destruct (HNew _ _ _ _ _ _ _ _ H) as [H1 H2].
    split; congruence. }
  assert (HDo' : forall T req target w target' resp err w',
             Do T req target w = rest.returned ((target', resp, Some err), w') ->
             err <> rest.ErrViewExists /\ err <> rest.ErrViewMissing).
  { intros ? ? ? ? ? ? ? ? H. destruct (HDo _ _ _ _ _ _ _ _ H) as [H1 H2].
    split; congruence. }
  clear HNew HDo. run_client.
  split; [|split; [|split; [|split; [|split; [|split]]]]].
  - intros vl err H. run_method; split; first [congruence | no_sentinel_case].
  - intros p err H. run_method; split; first [congruence | no_sentinel_case].
  - intros H. run_method; no_sentinel_case.
  - intros view H. run_method; no_sentinel_case.
  - intros H. run_method; no_sentinel_case.
  - intros H. run_method; no_sentinel_case.
  - intros p H. run_method; no_sentinel_case.
Qed.

(** X12. With a client that does not panic: [List] and [GetPreferences]
    do not panic; [Create] and [Update] panic on a nil view, before any
    request; and [Create], [Get], [Update], [Delete] and
    [UpdatePreferences] panic otherwise exactly when [Do] returns a pointer
    to an [Error] that is nil or that has no response. *)
Theorem panics_iff :
  rest.v2.client_returns NewRequest Do ->
  forall (ctx : Context) (viewName : string) (view : DNSView)
         (m : rest.preferences) (w : World),
    List ctx w <> rest.panicked
    /\ GetPreferences ctx w <> rest.panicked
    /\ Create ctx None w = rest.panicked
    /\ Update ctx None w = rest.panicked
    /\ (Create ctx (Some view) w = rest.panicked
        <-> answered_without_response unit ctx "PUT" ("/v1/views/" +:+ Name view)
              (rest.view_body (Some view)) tt w)
    /\ (Get ctx viewName w = rest.panicked
        <-> answered_without_response DNSView ctx "GET" ("views/" +:+ viewName)
              rest.no_body zero_DNSView w)
    /\ (Update ctx (Some view) w = rest.panicked
        <-> answered_without_response (option DNSView) ctx "POST"
              ("views/" +:+ Name view) (rest.view_ref_body (Some view))
              (Some view) w)
    /\ (Delete ctx viewName w = rest.panicked
        <-> answered_without_response unit ctx "DELETE" ("views/" +:+ viewName)
              rest.no_body tt w)
    /\ (UpdatePreferences ctx m w = rest.panicked
        <-> answered_without_response rest.preferences ctx "POST"
              "config/views/preference" (rest.preferences_body m)
              (rest.mk_preferences ∅) w).
Proof.
  intros [HNew HDo] ctx viewName view m w.
  split; [|split; [|split; [|split; [|split; [|split; [|split; [|split]]]]]]].
  - intros H. run_method; first [eapply HNew; eassumption | eapply HDo; eassumption].
  - intros H. run_method; first [eapply HNew; eassumption | eapply HDo; eassumption].
  - reflexivity.
  - reflexivity.
  - run_client; split.
    + intros H. run_method;
        try (exfalso; first [eapply HNew; eassumption | eapply HDo; eassumption]);
        eauto 14.
    + intros (req & w1 & t & resp & e & w' & HN & HD & He).
      destruct He as [->|[errType [-> HR]]]; run_answered.
  - run_client; split.
    + intros H. run_method;
        try (exfalso; first [eapply HNew; eassumption | eapply HDo; eassumption]);
        eauto 14.
    + intros (req & w1 & t & resp & e & w' & HN & HD & He).
      destruct He as [->|[errType [-> HR]]]; run_answered.
  - run_client; split.
    + intros H. run_method;
        try (exfalso; first [eapply HNew; eassumption | eapply HDo; eassumption]);
        eauto 14.
    + intros (req & w1 & t & resp & e & w' & HN & HD & He).
      destruct He as [->|[errType [-> HR]]]; run_answered.
  - run_client; split.
    + intros H. run_method;
        try (exfalso; first [eapply HNew; eassumption | eapply HDo; eassumption]);
        eauto 14.
    + intros (req & w1 & t & resp & e & w' & HN & HD & He).
      destruct He as [->|[errType [-> HR]]]; run_answered.
  - run_client; split.
    + intros H. run_method;
        try (exfalso; first [eapply HNew; eassumption | eapply HDo; eassumption]);
        eauto 14.
    + intros (req & w1 & t & resp & e & w' & HN & HD & He).
      destruct He as [->|[errType [-> HR]]]; run_answered.
Qed.

(** ** The two revisions *)

Variable context_Background : Context.
Variable NewRequest1 :
  string -> string -> rest.body DNSView
  -> rest.M World (Request * option (rest.error Error OtherError)).
Variable WithContext : Request -> Context -> rest.M World Request.

Local Abbreviation NewRequest2 :=
  (rest.v2.NewRequest_WithContext NewRequest1 WithContext).

(** X13. The first revision's methods with a context are the second
    revision's methods over the client whose [NewRequest] builds the request
    as before and then attaches the context to it: the same results, the
    same panics and the same world, for every method and every input. *)
Theorem revisions_agree :
  forall (ctx : Context) (viewName : string) (v : option DNSView)
         (m : rest.preferences) (w : World),
    rest.v1.ListWithContext NewRequest1 WithContext Do ctx w
    = rest.v2.List NewRequest2 Do ctx w
    /\ rest.v1.CreateWithContext StatusCode Resp Name NewRequest1 WithContext Do ctx v w
       = rest.v2.Create StatusCode Resp Name NewRequest2 Do ctx v w
    /\ rest.v1.GetWithContext StatusCode Resp zero_DNSView NewRequest1 WithContext Do
                              ctx viewName w
       = rest.v2.Get StatusCode Resp zero_DNSView NewRequest2 Do ctx viewName w
    /\ rest.v1.UpdateWithContext StatusCode Resp Name NewRequest1 WithContext Do ctx v w
       = rest.v2.Update StatusCode Resp Name NewRequest2 Do ctx v w
    /\ rest.v1.DeleteWithContext StatusCode Resp NewRequest1 WithContext Do
                                 ctx viewName w
       = rest.v2.Delete StatusCode Resp NewRequest2 Do ctx viewName w
    /\ rest.v1.GetPreferencesWithContext NewRequest1 WithContext Do ctx w
       = rest.v2.GetPreferences NewRequest2 Do ctx w
    /\ rest.v1.UpdatePreferencesWithContext StatusCode Resp NewRequest1 WithContext Do
                                            ctx m w
       = rest.v2.UpdatePreferences StatusCode Resp NewRequest2 Do ctx m w.
Proof.
  intros ctx viewName v m w.
  unfold rest.v1.ListWithContext, rest.v1.CreateWithContext,
         rest.v1.GetWithContext, rest.v1.UpdateWithContext,
         rest.v1.DeleteWithContext, rest.v1.GetPreferencesWithContext,
         rest.v1.UpdatePreferencesWithContext,
         rest.v2.List, rest.v2.Create, rest.v2.Get, rest.v2.Update,
         rest.v2.Delete, rest.v2.GetPreferences, rest.v2.UpdatePreferences,
         rest.v2.NewRequest_WithContext, rest.panic,
         mbind, mret, rest.M_bind, rest.M_ret.
  repeat split; try (destruct v as [view|]; [|reflexivity]);
    match goal with
    | |- context [NewRequest1 ?method ?path ?b ?w] =>
        destruct (NewRequest1 method path b w) as [[[req [err|]] w1]|];
        [reflexivity | | reflexivity]
    end;
    destruct (WithContext req ctx w1) as [[req' w2]|]; reflexivity.
Qed.

End Service.

(** * The timer as a log of its calls

    With the log for a timer, every call of [AddTestCase] adds a stop
    followed by a start, and nothing else. *)

Lemma AddTestCase_timer_log
    (pa : string -> (option Userinfo * string) + url_error)
    (Other : Type) (marshalOther : Other -> list Byte.byte + string)
    (s : Service (list timer_call)) (method uri : string) (returnStatus : Z)
    (requestHeaders responseHeaders : Header)
    (requestBody responseBody : iface Other) (params : list Param) :
  timer (snd (AddTestCase pa Other marshalOther (list timer_call)
                          log_stopTimer log_startTimer s method uri
                          returnStatus requestHeaders responseHeaders
                          requestBody responseBody params))
  = (timer s ++ [stop_call; start_call])%list.
Proof.
  rewrite AddTestCase_timer_state. unfold log_startTimer, log_stopTimer.
  rewrite <- app_assoc. reflexivity.
Qed.

(** * Examples

    The service with the sample collaborators: its timer is the log of the
    calls made on it. *)

Abbreviation sample_uri := (testcase_uri sample_parseAuthority).

Abbreviation sample_AddTestCase :=
  (AddTestCase sample_parseAuthority sample_value sample_Marshal
               (list timer_call) log_stopTimer log_startTimer).

Abbreviation sample_empty :=
  ({| tests := ∅; timer := [] |} : Service (list timer_call)).

Abbreviation sample_registered :=
  ({| tests := {[ "GET" := {[ "/v1/zones" := [get_zones_q] ]} ]};
      timer := [stop_call; start_call] |} : Service (list timer_call)).

Example sample_registered_by_AddTestCase :
  sample_AddTestCase sample_empty "GET" "zones" 200 nil_Header nil_Header
                     (string_value "q") (string_value "r") []
  = (None, sample_registered).
Proof. vm_compute. reflexivity. Qed.

(** C1, an instance: the request of [get_zones_q] registered again, with
    another status, other response headers and another response body. *)
Lemma AddTestCase_duplicate_rejected_witness :
  sample_uri "zones" [] = inl "/v1/zones"
  /\ lookup_bucket (tests sample_registered) "GET" "/v1/zones" = Some [get_zones_q]
  /\ sample_AddTestCase sample_registered "GET" "zones" 404 nil_Header
                        (mk_Header ∅) (string_value "q")
                        (dynamic_value (other_value bool_true)) []
     = (Some "test case already registered",
        {| tests := tests sample_registered;
           timer := [stop_call; start_call; stop_call; start_call] |}).
Proof.
  split; [vm_compute; reflexivity|]. split; [vm_compute; reflexivity|].
  apply (AddTestCase_duplicate_rejected
           sample_parseAuthority sample_value sample_Marshal (list timer_call)
           log_stopTimer log_startTimer sample_registered "GET" "zones" 404
           nil_Header (mk_Header ∅) (string_value "q")
           (dynamic_value (other_value bool_true)) []
           "/v1/zones" (bytes_of_string "q") false [get_zones_q] get_zones_q).
  - vm_compute. reflexivity.
  - reflexivity.
  - reflexivity.
  - vm_compute. reflexivity.
  - left. reflexivity.
  - reflexivity.
  - reflexivity.
Defined.

(** C1 as stated fails: the bucket holds an entry with the same request
    headers and the same request body, and the call returns the response
    conversion error, not the duplicate error. *)
Lemma AddTestCase_duplicate_response_not_converted :
  lookup_bucket (tests sample_registered) "GET" "/v1/zones" = Some [get_zones_q]
  /\ sample_uri "zones" [] = inl "/v1/zones"
  /\ request_headers get_zones_q = nil_Header
  /\ convertBody sample_value sample_Marshal (string_value "q")
     = (request_body get_zones_q, false, None)
  /\ sample_AddTestCase sample_registered "GET" "zones" 200 nil_Header nil_Header
                        (string_value "q") (dynamic_value (other_value chan_int)) []
     = (Some "unable to convert response body to []byte: json: unsupported type: chan int",
        {| tests := tests sample_registered;
           timer := [stop_call; start_call; stop_call; start_call] |})
  /\ Some "unable to convert response body to []byte: json: unsupported type: chan int"
     <> Some "test case already registered".
Proof.
  repeat split; try (vm_compute; reflexivity). discriminate.
Qed.

(** C3 as stated fails: normalizing "a///b" gives "/v1/a//b", and normalizing
    that gives "/v1/a/b"; normalizing "/v1/../x" gives "/x", and normalizing
    that gives "/v1/x". *)
Lemma testcase_uri_not_idempotent :
  sample_uri "a///b" [] = inl "/v1/a//b"
  /\ sample_uri "/v1/a//b" [] = inl "/v1/a/b"
  /\ sample_uri "/v1/../x" [] = inl "/x"
  /\ sample_uri "/x" [] = inl "/v1/x".
Proof. repeat split; vm_compute; reflexivity. Qed.

(** C4, an instance: two plain parameters; the key is the normalized path
    followed by the query string, and the other order gives another key. *)
Lemma AddTestCase_params_key_witness :
  exists key,
    sample_uri "zones/x" [ {| Key := "k1"; Value := "a" |};
                           {| Key := "k2"; Value := "b" |} ] = inl key
    /\ key = "/v1/zones/x?k1=a&k2=b"
    /\ forall key',
         sample_uri "zones/x" [ {| Key := "k2"; Value := "b" |};
                                {| Key := "k1"; Value := "a" |} ] = inl key' ->
         key' <> key.
Proof.
  destruct (AddTestCase_params_key
              sample_parseAuthority sample_value sample_Marshal (list timer_call)
              log_stopTimer log_startTimer sample_empty "GET" "zones/x" 200
              nil_Header nil_Header (dynamic_value untyped_nil)
              (dynamic_value untyped_nil)
              [ {| Key := "k1"; Value := "a" |}; {| Key := "k2"; Value := "b" |} ]
              (snd (sample_AddTestCase sample_empty "GET" "zones/x" 200
                      nil_Header nil_Header (dynamic_value untyped_nil)
                      (dynamic_value untyped_nil)
                      [ {| Key := "k1"; Value := "a" |};
                        {| Key := "k2"; Value := "b" |} ])))
    as (key & requestURI & tc & Hkey & _ & _ & _ & _ & Hother).
  - discriminate.
  - vm_compute. reflexivity.
  - exists key. split; [exact Hkey|]. split.
    + assert (H : sample_uri "zones/x" [ {| Key := "k1"; Value := "a" |};
                                         {| Key := "k2"; Value := "b" |} ]
                  = inl "/v1/zones/x?k1=a&k2=b") by (vm_compute; reflexivity).
      congruence.
    + intros key' Hkey'.
      apply (Hother [ {| Key := "k2"; Value := "b" |};
                      {| Key := "k1"; Value := "a" |} ] key').
      * repeat constructor.
      * repeat constructor.
      * exact Hkey'.
      * discriminate.
Defined.

(** C4 as stated fails: a value with "//" does not reach the key as it
    stands, and two different orders of two different parameters can give
    the same key. *)
Lemma AddTestCase_params_not_verbatim :
  sample_uri "p" [] = inl "/v1/p"
  /\ fst (sample_AddTestCase sample_empty "GET" "p" 200 nil_Header nil_Header
            (dynamic_value untyped_nil) (dynamic_value untyped_nil)
            [ {| Key := "u"; Value := "a//b" |} ]) = None
  /\ sample_uri "p" [ {| Key := "u"; Value := "a//b" |} ] = inl "/v1/p?u=a/b"
  /\ "/v1/p?u=a/b" <> "/v1/p" +:+ spec_query [ {| Key := "u"; Value := "a//b" |} ]
  /\ [ {| Key := "a"; Value := "1&a=1" |}; {| Key := "a"; Value := "1" |} ]
     <> [ {| Key := "a"; Value := "1" |}; {| Key := "a"; Value := "1&a=1" |} ]
  /\ sample_uri "p" [ {| Key := "a"; Value := "1&a=1" |}; {| Key := "a"; Value := "1" |} ]
     = inl "/v1/p?a=1&a=1&a=1"
  /\ sample_uri "p" [ {| Key := "a"; Value := "1" |}; {| Key := "a"; Value := "1&a=1" |} ]
     = inl "/v1/p?a=1&a=1&a=1"
  /\ fst (sample_AddTestCase sample_empty "GET" "p" 200 nil_Header nil_Header
            (dynamic_value untyped_nil) (dynamic_value untyped_nil)
            [ {| Key := "a"; Value := "1&a=1" |}; {| Key := "a"; Value := "1" |} ])
     = None.
Proof.
  repeat split; try (vm_compute; reflexivity); discriminate.
Qed.

(** The uri is parsed before the bodies are converted: with a uri that does
    not parse, [convertBody] is not reached, [json.Marshal] does not run
    and the error is the one of the uri. *)
Example AddTestCase_uri_error_before_conversion :
  snd (convertBody sample_value sample_Marshal (dynamic_value (other_value chan_int)))
  = Some "json: unsupported type: chan int"
  /\ sample_AddTestCase sample_empty "GET" "%zz" 200 nil_Header nil_Header
                        (dynamic_value (other_value chan_int)) (string_value "") []
     = (Some "could not parse testcase uri",
        {| tests := ∅; timer := [stop_call; start_call] |}).
Proof. split; vm_compute; reflexivity. Qed.

(** C9, an instance: a second request body for GET "/v1/zones" lands after
    the first, and the bucket of POST "/v1/zones" stays absent. *)
Lemma AddTestCase_success_frame_witness :
  fst (sample_AddTestCase sample_registered "GET" "zones" 200 nil_Header nil_Header
         (string_value "other") (string_value "r") []) = None
  /\ lookup_bucket (tests sample_registered) "GET" "/v1/zones" = Some [get_zones_q]
  /\ lookup_bucket
       (tests (snd (sample_AddTestCase sample_registered "GET" "zones" 200
                      nil_Header nil_Header (string_value "other")
                      (string_value "r") [])))
       "GET" "/v1/zones"
     = Some [get_zones_q;
             {| status := 200; request_headers := nil_Header;
                request_body := bytes_of_string "other"; request_json := false;
                response_headers := nil_Header;
                response_body := bytes_of_string "r" |}]
  /\ lookup_bucket
       (tests (snd (sample_AddTestCase sample_registered "GET" "zones" 200
                      nil_Header nil_Header (string_value "other")
                      (string_value "r") [])))
       "POST" "/v1/zones"
     = lookup_bucket (tests sample_registered) "POST" "/v1/zones".
Proof.
  split; [vm_compute; reflexivity|]. split; [vm_compute; reflexivity|].
  destruct (AddTestCase_success_frame
              sample_parseAuthority sample_value sample_Marshal (list timer_call)
              log_stopTimer log_startTimer sample_registered "GET" "zones" 200
              nil_Header nil_Header (string_value "other") (string_value "r") []
              (snd (sample_AddTestCase sample_registered "GET" "zones" 200
                      nil_Header nil_Header (string_value "other")
                      (string_value "r") [])))
    as (key & rb & rj & pb & pj & Huri & Hreq & Hresp & Hbucket & Hframe).
  - vm_compute. reflexivity.
  - assert (Hkey : sample_uri "zones" [] = inl "/v1/zones")
      by (vm_compute; reflexivity).
    rewrite Hkey in Huri. injection Huri as <-.
    injection Hreq as <- <-. injection Hresp as <- _.
    split.
    + rewrite Hbucket.
      assert (Hbefore : lookup_bucket (tests sample_registered) "GET" "/v1/zones"
                        = Some [get_zones_q]) by (vm_compute; reflexivity).
      rewrite Hbefore. reflexivity.
    + apply Hframe. intros [=].
Defined.

(** [assert.Equal] tells a nil slice from an empty one, and a nil map from an
    empty one: a request with a nil body and one with an empty body, or with
    nil headers and with empty headers, are both registered. *)
Example nil_and_empty_both_registered :
  assert_Equal_bytes (mk_slice []) nil_slice = false
  /\ assert_Equal_Header (mk_Header ∅) nil_Header = false
  /\ fst (sample_AddTestCase
            (snd (sample_AddTestCase sample_empty "GET" "zones" 200 nil_Header
                    nil_Header (bytes_value nil_slice) (string_value "") []))
            "GET" "zones" 200 nil_Header nil_Header (string_value "")
            (string_value "") []) = None
  /\ fst (sample_AddTestCase
            (snd (sample_AddTestCase sample_empty "GET" "zones" 200 nil_Header
                    nil_Header (string_value "") (string_value "") []))
            "GET" "zones" 200 (mk_Header ∅) nil_Header (string_value "")
            (string_value "") []) = None.
Proof. repeat split; vm_compute; reflexivity. Qed.

(** C2, an instance: the registry of [sample_registered] satisfies the
    invariant, and so does the registry after one more call. *)
Lemma registry_invariant_preserved_witness :
  registry_invariant (tests sample_registered)
  /\ registry_invariant
       (tests (snd (sample_AddTestCase sample_registered "GET" "zones" 200
                      nil_Header nil_Header (string_value "q")
                      (string_value "r") []))).
Proof.
  destruct (registry_invariant_preserved
              sample_parseAuthority sample_value sample_Marshal (list timer_call)
              log_stopTimer log_startTimer) as (Hempty & Hadd & _ & _).
  assert (Hregistered : registry_invariant (tests sample_registered)).
  { change (tests sample_registered)
      with (tests (snd (None : option string, sample_registered))).
    rewrite <- sample_registered_by_AddTestCase.
    apply Hadd. exact Hempty. }
  split; [exact Hregistered|]. apply Hadd. exact Hregistered.
Defined.

(** C3, an instance: "/v1/zones/example.com" is left unchanged, and
    "zones/x" and "/v1/zones/x" give the same key. *)
Lemma testcase_uri_normal_forms_witness :
  sample_uri "/v1/zones/example.com" [] = inl "/v1/zones/example.com"
  /\ sample_uri "zones/x" [] = sample_uri "/v1/zones/x" [].
Proof.
  destruct (testcase_uri_normal_forms
              sample_parseAuthority sample_value sample_Marshal (list timer_call)
              log_stopTimer log_startTimer) as (_ & _ & Hprefix & _ & Hclean).
  split.
  - apply (Hclean ["zones"; "example.com"]); [discriminate | repeat constructor].
  - apply (Hprefix "zones/x" []). reflexivity.
Defined.

(** C5, an instance: the uri parses and the request body is a channel. *)
Lemma convertBody_three_way_witness :
  fst (sample_AddTestCase sample_registered "GET" "zones" 200 nil_Header nil_Header
         (dynamic_value (other_value chan_int)) (string_value "") [])
  = Some "unable to convert request body to []byte: json: unsupported type: chan int"
  /\ tests (snd (sample_AddTestCase sample_registered "GET" "zones" 200 nil_Header
                   nil_Header (dynamic_value (other_value chan_int))
                   (string_value "") []))
     = tests sample_registered.
Proof.
  destruct (convertBody_three_way
              sample_parseAuthority sample_value sample_Marshal (list timer_call)
              log_stopTimer log_startTimer) as (_ & _ & _ & Hcall).
  destruct (Hcall sample_registered "GET" "zones" 200%Z nil_Header nil_Header
              (dynamic_value (other_value chan_int)) (string_value "") []
              "/v1/zones") as [Hrequest _].
  - vm_compute. reflexivity.
  - apply Hrequest. reflexivity.
Defined.

(** C6, an instance: "%zz" is not a valid escape. *)
Lemma AddTestCase_malformed_uri_witness :
  fst (sample_AddTestCase sample_registered "GET" "%zz" 200 nil_Header nil_Header
         (string_value "") (string_value "") [])
  = Some "could not parse testcase uri"
  /\ tests (snd (sample_AddTestCase sample_registered "GET" "%zz" 200 nil_Header
                   nil_Header (string_value "") (string_value "") []))
     = tests sample_registered.
Proof.
  destruct (AddTestCase_malformed_uri
              sample_parseAuthority sample_value sample_Marshal (list timer_call)
              log_stopTimer log_startTimer sample_registered "GET" "%zz" 200%Z
              nil_Header nil_Header (string_value "") (string_value "") [])
    as [[_ Herror] Hunchanged].
  assert (Hparse : exists uriErr,
             url_Parse sample_parseAuthority (ensure_prefix "%zz") = inr uriErr)
    by (eexists; vm_compute; reflexivity).
  split; [apply Herror | apply Hunchanged]; exact Hparse.
Defined.

(** C7, an instance: after clearing [sample_registered], one registration
    leaves exactly one bucket with one entry. *)
Lemma ClearTestCases_empties_witness :
  exists key tc,
    sample_uri "views" [] = inl key
    /\ tests (snd (sample_AddTestCase (ClearTestCases sample_registered) "PUT"
                     "views" 200 nil_Header nil_Header (string_value "")
                     (string_value "") []))
       = {[ "PUT" := {[ key := [tc] ]} ]}.
Proof.
  destruct (ClearTestCases_empties
              sample_parseAuthority sample_value sample_Marshal (list timer_call)
              log_stopTimer log_startTimer sample_registered)
    as (_ & _ & _ & Hnext).
  destruct (Hnext "PUT" "views" 200%Z nil_Header nil_Header
              (string_value "") (string_value "") []) as (_ & _ & Hsuccess).
  apply Hsuccess. vm_compute. reflexivity.
Defined.

(** C10, an instance: an empty string body, then a nil body. *)
Lemma convertBody_nil_interface_witness :
  fst (sample_AddTestCase
         (snd (sample_AddTestCase (ClearTestCases sample_registered) "GET" "zones"
                 200 nil_Header nil_Header (string_value "") (string_value "") []))
         "GET" "zones" 200 nil_Header nil_Header (dynamic_value untyped_nil)
         (string_value "") [])
  = None.
Proof.
  destruct (convertBody_nil_interface
              sample_parseAuthority sample_value sample_Marshal (list timer_call)
              log_stopTimer log_startTimer) as (_ & _ & _ & _ & Hboth).
  apply (Hboth sample_registered "GET" "zones" 200%Z 200%Z nil_Header nil_Header
               nil_Header (string_value "") (string_value "") (string_value "") []).
  - right. left. reflexivity.
  - vm_compute. reflexivity.
  - reflexivity.
Defined.

(** * Examples of the further properties *)

(** X1, an instance: the response body does not convert, and the registry
    is as it was. *)
Lemma AddTestCase_error_unchanged_witness :
  sample_AddTestCase sample_registered "GET" "zones" 200 nil_Header nil_Header
                     (string_value "q") (dynamic_value (other_value chan_int)) []
  = (Some "unable to convert response body to []byte: json: unsupported type: chan int",
     {| tests := tests sample_registered;
        timer := [stop_call; start_call; stop_call; start_call] |})
  /\ {| tests := tests sample_registered;
        timer := [stop_call; start_call; stop_call; start_call] |}
     = {| tests := tests sample_registered;
          timer := log_startTimer (log_stopTimer (timer sample_registered)) |}.
Proof.
  split; [vm_compute; reflexivity|].
  apply (AddTestCase_error_unchanged
           sample_parseAuthority sample_value sample_Marshal (list timer_call)
           log_stopTimer log_startTimer sample_registered "GET" "zones" 200
           nil_Header nil_Header (string_value "q")
           (dynamic_value (other_value chan_int)) []
           "unable to convert response body to []byte: json: unsupported type: chan int").
  vm_compute. reflexivity.
Defined.

(** X3, an instance: a test case registered with the string "null" for a
    request body, then another one for POST; a call with the nil interface
    for a request body, which converts to the same bytes, is refused. *)
Lemma AddTestCase_registered_stays_duplicate_witness :
  fst (sample_AddTestCase sample_empty "GET" "zones" 200 nil_Header nil_Header
         (string_value "null") (string_value "r") []) = None
  /\ sample_AddTestCase
       (snd (sample_AddTestCase
               (snd (sample_AddTestCase sample_empty "GET" "zones" 200 nil_Header
                       nil_Header (string_value "null") (string_value "r") []))
               "POST" "zones" 201 nil_Header nil_Header
               (string_value "q") (string_value "r") []))
       "GET" "/v1/zones" 404 nil_Header (mk_Header ∅)
       (dynamic_value untyped_nil) (dynamic_value (other_value bool_true)) []
     = (Some "test case already registered",
        {| tests :=
             tests (snd (sample_AddTestCase
                           (snd (sample_AddTestCase sample_empty "GET" "zones" 200
                                   nil_Header nil_Header (string_value "null")
                                   (string_value "r") []))
                           "POST" "zones" 201 nil_Header nil_Header
                           (string_value "q") (string_value "r") []));
           timer := [stop_call; start_call; stop_call; start_call;
                     stop_call; start_call] |}).
Proof.
  split; [vm_compute; reflexivity|].
  apply (AddTestCase_registered_stays_duplicate
           sample_parseAuthority sample_value sample_Marshal (list timer_call)
           log_stopTimer log_startTimer sample_empty "GET" "zones" 200
           nil_Header nil_Header (string_value "null") (string_value "r") []
           None
           (snd (sample_AddTestCase sample_empty "GET" "zones" 200 nil_Header
                   nil_Header (string_value "null") (string_value "r") []))).
  - vm_compute. reflexivity.
  - left. reflexivity.
  - apply later_AddTestCase. apply later_now.
  - vm_compute. reflexivity.
  - vm_compute. reflexivity.
  - reflexivity.
  - reflexivity.
Defined.

(** X4, an instance: after another registration for the same key the
    bucket begins with the entry it had. *)
Lemma AddTestCase_buckets_grow_witness :
  lookup_bucket (tests sample_registered) "GET" "/v1/zones" = Some [get_zones_q]
  /\ exists added,
       lookup_bucket
         (tests (snd (sample_AddTestCase sample_registered "GET" "zones" 200
                        nil_Header nil_Header (string_value "other")
                        (string_value "r") [])))
         "GET" "/v1/zones"
       = Some ([get_zones_q] ++ added)%list.
Proof.
  split; [vm_compute; reflexivity|].
  apply (AddTestCase_buckets_grow
           sample_parseAuthority sample_value sample_Marshal (list timer_call)
           log_stopTimer log_startTimer sample_registered).
  - apply later_AddTestCase. apply later_now.
  - vm_compute. reflexivity.
Defined.

(** X5, an instance: the same uri registered for GET and for POST, in
    either order. *)
Lemma AddTestCase_commute_witness :
  "GET" <> "POST"
  /\ snd (sample_AddTestCase
            (snd (sample_AddTestCase sample_registered "GET" "zones" 200 nil_Header
                    nil_Header (string_value "a") (string_value "r") []))
            "POST" "zones" 201 nil_Header nil_Header
            (string_value "b") (string_value "r") [])
     = snd (sample_AddTestCase
              (snd (sample_AddTestCase sample_registered "POST" "zones" 201
                      nil_Header nil_Header (string_value "b") (string_value "r") []))
              "GET" "zones" 200 nil_Header nil_Header
              (string_value "a") (string_value "r") []).
Proof.
  split; [discriminate|].
  apply (AddTestCase_commute
           sample_parseAuthority sample_value sample_Marshal (list timer_call)
           log_stopTimer log_startTimer sample_registered
           "GET" "zones" 200 nil_Header nil_Header
           (string_value "a") (string_value "r") []
           "POST" "zones" 201 nil_Header nil_Header
           (string_value "b") (string_value "r") []).
  left. discriminate.
Defined.

(** X6, an instance. *)
Lemma AddTestCase_key_rooted_witness :
  sample_uri "zones" [ {| Key := "k"; Value := "v" |} ] = inl "/v1/zones?k=v"
  /\ exists rest, "/v1/zones?k=v" = String "/" rest.
Proof.
  split; [vm_compute; reflexivity|].
  apply (AddTestCase_key_rooted sample_parseAuthority "zones"
           [ {| Key := "k"; Value := "v" |} ]).
  vm_compute. reflexivity.
Defined.

(** X7, an instance: the service after one registration. *)
Lemma reachable_well_formed_witness :
  registry_well_formed
    (tests (snd (sample_AddTestCase sample_empty "GET" "zones" 200 nil_Header
                   nil_Header (string_value "q") (string_value "r") []))).
Proof.
  apply (reachable_well_formed
           sample_parseAuthority sample_value sample_Marshal (list timer_call)
           log_stopTimer log_startTimer).
  apply reachable_AddTestCase. apply reachable_new.
Defined.

(** X15, an instance. *)
Lemma AddTestCase_query_in_uri_witness :
  sample_uri ("zones" +:+ spec_query [ {| Key := "k"; Value := "v" |};
                                       {| Key := "l"; Value := "w" |} ]) []
  = sample_uri "zones" [ {| Key := "k"; Value := "v" |};
                         {| Key := "l"; Value := "w" |} ].
Proof.
  apply (AddTestCase_query_in_uri sample_parseAuthority "zones"
           [ {| Key := "k"; Value := "v" |}; {| Key := "l"; Value := "w" |} ]);
    vm_compute; reflexivity.
Defined.

(** X16, an instance. *)
Lemma AddTestCase_fragment_dropped_witness :
  sample_uri ("zones" +:+ "#" +:+ "top%20") [] = sample_uri "zones" [].
Proof.
  apply (AddTestCase_fragment_dropped sample_parseAuthority "zones" "top%20" []
           "top ");
    vm_compute; reflexivity.
Defined.

(** The DNS view service over the sample client. *)

Abbreviation sample_Get :=
  (rest.v2.Get (fun r : Z => r) (fun e : option Z => e) "" sample_NewRequest sample_Do).

Abbreviation sample_Create :=
  (rest.v2.Create (fun r : Z => r) (fun e : option Z => e) (fun v : string => v)
                  sample_NewRequest sample_Do).

Lemma sample_client_makes_no_sentinel :
  rest.v2.client_makes_no_sentinel sample_NewRequest sample_Do.
Proof.
  split.
  - intros ctx method path b w req err w' [= _ <- _]. split; discriminate.
  - intros T req target w target' resp err w'. unfold sample_Do.
    repeat case_match; intros [= _ _ <- _]; split; discriminate.
Qed.

Lemma sample_client_returns : rest.v2.client_returns sample_NewRequest sample_Do.
Proof.
  split.
  - intros ctx method path b w. discriminate.
  - intros T req target w. unfold sample_Do. repeat case_match; discriminate.
Qed.

(** X10, an instance: the view "missing". *)
Lemma sentinel_errors_iff_witness :
  rest.v2.client_makes_no_sentinel sample_NewRequest sample_Do
  /\ exists v,
       sample_Get tt "missing" 0%nat
       = rest.returned ((v, Some 404%Z, Some rest.ErrViewMissing), 1%nat).
Proof.
  split; [exact sample_client_makes_no_sentinel|].
  apply (sentinel_errors_iff
           nat unit string Z (fun r : Z => r) (option Z) (fun e : option Z => e)
           string string (fun v : string => v) "" sample_NewRequest sample_Do
           sample_client_makes_no_sentinel tt "missing" "any"
           rest.nil_preferences 0%nat 1%nat (Some 404%Z)).
  exists "GET views/missing", 0%nat, "", (Some 404%Z), 404%Z.
  repeat split.
Defined.

(** X11, an instance: [Create] of the view "taken" does not return
    [ErrViewMissing]. *)
Lemma sentinel_errors_by_method_witness :
  rest.v2.client_makes_no_sentinel sample_NewRequest sample_Do
  /\ sample_Create tt (Some "taken") 0%nat
     <> rest.returned ((None, Some rest.ErrViewMissing), 1%nat).
Proof.
  split; [exact sample_client_makes_no_sentinel|].
  apply (sentinel_errors_by_method
           nat unit string Z (fun r : Z => r) (option Z) (fun e : option Z => e)
           string string (fun v : string => v) "" sample_NewRequest sample_Do
           sample_client_makes_no_sentinel tt "any" (Some "taken")
           rest.nil_preferences 0%nat 1%nat None).
Defined.

(** X12, an instance: [Get] of the view "broken" panics. *)
Lemma panics_iff_witness :
  rest.v2.client_returns sample_NewRequest sample_Do
  /\ sample_Get tt "broken" 0%nat = rest.panicked.
Proof.
  split; [exact sample_client_returns|].
  apply (panics_iff
           nat unit string Z (fun r : Z => r) (option Z) (fun e : option Z => e)
           string string (fun v : string => v) "" sample_NewRequest sample_Do
           sample_client_returns tt "broken" "any" rest.nil_preferences 0%nat).
  exists "GET views/broken", 0%nat, "", None, (Some None), 1%nat.
  split; [reflexivity|]. split; [reflexivity|].
  right. exists None. split; reflexivity.
Defined.
